(** * Smart file organizer: a model of [smart_organizer/core.py]

    The engine classifies a file, looks for a content duplicate in the
    category folder, picks a free destination name, moves the file and logs
    the move in a JSON ledger; [undo_last_operation] replays the ledger
    backwards.

    Conventions of the model.
    - A [pathlib.Path] is the list of its components below the root
      ([p / n] is [p ++ [n]]); [str] and [Path] are inverse to each other on
      such lists, so the set of [str(dest)] the engine keeps is a set of paths.
    - File names are strings of 8-bit characters; [Str.lower] and
      [Str.upper] are [str.lower] and [str.upper] on names of ASCII
      characters.  Python maps the letters beyond ASCII as well, not always
      one to one; a statement that depends on it is made for ASCII names.
    - [Path.suffix] is the one of Python up to 3.13: the text from the last
      dot of the name, empty when that dot is the first or the last character.
    - SHA-256 and the formatting of a timestamp as a date are parameters
      of the engine, and so is the working directory, which the relative path
      [HISTORY_FILE] is resolved in.
    - The file system is a finite map from paths to nodes.  A file can be
      unreadable ([open] fails); other permissions are not modelled:
      creating, renaming and removing succeed whenever the paths allow it,
      and [os.rename] replaces an existing file, as on POSIX systems.
    - The text of the ledger is either what [json.dump] wrote for a list of
      records or a text that [json.load] rejects with a [JSONDecodeError];
      bytes that do not decode and a JSON document of another shape are not
      modelled.  A statement about every rejected text is made for texts in
      which no JSON value begins.
    - The two [while] loops that look for a free name run on fuel; the fuel
      the model gives them is shown to suffice ([process_file_fuel]). *)

From Stdlib Require Import String Ascii List Bool Arith Lia.
From Stdlib Require Import DecimalString DecimalNat Decimal.
From stdpp Require Import base option list strings gmap fin_maps fin_sets.

Open Scope string_scope.
Open Scope list_scope.

(** ** Strings *)

Module Str.

Definition lower_ascii (c : ascii) : ascii :=
  let n := nat_of_ascii c in
  if ((65 <=? n) && (n <=? 90))%nat then ascii_of_nat (n + 32) else c.

Definition upper_ascii (c : ascii) : ascii :=
  let n := nat_of_ascii c in
  if ((97 <=? n) && (n <=? 122))%nat then ascii_of_nat (n - 32) else c.

Fixpoint map_string (f : ascii -> ascii) (s : string) : string :=
  match s with
  | EmptyString => EmptyString
  | String c s' => String (f c) (map_string f s')
  end.

(** [s.lower()] and [s.upper()], on ASCII strings *)
Definition lower : string -> string := map_string lower_ascii.
Definition upper : string -> string := map_string upper_ascii.

(** [s.startswith(p)] *)
Fixpoint startswith (p s : string) : bool :=
  match p, s with
  | EmptyString, _ => true
  | String a p', String b s' => if Ascii.eqb a b then startswith p' s' else false
  | String _ _, EmptyString => false
  end.

(** [k in s] on strings: [k] occurs in [s] as a block of adjacent characters *)
Fixpoint contains (k s : string) : bool :=
  startswith k s ||
  match s with
  | EmptyString => false
  | String _ s' => contains k s'
  end.

(** [s.rfind('.')], as an option *)
Fixpoint rfind_dot (s : string) : option nat :=
  match s with
  | EmptyString => None
  | String c s' =>
      match rfind_dot s' with
      | Some i => Some (S i)
      | None => if Ascii.eqb c "."%char then Some 0 else None
      end
  end.

(** [s[i:]] *)
Fixpoint drop (i : nat) (s : string) : string :=
  match i, s with
  | 0, _ => s
  | S i', String _ s' => drop i' s'
  | S _, EmptyString => EmptyString
  end.

(** [s[:i]] *)
Fixpoint take (i : nat) (s : string) : string :=
  match i, s with
  | 0, _ => EmptyString
  | S i', String c s' => String c (take i' s')
  | S _, EmptyString => EmptyString
  end.

(** [s.lstrip('.')] *)
Fixpoint lstrip_dot (s : string) : string :=
  match s with
  | String c s' => if Ascii.eqb c "."%char then lstrip_dot s' else s
  | EmptyString => EmptyString
  end.

(** [s.endswith('s')] *)
Fixpoint endswith_s (s : string) : bool :=
  match s with
  | EmptyString => false
  | String c EmptyString => Ascii.eqb c "s"%char
  | String _ s' => endswith_s s'
  end.

(** [str(n)] for a non-negative integer *)
Definition of_nat (n : nat) : string := NilEmpty.string_of_uint (Nat.to_uint n).

(** [f"{n:02d}"]: decimal, padded with a zero to two digits *)
Definition of_nat_02d (n : nat) : string :=
  let s := of_nat n in
  if (String.length s <? 2)%nat then String "0"%char s else s.

End Str.

(** ** Paths *)

Abbreviation path := (list string).

Module Path.

(** [p.name]: the final component, empty for the root *)
Definition name (p : path) : string := List.last p "".

(** [p.parent] *)
Definition parent (p : path) : path := List.removelast p.

(** [p / n] *)
Definition child (p : path) (n : string) : path := p ++ [n].

(** [PurePath.suffix] of a final component *)
Definition suffix_of (nm : string) : string :=
  match Str.rfind_dot nm with
  | Some i => if ((0 <? i) && (i <? String.length nm - 1))%nat then Str.drop i nm else ""
  | None => ""
  end.

(** [PurePath.stem] of a final component: the name without its suffix *)
Definition stem_of (nm : string) : string :=
  match Str.rfind_dot nm with
  | Some i => if ((0 <? i) && (i <? String.length nm - 1))%nat then Str.take i nm else nm
  | None => nm
  end.

Definition suffix (p : path) : string := suffix_of (name p).
Definition stem (p : path) : string := stem_of (name p).

End Path.

(** ** The tables of [OrganizerEngine.__init__]

    A Python dict iterates in insertion order, so each table is the list of
    its items in the order the literal gives them. *)

Definition rules : list (string * list string) :=
  [ ("Resumes", ["resume"; "cv"; "bio"; "profile"; "curriculum"]);
    ("Invoices", ["invoice"; "bill"; "receipt"; "payment"]);
    ("Transcripts", ["transcript"; "marksheet"; "grade"; "score"]);
    ("Contracts", ["agreement"; "contract"; "offer"; "nda"]);
    ("Tax_Docs", ["w2"; "1099"; "tax"; "return"]) ].

Definition media_exts : list (string * list string) :=
  [ ("Images", [".jpg"; ".jpeg"; ".png"; ".heic"; ".gif"; ".webp"]);
    ("Videos", [".mp4"; ".mov"; ".avi"; ".mkv"; ".flv"]);
    ("Audio", [".mp3"; ".wav"; ".aac"; ".m4a"; ".flac"]);
    ("Archives", [".zip"; ".rar"; ".7z"; ".dmg"; ".iso"]) ].

Definition fallback_groups : list (string * list string) :=
  [ ("Misc_Notebooks", [".ipynb"]);
    ("Misc_Presentations", [".ppt"; ".pptx"; ".key"; ".odp"]);
    ("Misc_Documents", [".doc"; ".docx"; ".odt"; ".rtf"; ".txt"]);
    ("Misc_Spreadsheets", [".xls"; ".xlsx"; ".csv"]) ].

(** ** [_get_category] *)

(** [x in xs] for a list of strings *)
Definition mem (x : string) (xs : list string) : bool :=
  existsb (String.eqb x) xs.

(** [for cat, extensions in table.items(): if ext in extensions: return cat] *)
Fixpoint ext_tier (table : list (string * list string)) (ext : string) : option string :=
  match table with
  | [] => None
  | (cat, extensions) :: rest =>
      if mem ext extensions then Some cat else ext_tier rest ext
  end.

(** [for cat, keywords in table.items(): if any(k in name for k in keywords): return cat] *)
Fixpoint keyword_tier (table : list (string * list string)) (nm : string) : option string :=
  match table with
  | [] => None
  | (cat, keywords) :: rest =>
      if existsb (fun k => Str.contains k nm) keywords then Some cat
      else keyword_tier rest nm
  end.

Definition get_category (file_path : path) : string :=
  let name := Str.lower (Path.name file_path) in
  let ext := Str.lower (Path.suffix file_path) in
  match ext_tier media_exts ext with
  | Some cat => cat
  | None =>
      match keyword_tier rules name with
      | Some cat => cat
      | None =>
          match ext_tier fallback_groups ext with
          | Some group_name => group_name
          | None =>
              if negb (String.eqb ext "")
              then "Misc_" +:+ Str.upper (Str.lstrip_dot ext)
              else "Misc_Files"
          end
      end
  end.

(** ** The file system

    A file system is a finite map from paths to nodes.  A file carries
    whether it can be read, its [st_ctime] and its content.  The content of
    the ledger is what [json.load] sees in it: either the list of records a
    [json.dump] wrote, or text that is no JSON document. *)

Record entry := Entry { e_src : path; e_dst : path; e_timestamp : nat }.

Inductive fdata :=
| Bytes (b : string)
| History (h : list entry).

Record file := MkFile { f_readable : bool; f_ctime : nat; f_data : fdata }.

Inductive node :=
| Dir
| File (f : file).

Inductive exn :=
| FileNotFoundError
| FileExistsError
| NotADirectoryError
| IsADirectoryError
| PermissionError
| JSONDecodeError
| ShutilError
| OutOfFuel.

Inductive result (A : Type) :=
| Ok (a : A)
| Raise (e : exn).
Arguments Ok {A} a.
Arguments Raise {A} e.

Global Instance result_ret : MRet result := fun A a => Ok a.
Global Instance result_bind : MBind result := fun A B f m =>
  match m with
  | Ok a => f a
  | Raise e => Raise e
  end.

(** What the engine prints. *)
Inductive msg :=
| MsgDuplicate (name existing : string)
| MsgQuarantined (name : string)
| MsgMoved (category new_name : string)
| MsgNoHistory
| MsgHistoryEmpty
| MsgUndoing (n : nat)
| MsgRestoring (dst_name src_name : string)
| MsgWarning (dst : path).

Module FS.

Definition exists_ (fs : gmap path node) (p : path) : bool :=
  match fs !! p with Some _ => true | None => false end.

Definition is_dir (fs : gmap path node) (p : path) : bool :=
  match fs !! p with Some Dir => true | _ => false end.

Definition is_file (fs : gmap path node) (p : path) : bool :=
  match fs !! p with Some (File _) => true | _ => false end.

(** [p] is an entry of the directory [d] *)
Definition is_child (d p : path) : bool :=
  match p with
  | [] => false
  | _ => bool_decide (Path.parent p = d)
  end.

Definition children (fs : gmap path node) (d : path) : list path :=
  List.filter (is_child d) (map fst (map_to_list fs)).

(** [d.iterdir()], in the order the system lists the entries *)
Definition iterdir (fs : gmap path node) (d : path) : result (list path) :=
  match fs !! d with
  | Some Dir => Ok (children fs d)
  | Some (File _) => Raise NotADirectoryError
  | None => Raise FileNotFoundError
  end.

(** [p.mkdir(exist_ok=True)] *)
Definition mkdir_exist_ok (fs : gmap path node) (p : path) : result (gmap path node) :=
  match fs !! p with
  | Some Dir => Ok fs
  | Some (File _) => Raise FileExistsError
  | None =>
      match fs !! Path.parent p with
      | Some Dir => Ok (<[p := Dir]> fs)
      | Some (File _) => Raise NotADirectoryError
      | None => Raise FileNotFoundError
      end
  end.

(** [p.stat().st_ctime]; directories carry no time in the model and answer 0 *)
Definition st_ctime (fs : gmap path node) (p : path) : result nat :=
  match fs !! p with
  | Some (File f) => Ok (f_ctime f)
  | Some Dir => Ok 0
  | None => Raise FileNotFoundError
  end.

(** Moving the directory [src] with all it holds to the free path [target]. *)
Definition move_tree (fs : gmap path node) (src target : path) : gmap path node :=
  map_fold
    (fun p nd acc =>
       if bool_decide (src `prefix_of` p)
       then <[target ++ drop (length src) p := nd]> acc
       else <[p := nd]> acc)
    ∅ fs.

(** [os.rename(src, target)] with the fallbacks of [shutil.move], once the
    target is known *)
Definition rename (fs : gmap path node) (src target : path) : result (gmap path node) :=
  match fs !! src with
  | None => Raise FileNotFoundError
  | Some (File f) =>
      match fs !! Path.parent target with
      | Some Dir =>
          match fs !! target with
          | Some Dir => Raise IsADirectoryError
          | _ => Ok (<[target := File f]> (delete src fs))
          end
      | Some (File _) => Raise NotADirectoryError
      | None => Raise FileNotFoundError
      end
  | Some Dir =>
      match fs !! Path.parent target with
      | Some Dir =>
          match fs !! target with
          | None =>
              if bool_decide (src `prefix_of` target) then Raise ShutilError
              else Ok (move_tree fs src target)
          | Some _ => Raise FileExistsError
          end
      | Some (File _) => Raise NotADirectoryError
      | None => Raise FileNotFoundError
      end
  end.

(** [shutil.move(src, dst)]: into [dst] when [dst] is a directory *)
Definition shutil_move (fs : gmap path node) (src dst : path) : result (gmap path node) :=
  if is_dir fs dst then
    if bool_decide (src = dst) then Ok fs
    else
      let real_dst := Path.child dst (Path.name src) in
      if exists_ fs real_dst then Raise ShutilError
      else rename fs src real_dst
  else rename fs src dst.

(** [os.remove(p)] *)
Definition remove (fs : gmap path node) (p : path) : result (gmap path node) :=
  match fs !! p with
  | Some (File _) => Ok (delete p fs)
  | Some Dir => Raise IsADirectoryError
  | None => Raise FileNotFoundError
  end.

(** [with open(p, 'w') as f: json.dump(h, f)]: the file is created when
    absent and keeps its node otherwise *)
Definition write_json (fs : gmap path node) (now : nat) (p : path) (h : list entry)
  : result (gmap path node) :=
  match fs !! p with
  | Some Dir => Raise IsADirectoryError
  | Some (File f) => Ok (<[p := File (MkFile (f_readable f) (f_ctime f) (History h))]> fs)
  | None =>
      match fs !! Path.parent p with
      | Some Dir => Ok (<[p := File (MkFile true now (History h))]> fs)
      | Some (File _) => Raise NotADirectoryError
      | None => Raise FileNotFoundError
      end
  end.

(** [with open(p, 'r') as f: json.load(f)], where the content [Bytes] is a
    text that [json.load] rejects and [History] the text of a list of
    records *)
Definition read_json (fs : gmap path node) (p : path) : result (list entry) :=
  match fs !! p with
  | Some (File f) =>
      if f_readable f then
        match f_data f with
        | History h => Ok h
        | Bytes _ => Raise JSONDecodeError
        end
      else Raise PermissionError
  | Some Dir => Raise IsADirectoryError
  | None => Raise FileNotFoundError
  end.

End FS.

(** ** The engine *)

Record engine := Engine { source : path; dry_run : bool }.

(** The state the engine works on: the file system, the attribute
    [simulated_files] ([None] until [process_file] creates it), the clock
    [time.time] reads, and what has been printed (latest first). *)
Record world := World {
  w_fs : gmap path node;
  simulated_files : option (gset path);
  w_clock : nat;
  w_out : list msg
}.

Definition set_fs (w : world) (fs : gmap path node) : world :=
  World fs (simulated_files w) (w_clock w) (w_out w).

Definition print (m : msg) (w : world) : world :=
  World (w_fs w) (simulated_files w) (w_clock w) (m :: w_out w).

(** The paths claimed so far in a simulation. *)
Definition claimed (w : world) : gset path := default ∅ (simulated_files w).

(** [idx] of the first candidate that is not occupied, looking at no more
    than [fuel] candidates from [idx] on. *)
Fixpoint first_free (occupied : path -> bool) (cand : nat -> path) (idx fuel : nat)
  : option nat :=
  match fuel with
  | 0 => None
  | S fuel' =>
      if occupied (cand idx) then first_free occupied cand (S idx) fuel'
      else Some idx
  end.

Section Engine.

(** The directory the process runs in, the digest and the date format. *)
Variable cwd : path.
Variable sha256_hexdigest : fdata -> string.
Variable date_str : nat -> string.

Definition HISTORY_FILE : path := Path.child cwd ".organizer_history.json".

(** [_calculate_hash] *)
Definition calculate_hash (fs : gmap path node) (file_path : path) : string :=
  match fs !! file_path with
  | Some (File f) => if f_readable f then sha256_hexdigest (f_data f) else ""
  | _ => ""
  end.

(** [_log_move] *)
Definition log_move (e : engine) (w : world) (src dst : path) : result world :=
  let entry := Entry src dst (w_clock w) in
  history ←
    (if FS.exists_ (w_fs w) HISTORY_FILE then
       match FS.read_json (w_fs w) HISTORY_FILE with
       | Ok h => Ok h
       | Raise JSONDecodeError => Ok []
       | Raise x => Raise x
       end
     else Ok []);
  let history := history ++ [entry] in
  if negb (dry_run e) then
    fs ← FS.write_json (w_fs w) (w_clock w) HISTORY_FILE history;
    Ok (set_fs w fs)
  else Ok w.

(** The first entry of the category folder that is a file with the hash
    of the new file. *)
Definition find_duplicate (fs : gmap path node) (current_hash : string)
    (entries : list path) : option path :=
  List.find
    (fun existing_file =>
       FS.is_file fs existing_file &&
       String.eqb (calculate_hash fs existing_file) current_hash)
    entries.

(** [dest.exists() or (self.dry_run and str(dest) in self.simulated_files)] *)
Definition occupied (e : engine) (w : world) (dest : path) : bool :=
  FS.exists_ (w_fs w) dest || (dry_run e && bool_decide (dest ∈ claimed w)).

(** The number of candidates the naming loops may have to look at. *)
Definition name_fuel (w : world) : nat := S (size (w_fs w) + size (claimed w)).

(** The candidates of the quarantine loop: the name itself, then
    [Duplicate_1_<name>], [Duplicate_2_<name>], ... *)
Definition quarantine_name (nm : string) (idx : nat) : string :=
  match idx with
  | 0 => nm
  | _ => "Duplicate_" +:+ Str.of_nat idx +:+ "_" +:+ nm
  end.

(** The prefix of the new name. *)
Definition name_prefix (category : string) : string :=
  if String.eqb category "Images" then "Img"
  else if String.eqb category "Videos" then "Vid"
  else if String.eqb category "Audio" then "Aud"
  else if Str.endswith_s category && (4 <? String.length category)%nat
       then Str.take (String.length category - 1) category
  else category.

Definition standard_name (prefix date sfx : string) (idx : nat) : string :=
  prefix +:+ "_" +:+ date +:+ "_" +:+ Str.of_nat_02d idx +:+ sfx.

(** The move or its simulation, at the end of both branches. *)
Definition execute (e : engine) (w : world) (file_path dest : path) : result world :=
  if negb (dry_run e) then
    fs ← FS.shutil_move (w_fs w) file_path dest;
    log_move e (set_fs w fs) file_path dest
  else
    Ok (World (w_fs w) (Some ({[dest]} ∪ claimed w)) (w_clock w) (w_out w)).

(** [process_file].  Beside the new state the model returns the
    destination the call resolved to, [None] when the path is skipped. *)
Definition process_file (e : engine) (w : world) (file_path : path)
  : result (world * option path) :=
  let w := World (w_fs w) (Some (claimed w)) (w_clock w) (w_out w) in
  if FS.is_dir (w_fs w) file_path || Str.startswith "." (Path.name file_path)
  then Ok (w, None)
  else
    let category := get_category file_path in
    let target_dir := Path.child (source e) category in
    fs ← FS.mkdir_exist_ok (w_fs w) target_dir;
    let w := set_fs w fs in
    let current_hash := calculate_hash (w_fs w) file_path in
    entries ← FS.iterdir (w_fs w) target_dir;
    match find_duplicate (w_fs w) current_hash entries with
    | Some existing_file =>
        let w := print (MsgDuplicate (Path.name file_path) (Path.name existing_file)) w in
        let duplicate_dir := Path.child (source e) "Duplicates" in
        fs ← FS.mkdir_exist_ok (w_fs w) duplicate_dir;
        let w := set_fs w fs in
        let cand idx := Path.child duplicate_dir (quarantine_name (Path.name file_path) idx) in
        match first_free (occupied e w) cand 0 (S (name_fuel w)) with
        | None => Raise OutOfFuel
        | Some idx =>
            let dest := cand idx in
            w ← execute e w file_path dest;
            Ok (print (MsgQuarantined (Path.name dest)) w, Some dest)
        end
    | None =>
        timestamp ← FS.st_ctime (w_fs w) file_path;
        let date := date_str timestamp in
        let prefix := name_prefix category in
        let cand idx :=
          Path.child target_dir (standard_name prefix date (Path.suffix file_path) idx) in
        match first_free (occupied e w) cand 1 (name_fuel w) with
        | None => Raise OutOfFuel
        | Some idx =>
            let dest := cand idx in
            w ← execute e w file_path dest;
            Ok (print (MsgMoved category (Path.name dest)) w, Some dest)
        end
    end.

(** One round of the loop of [undo_last_operation]. *)
Definition undo_entry (e : engine) (w : world) (en : entry) : result world :=
  let src := e_src en in
  let dst := e_dst en in
  if FS.exists_ (w_fs w) dst then
    let w := print (MsgRestoring (Path.name dst) (Path.name src)) w in
    if negb (dry_run e) then
      fs ← FS.shutil_move (w_fs w) dst src;
      entries ← FS.iterdir fs (Path.parent dst);
      match entries with
      | [] => Ok (set_fs w (delete (Path.parent dst) fs))
      | _ => Ok (set_fs w fs)
      end
    else Ok w
  else Ok (print (MsgWarning dst) w).

(** [for entry in reversed(history)], on the reversed list *)
Fixpoint undo_entries (e : engine) (w : world) (ens : list entry) : result world :=
  match ens with
  | [] => Ok w
  | en :: rest => w' ← undo_entry e w en; undo_entries e w' rest
  end.

(** [undo_last_operation] *)
Definition undo_last_operation (e : engine) (w : world) : result world :=
  if negb (FS.exists_ (w_fs w) HISTORY_FILE) then Ok (print MsgNoHistory w)
  else
    history ← FS.read_json (w_fs w) HISTORY_FILE;
    match history with
    | [] => Ok (print MsgHistoryEmpty w)
    | _ =>
        let w := print (MsgUndoing (length history)) w in
        w ← undo_entries e w (rev history);
        if negb (dry_run e) then
          fs ← FS.remove (w_fs w) HISTORY_FILE;
          Ok (set_fs w fs)
        else Ok w
    end.

(** A run: [process_file] on each path in turn, as the scan of the
    directory and the watcher call it.  It returns the final state and
    what each call resolved to. *)
Fixpoint run (e : engine) (w : world) (files : list path)
  : result (world * list (option path)) :=
  match files with
  | [] => Ok (w, [])
  | f :: rest =>
      '(w1, d) ← process_file e w f;
      '(w2, ds) ← run e w1 rest;
      Ok (w2, d :: ds)
  end.

End Engine.

(** ** Vocabulary of the statements *)

(** [k] occurs in [s]: some text before it, some text after it. *)
Definition substring (k s : string) : Prop :=
  exists a b, s = a +:+ k +:+ b.

(** An extension is listed in a table. *)
Definition listed (table : list (string * list string)) (ext : string) : Prop :=
  exists cat exts, In (cat, exts) table /\ In ext exts.

(** A keyword of the list occurs in the name. *)
Definition matches (keywords : list string) (nm : string) : Prop :=
  exists k, In k keywords /\ substring k nm.

(** Reading back the decimal numeral of [str(n)] and of [f"{n:02d}"]. *)
Definition parse_nat (s : string) : option nat :=
  Nat.of_uint <$> NilEmpty.uint_of_string s.


(** The file system is a tree: whatever has an entry lies in a directory
    that has one. *)
Definition tree (fs : gmap path node) : Prop :=
  forall d n, is_Some (fs !! Path.child d n) -> fs !! d = Some Dir.

(** A path directly inside the directory the engine organizes: what the scan
    of the directory and the watcher hand to [process_file]. *)
Definition in_source (e : engine) (p : path) : Prop :=
  exists n, p = Path.child (source e) n.

(** [fs1] is [fs] with some directories created. *)
Definition grows (fs fs1 : gmap path node) : Prop :=
  forall q, fs1 !! q = fs !! q \/ (fs !! q = None /\ fs1 !! q = Some Dir).

(** [fs'] is [fs] with some directories removed and any content of the
    ledger [ledger], which is a file of [fs']. *)
Definition shrunk (ledger : path) (fs' fs : gmap path node) : Prop :=
  (forall q, q <> ledger ->
             fs' !! q = fs !! q \/ (fs' !! q = None /\ fs !! q = Some Dir)) /\
  tree fs' /\
  exists f, fs' !! ledger = Some (File f).

(** The destinations a run resolved to, in the order of the calls. *)
Definition resolved (ds : list (option path)) : list path := omap id ds.

(** The ledger [ledger] records exactly the history [h]: no file for the
    empty history, a readable file with the JSON of [h] otherwise. *)
Definition ledger_holds (fs : gmap path node) (ledger : path) (h : list entry) : Prop :=
  match h with
  | [] => fs !! ledger = None
  | _ => exists fl, fs !! ledger = Some (File fl) /\
                    f_readable fl = true /\ f_data fl = History h
  end.

(** One move of a run without simulation, from [fs] to [fs']: the file [p]
    of the source directory goes to the free place [dest] two levels below
    it, in a folder that is created when missing, and the record of the move,
    with the time [t], is appended to the ledger in [cwd]. *)
Definition moved (cwd src_dir : path) (fs fs' : gmap path node)
    (p dest : path) (t : nat) : Prop :=
  exists n c m f fs2 fl,
    p = Path.child src_dir n /\
    dest = Path.child (Path.child src_dir c) m /\
    Str.startswith "." n = false /\
    Str.startswith "." c = false /\
    Str.startswith "." m = false /\
    fs !! p = Some (File f) /\
    grows fs fs2 /\
    tree fs2 /\
    (forall q, fs !! q = None -> fs2 !! q = Some Dir -> q = Path.child src_dir c) /\
    fs2 !! Path.child src_dir c = Some Dir /\
    fs2 !! dest = None /\
    fs2 !! cwd = Some Dir /\
    fs !! Path.child cwd ".organizer_history.json" <> Some Dir /\
    fs' = <[Path.child cwd ".organizer_history.json" := File fl]>
            (<[dest := File f]> (delete p fs2)) /\
    (forall h, ledger_holds fs (Path.child cwd ".organizer_history.json") h ->
               ledger_holds fs' (Path.child cwd ".organizer_history.json")
                 (h ++ [Entry p dest t])).

(** [tree], as a test on the entries of the file system. *)
Definition treeb (fs : gmap path node) : bool :=
  forallb
    (fun p => match p with
              | [] => true
              | _ => FS.is_dir fs (Path.parent p)
              end)
    (map fst (map_to_list fs)).

(** ** Sample data

    A home directory with three pictures, two of them with the same
    content, a text file and a hidden file. *)
Module Sample.

Definition home : path := ["home"; "u"].

Definition picture (b : string) : node := File (MkFile true 5 (Bytes b)).

Definition fs : gmap path node :=
  list_to_map
    [ ([], Dir); (["home"], Dir); (home, Dir);
      (Path.child home "a.jpg", picture "aaa");
      (Path.child home "b.jpg", picture "bbb");
      (Path.child home "c.jpg", picture "aaa");
      (Path.child home "notes.txt", picture "ttt");
      (Path.child home ".hidden", picture "hhh") ].

Definition files : list path :=
  [ Path.child home "a.jpg"; Path.child home "b.jpg"; Path.child home "c.jpg";
    Path.child home ".hidden"; Path.child home "notes.txt" ].

Definition start : world := World fs None 100 [].

(** Stand-ins for the digest and the date format. *)
Definition digest (d : fdata) : string :=
  match d with
  | Bytes b => "sha:" +:+ b
  | History _ => "sha:history"
  end.

Definition date (t : nat) : string := "2024-01-0" +:+ Str.of_nat t.

Definition real : engine := Engine home false.
Definition simulation : engine := Engine home true.

End Sample.

(** The sample run, its final state and its destinations. *)
Definition sample_outcome : world * list (option path) :=
  match run Sample.home Sample.digest Sample.date Sample.real Sample.start Sample.files with
  | Ok r => r
  | Raise _ => (Sample.start, [])
  end.

(** A ledger history that an undo pass can replay on [fs] whichever
    destinations are missing: the sources are pairwise distinct and so are
    the destinations, no source is a destination or lies in the folder of
    one, the ledger is not a destination, and where the destination is
    present it is a file in a directory, its source is free and the folder of
    the source is there. *)
Definition undo_ready (ledger : path) (fs : gmap path node) (h : list entry) : Prop :=
  NoDup (map e_src h) /\
  NoDup (map e_dst h) /\
  Forall
    (fun r =>
       e_dst r <> ledger /\
       Forall (fun r' => e_src r <> e_dst r' /\
                         Path.parent (e_src r) <> Path.parent (e_dst r')) h /\
       (FS.exists_ fs (e_dst r) = true ->
        FS.is_file fs (e_dst r) = true /\
        FS.is_dir fs (Path.parent (e_dst r)) = true /\
        FS.exists_ fs (e_src r) = false /\
        FS.is_dir fs (Path.parent (e_src r)) = true))
    h.

Global Instance undo_ready_dec ledger fs h : Decision (undo_ready ledger fs h).
Proof. unfold undo_ready. apply _. Defined.

(** The state after the sample run, with one destination deleted by hand. *)
Definition sample_tampered : world :=
  set_fs (fst sample_outcome)
    (delete ["home"; "u"; "Images"; "Img_2024-01-05_02.jpg"] (w_fs (fst sample_outcome))).

Definition sample_history : list entry :=
  match FS.read_json (w_fs sample_tampered) (HISTORY_FILE Sample.home) with
  | Ok h => h
  | Raise _ => []
  end.

(** A directory with two files that cannot be read, one of them already in
    the [Images] folder. *)
Definition locked_fs : gmap path node :=
  list_to_map
    [ ([], Dir); (["home"], Dir); (Sample.home, Dir);
      (Path.child Sample.home "Images", Dir);
      (Path.child (Path.child Sample.home "Images") "x.jpg",
       File (MkFile false 5 (Bytes "one picture")));
      (Path.child Sample.home "y.jpg",
       File (MkFile false 6 (Bytes "another picture"))) ].

(** A ledger whose text is no JSON document. *)
Definition malformed_ledger (cwd : path) : world :=
  World {[ HISTORY_FILE cwd := File (MkFile true 0 (Bytes "{ not json")) ]} None 7 [].

(** ** The one-shot scan of [cli.main]

    [for item in target_path.iterdir(): if item.is_file():
    engine.process_file(item)]: the directory is listed once, and each
    entry that is a file when its turn comes is handed to [process_file].
    Beside the final state the model returns, for every entry handed over,
    the entry and what the call resolved to. *)

Section Scan.

Variable cwd : path.
Variable sha256_hexdigest : fdata -> string.
Variable date_str : nat -> string.

Fixpoint scan_items (e : engine) (w : world) (items : list path)
  : result (world * list (path * option path)) :=
  match items with
  | [] => Ok (w, [])
  | item :: rest =>
      if FS.is_file (w_fs w) item then
        '(w1, d) ← process_file cwd sha256_hexdigest date_str e w item;
        '(w2, ds) ← scan_items e w1 rest;
        Ok (w2, (item, d) :: ds)
      else scan_items e w rest
  end.

Definition scan (e : engine) (w : world) : result (world * list (path * option path)) :=
  items ← FS.iterdir (w_fs w) (source e);
  scan_items e w items.

End Scan.

(** ** More vocabulary of the statements *)

(** The moves of a run: each path with the destination its call resolved
    to, the skipped paths left out. *)
Fixpoint moves (files : list path) (ds : list (option path)) : list (path * path) :=
  match files, ds with
  | p :: files', Some dest :: ds' => (p, dest) :: moves files' ds'
  | _ :: files', None :: ds' => moves files' ds'
  | _, _ => []
  end.

(** What the undo prints for a record, on the file system [fs]. *)
Definition undo_report (fs : gmap path node) (r : entry) : msg :=
  if FS.exists_ fs (e_dst r)
  then MsgRestoring (Path.name (e_dst r)) (Path.name (e_src r))
  else MsgWarning (e_dst r).

(** The sample directory after the sample run. *)
Definition sample_organized : world := fst sample_outcome.

(** The first call of the sample run, real and simulated. *)
Definition sample_step : world * option path :=
  match process_file Sample.home Sample.digest Sample.date Sample.real Sample.start
          (Path.child Sample.home "a.jpg") with
  | Ok r => r
  | Raise _ => (Sample.start, None)
  end.

Definition sample_step_simulated : world * option path :=
  match process_file Sample.home Sample.digest Sample.date Sample.simulation Sample.start
          (Path.child Sample.home "a.jpg") with
  | Ok r => r
  | Raise _ => (Sample.start, None)
  end.

(** The sample run in simulation. *)
Definition sample_simulated : world * list (option path) :=
  match run Sample.home Sample.digest Sample.date Sample.simulation Sample.start
          Sample.files with
  | Ok r => r
  | Raise _ => (Sample.start, [])
  end.

(** The sample directory scanned by the one-shot run. *)
Definition sample_scan : world * list (path * option path) :=
  match scan Sample.home Sample.digest Sample.date Sample.real Sample.start with
  | Ok r => r
  | Raise _ => (Sample.start, [])
  end.

(** A state with a ledger that cannot be read, and one with a folder at the
    place of the ledger. *)
Definition locked_ledger (cwd : path) : world :=
  World {[ HISTORY_FILE cwd := File (MkFile false 0 (History [])) ]} None 7 [].

Definition folder_ledger (cwd : path) : world :=
  World {[ HISTORY_FILE cwd := Dir ]} None 7 [].

(** ** Inputs on which the model is the code

    Python's [str.lower] and [str.upper] follow Unicode ([upper] turns the
    sharp s into [SS]); [Str.lower] and [Str.upper] are these functions on
    names made of ASCII characters.  [json.load] decodes the file and parses
    it; [FS.read_json] on a text file is [json.load] on a text it rejects
    with a [JSONDecodeError]. *)

(** A name of ASCII characters. *)
Fixpoint ascii_only (s : string) : bool :=
  match s with
  | EmptyString => true
  | String c s' => (nat_of_ascii c <? 128)%nat && ascii_only s'
  end.

(** The white space [json] skips: space, tab, line feed, carriage return. *)
Definition json_ws (c : ascii) : bool :=
  existsb (Nat.eqb (nat_of_ascii c)) [32; 9; 10; 13].

Fixpoint skip_ws (s : string) : string :=
  match s with
  | EmptyString => EmptyString
  | String c s' => if json_ws c then skip_ws s' else s
  end.

(** The characters a JSON value can begin with, for Python's decoder: the
    double quote, [{], [[], [-], a digit, and the first letters of [true],
    [false], [null], [NaN] and [Infinity]. *)
Definition value_start (c : ascii) : bool :=
  let n := nat_of_ascii c in
  existsb (Nat.eqb n) [34; 123; 91; 45; 116; 102; 110; 78; 73]
  || ((48 <=? n) && (n <=? 57))%nat.

(** An ASCII text in which no JSON value begins: it is empty but for white
    space, or its first other character cannot start a value.  [json.load]
    decodes such a text and rejects it with [JSONDecodeError]
    (Expecting value). *)
Definition no_json_value (b : string) : bool :=
  ascii_only b &&
  match skip_ws b with
  | EmptyString => true
  | String c _ => negb (value_start c)
  end.

(** A state whose ledger was overwritten with other text. *)
Definition garbled_ledger (cwd : path) : world :=
  World {[ HISTORY_FILE cwd := File (MkFile true 0 (Bytes "  history lost")) ]} None 7 [].

(** ** Ledgers that undo does not replay to the sources *)

(** The sample directory after [a.jpg] was organized and not undone, with a
    new file at [a.jpg]: the ledger of the earlier call is still there. *)
Definition sample_relogged : world :=
  set_fs (fst sample_step)
    (<[Path.child Sample.home "a.jpg" := Sample.picture "new"]> (w_fs (fst sample_step))).

(** The new [a.jpg] organized in its turn. *)
Definition sample_rerun : world * list (option path) :=
  match run Sample.home Sample.digest Sample.date Sample.real sample_relogged
          [Path.child Sample.home "a.jpg"] with
  | Ok r => r
  | Raise _ => (sample_relogged, [])
  end.

(** A directory with a file named [Images], without extension, and a
    picture. *)
Definition shadow_fs : gmap path node :=
  list_to_map
    [ ([], Dir); (["home"], Dir); (Sample.home, Dir);
      (Path.child Sample.home "Images", Sample.picture "iii");
      (Path.child Sample.home "a.jpg", Sample.picture "aaa") ].

(** Both files organized, [Images] first, which frees the name for the
    folder of the picture. *)
Definition shadow_outcome : world * list (option path) :=
  match run Sample.home Sample.digest Sample.date Sample.real (World shadow_fs None 100 [])
          [Path.child Sample.home "Images"; Path.child Sample.home "a.jpg"] with
  | Ok r => r
  | Raise _ => (World shadow_fs None 100 [], [])
  end.

(** The picture deleted from the [Images] folder afterwards. *)
Definition sample_shadowed : world :=
  set_fs (fst shadow_outcome)
    (delete ["home"; "u"; "Images"; "Img_2024-01-05_01.jpg"] (w_fs (fst shadow_outcome))).

Definition shadow_history : list entry :=
  match FS.read_json (w_fs sample_shadowed) (HISTORY_FILE Sample.home) with
  | Ok h => h
  | Raise _ => []
  end.
Example get_category_resume :
  get_category ["home"; "u"; "My_Resume_2023.pdf"] = "Resumes".
Proof. reflexivity. Qed.

Example get_category_xyz : get_category ["home"; "u"; "data.xyz"] = "Misc_XYZ".
Proof. reflexivity. Qed.

Example get_category_noext : get_category ["home"; "u"; "README"] = "Misc_Files".
Proof. reflexivity. Qed.

Example suffix_examples :
  Path.suffix_of "a.tar.gz" = ".gz" /\ Path.suffix_of ".bashrc" = "" /\
  Path.suffix_of "trailing." = "" /\ Path.suffix_of "A.JPG" = ".JPG".
Proof. repeat split. Qed.

Example of_nat_02d_examples :
  Str.of_nat_02d 1 = "01" /\ Str.of_nat_02d 12 = "12" /\ Str.of_nat_02d 123 = "123".
Proof. repeat split. Qed.
(** * Classification *)

Section Classifier.

Lemma startswith_spec k s :
  Str.startswith k s = true <-> exists b, s = k +:+ b.
Proof.
  revert s. induction k as [|a k IH]; intros s; simpl.
  - split; [intros _; now exists s | reflexivity].
  - destruct s as [|c s].
    + split; [discriminate | intros [b Hb]; discriminate].
    + destruct (Ascii.eqb_spec a c) as [->|Hne].
      * rewrite IH. split; intros [b Hb]; exists b.
        -- now rewrite Hb.
        -- now injection Hb.
      * split; [discriminate | intros [b Hb]]. injection Hb as Hc _.
        now destruct Hne.
Qed.

Lemma contains_spec k s : Str.contains k s = true <-> substring k s.
Proof.
  unfold substring. induction s as [|c s IH].
  - simpl. rewrite orb_false_r, startswith_spec. split.
    + intros [b Hb]. now exists "", b.
    + intros ([|x a] & b & Hab); [now exists b | discriminate].
  - cbn [Str.contains]. rewrite orb_true_iff, startswith_spec, IH. split.
    + intros [[b Hb] | (a & b & Hab)].
      * now exists "", b.
      * exists (String c a), b. now rewrite Hab.
    + intros ([|x a] & b & Hab).
      * left. now exists b.
      * right. injection Hab as _ Hs. now exists a, b.
Qed.

Lemma mem_spec x xs : mem x xs = true <-> In x xs.
Proof.
  unfold mem. rewrite existsb_exists. split.
  - intros (y & Hy & Heq). apply String.eqb_eq in Heq. now subst.
  - intros Hin. exists x. split; [done | apply String.eqb_refl].
Qed.

Lemma any_keyword_spec keywords nm :
  existsb (fun k => Str.contains k nm) keywords = true <-> matches keywords nm.
Proof.
  unfold matches. rewrite existsb_exists.
  split; intros (k & Hk & Hc); exists k; split; try done; now apply contains_spec.
Qed.

Lemma ext_tier_listed table ext :
  ext_tier table ext <> None <-> listed table ext.
Proof.
  unfold listed. induction table as [|[cat exts] rest IH]; simpl.
  - split; [congruence | intros (? & ? & [] & _)].
  - destruct (mem ext exts) eqn:Hm.
    + split; [intros _ | congruence]. exists cat, exts. split; [now left|].
      now apply mem_spec.
    + rewrite IH. split.
      * intros (c & es & Hin & He). exists c, es. split; [now right | done].
      * intros (c & es & [Heq | Hin] & He).
        -- injection Heq as <- <-. apply mem_spec in He. congruence.
        -- now exists c, es.
Qed.

Lemma keyword_tier_matches table nm :
  keyword_tier table nm <> None <->
  exists cat keywords, In (cat, keywords) table /\ matches keywords nm.
Proof.
  induction table as [|[cat kws] rest IH]; simpl.
  - split; [congruence | intros (? & ? & [] & _)].
  - destruct (existsb _ kws) eqn:Hm.
    + split; [intros _ | congruence]. exists cat, kws. split; [now left|].
      now apply any_keyword_spec.
    + rewrite IH. split.
      * intros (c & ks & Hin & He). exists c, ks. split; [now right | done].
      * intros (c & ks & [Heq | Hin] & He).
        -- injection Heq as <- <-. apply any_keyword_spec in He. congruence.
        -- now exists c, ks.
Qed.

(** The keyword tier answers with the first item of the table that has a
    keyword in the name. *)
Lemma keyword_tier_first table nm i cat keywords :
  table !! i = Some (cat, keywords) ->
  matches keywords nm ->
  (forall j c ks, j < i -> table !! j = Some (c, ks) -> ~ matches ks nm) ->
  keyword_tier table nm = Some cat.
Proof.
  revert i. induction table as [|[c0 ks0] rest IH]; intros i Hi Hm Hbefore.
  - discriminate.
  - simpl. destruct i as [|i].
    + injection Hi as -> ->. apply any_keyword_spec in Hm. now rewrite Hm.
    + destruct (existsb _ ks0) eqn:H0.
      * apply any_keyword_spec in H0. destruct (Hbefore 0 c0 ks0); [lia | done | done].
      * apply (IH i); [done | done |].
        intros j c ks Hj Hl. apply (Hbefore (S j) c ks); [lia | done].
Qed.

(** The category of a path is a function of its lowercased name and
    extension, the media tier first. *)
Lemma get_category_media file_path cat :
  ext_tier media_exts (Str.lower (Path.suffix file_path)) = Some cat ->
  get_category file_path = cat.
Proof. intros H. unfold get_category. now rewrite H. Qed.

Lemma get_category_keyword file_path cat :
  ext_tier media_exts (Str.lower (Path.suffix file_path)) = None ->
  keyword_tier rules (Str.lower (Path.name file_path)) = Some cat ->
  get_category file_path = cat.
Proof. intros H1 H2. unfold get_category. now rewrite H1, H2. Qed.

End Classifier.

(** C4, as stated, fails: [resume.txt] and [notes.txt] have the same
    extension, listed in the fallback-group table, and different categories. *)
Lemma C4_fallback_extension_not_decisive :
  ~ (forall p1 p2 : path,
       Path.suffix p1 = Path.suffix p2 ->
       listed media_exts (Str.lower (Path.suffix p1)) \/
       listed fallback_groups (Str.lower (Path.suffix p1)) ->
       get_category p1 = get_category p2).
Proof.
  intros H.
  specialize (H ["resume.txt"] ["notes.txt"] eq_refl).
  assert (Hl : listed fallback_groups (Str.lower (Path.suffix ["resume.txt"]))).
  { exists "Misc_Documents", [".doc"; ".docx"; ".odt"; ".rtf"; ".txt"].
    split; simpl; tauto. }
  specialize (H (or_intror Hl)). vm_compute in H. discriminate.
Qed.

(** C4, amended: two names with the same extension up to case get the same
    category when the extension is in the media table, and also when it is in
    the fallback-group table and no rule keyword occurs in either lowercased
    name (the keyword tier comes before the fallback groups). *)
Theorem C4_category_by_extension (p1 p2 : path) :
  Str.lower (Path.suffix p1) = Str.lower (Path.suffix p2) ->
  listed media_exts (Str.lower (Path.suffix p1)) \/
  (listed fallback_groups (Str.lower (Path.suffix p1)) /\
   keyword_tier rules (Str.lower (Path.name p1)) = None /\
   keyword_tier rules (Str.lower (Path.name p2)) = None) ->
  get_category p1 = get_category p2.
Proof.
  intros Hext [Hmedia | (_ & Hk1 & Hk2)].
  - apply ext_tier_listed in Hmedia.
    destruct (ext_tier media_exts (Str.lower (Path.suffix p1))) as [cat|] eqn:H1;
      [|congruence].
    rewrite (get_category_media p1 cat H1).
    symmetry. apply get_category_media. now rewrite <- Hext.
  - unfold get_category. rewrite <- Hext, Hk1, Hk2. reflexivity.
Qed.

Lemma C4_category_by_extension_witness :
  get_category ["IMG_0001.JPG"] = get_category ["holiday resume.jpg"] /\
  get_category ["notes.txt"] = get_category ["Todo List.TXT"].
Proof.
  split.
  - apply C4_category_by_extension; [reflexivity|].
    left. exists "Images", [".jpg"; ".jpeg"; ".png"; ".heic"; ".gif"; ".webp"].
    split; simpl; tauto.
  - apply C4_category_by_extension; [reflexivity|].
    right. split; [|split; reflexivity].
    exists "Misc_Documents", [".doc"; ".docx"; ".odt"; ".rtf"; ".txt"].
    split; simpl; tauto.
Defined.

(** C5, as stated, fails: in [photo.cv] the keyword [cv] occurs in the
    extension only, nothing of the table occurs in the stem [photo], and the
    keyword tier answers [Resumes]. *)
Lemma C5_keyword_in_extension_matches :
  ~ (forall p : path,
       keyword_tier rules (Str.lower (Path.stem p)) = None ->
       keyword_tier rules (Str.lower (Path.name p)) = None).
Proof.
  intros H. specialize (H ["photo.cv"] eq_refl). vm_compute in H. discriminate.
Qed.

(** C5, amended: the keyword tier matches exactly when a keyword of the rule
    table occurs in the lowercased file name, extension included; its answer
    is the category of the path when the extension is not a media one. *)
Theorem C5_keyword_tier_on_full_name (p : path) :
  (keyword_tier rules (Str.lower (Path.name p)) <> None <->
   exists cat keywords k,
     In (cat, keywords) rules /\ In k keywords /\
     substring k (Str.lower (Path.stem p +:+ Path.suffix p))) /\
  (forall cat,
     ext_tier media_exts (Str.lower (Path.suffix p)) = None ->
     keyword_tier rules (Str.lower (Path.name p)) = Some cat ->
     get_category p = cat).
Proof.
  assert (Hname : Path.stem p +:+ Path.suffix p = Path.name p).
  { unfold Path.stem, Path.suffix, Path.stem_of, Path.suffix_of.
    generalize (Path.name p). intros nm.
    assert (Htd : forall i s, Str.take i s +:+ Str.drop i s = s).
    { induction i as [|i IH]; intros [|c s]; simpl; try done.
      unfold String.app in *. simpl. now rewrite IH. }
    destruct (Str.rfind_dot nm) as [i|].
    - destruct (_ && _); [apply Htd|].
      unfold String.app. induction nm; simpl; congruence.
    - unfold String.app. induction nm; simpl; congruence. }
  rewrite Hname. split.
  - rewrite keyword_tier_matches. unfold matches.
    split.
    + intros (cat & ks & Hin & k & Hk & Hs). now exists cat, ks, k.
    + intros (cat & ks & k & Hin & Hk & Hs). exists cat, ks. split; [done|].
      now exists k.
  - intros cat. apply get_category_keyword.
Qed.

(** C9: with an extension outside the media table, the category is that of
    the first item of the rule table, in the order Resumes, Invoices,
    Transcripts, Contracts, Tax_Docs, one of whose keywords occurs in the
    lowercased name. *)
Theorem C9_first_rule_wins (p : path) (i : nat) (cat : string) (keywords : list string) :
  ext_tier media_exts (Str.lower (Path.suffix p)) = None ->
  rules !! i = Some (cat, keywords) ->
  matches keywords (Str.lower (Path.name p)) ->
  (forall j c ks, j < i -> rules !! j = Some (c, ks) ->
                  ~ matches ks (Str.lower (Path.name p))) ->
  map fst rules = ["Resumes"; "Invoices"; "Transcripts"; "Contracts"; "Tax_Docs"] /\
  get_category p = cat.
Proof.
  intros Hmedia Hi Hm Hbefore. split; [reflexivity|].
  apply get_category_keyword; [done|].
  now apply (keyword_tier_first rules _ i cat keywords).
Qed.

Lemma C9_first_rule_wins_witness :
  map fst rules = ["Resumes"; "Invoices"; "Transcripts"; "Contracts"; "Tax_Docs"] /\
  get_category ["Invoice_Tax_2023.pdf"] = "Invoices".
Proof.
  apply (C9_first_rule_wins ["Invoice_Tax_2023.pdf"] 1 "Invoices"
           ["invoice"; "bill"; "receipt"; "payment"]).
  - reflexivity.
  - reflexivity.
  - exists "invoice". split; [simpl; tauto|]. now apply contains_spec.
  - intros j c ks Hj Hl. assert (j = 0) as -> by lia.
    injection Hl as <- <-. intros Hm. apply any_keyword_spec in Hm.
    vm_compute in Hm. discriminate.
Defined.

(** * Names and paths *)

Section Names.

Lemma string_app_length (s t : string) :
  String.length (s +:+ t) = String.length s + String.length t.
Proof. unfold String.app. induction s; simpl; auto. Qed.

Lemma string_app_inj_r (s1 s2 t : string) : s1 +:+ t = s2 +:+ t -> s1 = s2.
Proof.
  revert s2. induction s1 as [|a s1 IH]; intros [|b s2] H; try done.
  - apply (f_equal String.length) in H. rewrite !string_app_length in H.
    simpl in H. lia.
  - apply (f_equal String.length) in H. rewrite !string_app_length in H.
    simpl in H. lia.
  - unfold String.app in *. simpl in H. injection H as -> H.
    f_equal. now apply IH.
Qed.

Lemma parse_of_nat n : parse_nat (Str.of_nat n) = Some n.
Proof.
  unfold parse_nat, Str.of_nat. rewrite NilEmpty.usu. simpl.
  f_equal. apply DecimalNat.Unsigned.of_to.
Qed.

Lemma parse_of_nat_02d n : parse_nat (Str.of_nat_02d n) = Some n.
Proof.
  unfold Str.of_nat_02d. destruct (_ <? _)%nat; [|apply parse_of_nat].
  pose proof (parse_of_nat n) as H. unfold parse_nat in *.
  change (NilEmpty.uint_of_string (String "0" (Str.of_nat n)))
    with (D0 <$> NilEmpty.uint_of_string (Str.of_nat n)).
  destruct (NilEmpty.uint_of_string (Str.of_nat n)) as [d|]; [|done].
  simpl in *. injection H as <-. reflexivity.
Qed.

Lemma of_nat_inj i j : Str.of_nat i = Str.of_nat j -> i = j.
Proof.
  intros H. apply (f_equal parse_nat) in H. rewrite !parse_of_nat in H. congruence.
Qed.

Lemma of_nat_02d_inj i j : Str.of_nat_02d i = Str.of_nat_02d j -> i = j.
Proof.
  intros H. apply (f_equal parse_nat) in H. rewrite !parse_of_nat_02d in H.
  congruence.
Qed.

Lemma standard_name_inj prefix date sfx i j :
  standard_name prefix date sfx i = standard_name prefix date sfx j -> i = j.
Proof.
  unfold standard_name. intros H.
  do 4 apply String.app_inj in H.
  apply string_app_inj_r in H. now apply of_nat_02d_inj.
Qed.

Lemma quarantine_name_inj nm i j :
  0 < i -> 0 < j -> quarantine_name nm i = quarantine_name nm j -> i = j.
Proof.
  destruct i as [|i], j as [|j]; try lia. intros _ _ H. simpl in H.
  apply String.app_inj in H.
  assert (Hassoc : forall a b c : string, a +:+ b +:+ c = (a +:+ b) +:+ c).
  { intros a b c. unfold String.app. induction a; simpl; congruence. }
  rewrite !Hassoc in H. do 2 apply string_app_inj_r in H. now apply of_nat_inj.
Qed.

Lemma startswith_dot_app (a b : string) :
  a <> "" -> Str.startswith "." (a +:+ b) = Str.startswith "." a.
Proof. destruct a; [done|]. intros _. unfold String.app. simpl. reflexivity. Qed.

Lemma quarantine_name_visible nm idx :
  Str.startswith "." nm = false ->
  Str.startswith "." (quarantine_name nm idx) = false.
Proof. intros H. destruct idx; [done | reflexivity]. Qed.

Lemma ext_tier_in table ext cat :
  ext_tier table ext = Some cat -> In cat (map fst table).
Proof.
  induction table as [|[c es] rest IH]; simpl; [done|].
  destruct (mem ext es); [intros [= ->]; now left | right; auto].
Qed.

Lemma keyword_tier_in table nm cat :
  keyword_tier table nm = Some cat -> In cat (map fst table).
Proof.
  induction table as [|[c ks] rest IH]; simpl; [done|].
  destruct (existsb _ ks); [intros [= ->]; now left | right; auto].
Qed.

(** No category starts with the dot of hidden names, and none is empty. *)
Lemma get_category_visible file_path :
  Str.startswith "." (get_category file_path) = false /\
  get_category file_path <> "".
Proof.
  unfold get_category.
  destruct (ext_tier media_exts _) as [c|] eqn:H1.
  { apply ext_tier_in in H1. simpl in H1.
    repeat (destruct H1 as [<- | H1]; [split; done|]). done. }
  destruct (keyword_tier rules _) as [c|] eqn:H2.
  { apply keyword_tier_in in H2. simpl in H2.
    repeat (destruct H2 as [<- | H2]; [split; done|]). done. }
  destruct (ext_tier fallback_groups _) as [c|] eqn:H3.
  { apply ext_tier_in in H3. simpl in H3.
    repeat (destruct H3 as [<- | H3]; [split; done|]). done. }
  destruct (negb _); split; done.
Qed.

Lemma name_prefix_nonempty category : category <> "" -> name_prefix category <> "".
Proof.
  intros Hne. unfold name_prefix.
  repeat (destruct (String.eqb category _); [done|]).
  destruct (Str.endswith_s category && _) eqn:He; [|done].
  apply andb_true_iff in He as [_ Hl]. apply Nat.ltb_lt in Hl.
  destruct category as [|c category]; [done|].
  replace (String.length (String c category) - 1) with (S (String.length category - 1))
    by (simpl in *; lia).
  done.
Qed.

Lemma name_prefix_visible category :
  category <> "" -> Str.startswith "." category = false ->
  Str.startswith "." (name_prefix category) = false.
Proof.
  intros Hne Hv. unfold name_prefix.
  repeat (destruct (String.eqb category _); [done|]).
  destruct (Str.endswith_s category && _) eqn:He; [|done].
  apply andb_true_iff in He as [_ Hl]. apply Nat.ltb_lt in Hl.
  destruct category as [|c category]; [done|].
  replace (String.length (String c category) - 1) with (S (String.length category - 1))
    by (simpl in *; lia).
  cbn [Str.take Str.startswith] in *. now destruct (Ascii.eqb "." c).
Qed.

Lemma standard_name_visible category date sfx idx :
  category <> "" -> Str.startswith "." category = false ->
  Str.startswith "." (standard_name (name_prefix category) date sfx idx) = false.
Proof.
  intros Hne Hv. unfold standard_name.
  rewrite startswith_dot_app by now apply name_prefix_nonempty.
  now apply name_prefix_visible.
Qed.

End Names.

Section Paths.

Lemma parent_child (d : path) (n : string) : Path.parent (Path.child d n) = d.
Proof. apply removelast_last. Qed.

Lemma name_child (d : path) (n : string) : Path.name (Path.child d n) = n.
Proof. apply last_last. Qed.

Lemma child_inj (d : path) (n1 n2 : string) :
  Path.child d n1 = Path.child d n2 -> n1 = n2.
Proof. unfold Path.child. intros H. apply app_inj_tail in H. tauto. Qed.

Lemma child_not_nil (d : path) (n : string) : Path.child d n <> [].
Proof. unfold Path.child. destruct d; done. Qed.

Lemma child_parent_name (p : path) : p <> [] -> p = Path.child (Path.parent p) (Path.name p).
Proof. intros H. now apply app_removelast_last. Qed.

Lemma is_child_spec (d p : path) :
  FS.is_child d p = true <-> exists n, p = Path.child d n.
Proof.
  unfold FS.is_child. split.
  - destruct p as [|x p]; [done|]. intros H. apply bool_decide_eq_true in H.
    exists (Path.name (x :: p)). rewrite <- H. now apply child_parent_name.
  - intros [n ->]. pose proof (child_not_nil d n).
    destruct (Path.child d n) eqn:E; [done|]. rewrite <- E.
    apply bool_decide_eq_true, parent_child.
Qed.

Lemma child_length (d : path) (n : string) : length (Path.child d n) = S (length d).
Proof. unfold Path.child. rewrite length_app. simpl. lia. Qed.

Lemma child_neq_self (d : path) (n : string) : Path.child d n <> d.
Proof. intros H. apply (f_equal length) in H. rewrite child_length in H. lia. Qed.

Lemma grandchild_neq_child (d : path) (c m n : string) :
  Path.child (Path.child d c) m <> Path.child d n.
Proof. intros H. apply (f_equal length) in H. rewrite !child_length in H. lia. Qed.

Lemma children_spec (fs : gmap path node) (d q : path) :
  In q (FS.children fs d) <-> is_Some (fs !! q) /\ exists n, q = Path.child d n.
Proof.
  unfold FS.children. rewrite filter_In, is_child_spec, in_map_iff.
  split.
  - intros [([q' nd] & <- & Hin) Hc]. split; [|done].
    apply list_elem_of_In, elem_of_map_to_list in Hin. simpl. eauto.
  - intros [[nd Hnd] Hc]. split; [|done]. exists (q, nd). split; [done|].
    now apply list_elem_of_In, elem_of_map_to_list.
Qed.

Lemma children_nil (fs : gmap path node) (d : path) :
  FS.children fs d = [] <-> forall n, fs !! Path.child d n = None.
Proof.
  split.
  - intros H n. destruct (fs !! Path.child d n) eqn:E; [|done].
    assert (Hin : In (Path.child d n) (FS.children fs d)).
    { apply children_spec. eauto. }
    rewrite H in Hin. destruct Hin.
  - intros H. destruct (FS.children fs d) as [|q l] eqn:E; [done|].
    assert (Hin : In q (FS.children fs d)) by (rewrite E; now left).
    apply children_spec in Hin as [[nd Hnd] [n ->]]. rewrite H in Hnd. done.
Qed.

End Paths.

(** * The naming loop *)

Section NamingLoop.

Lemma first_free_free occ cand idx fuel i :
  first_free occ cand idx fuel = Some i -> occ (cand i) = false /\ idx <= i.
Proof.
  revert idx. induction fuel as [|fuel IH]; intros idx; simpl; [done|].
  destruct (occ (cand idx)) eqn:E.
  - intros H. apply IH in H. split; [tauto | lia].
  - intros [= <-]. split; [done | lia].
Qed.

(** The loop ends within the fuel when the candidates are pairwise
    distinct and the occupied ones lie in a set smaller than the fuel. *)
Lemma first_free_total (occ : path -> bool) (cand : nat -> path) (taken : gset path) idx fuel :
  (forall i, idx <= i -> occ (cand i) = true -> cand i ∈ taken) ->
  (forall i j, idx <= i -> idx <= j -> cand i = cand j -> i = j) ->
  size taken < fuel ->
  exists i, first_free occ cand idx fuel = Some i.
Proof.
  revert taken idx. induction fuel as [|fuel IH]; intros taken idx Hocc Hinj Hsize;
    [lia|].
  simpl. destruct (occ (cand idx)) eqn:E; [|eauto].
  apply (IH (taken ∖ {[cand idx]})).
  - intros i Hi Ho. apply elem_of_difference. split; [apply Hocc; [lia | done]|].
    rewrite elem_of_singleton. intros Heq. apply Hinj in Heq; lia.
  - intros i j Hi Hj. apply Hinj; lia.
  - assert (Hin : cand idx ∈ taken) by (apply Hocc; [lia | done]).
    rewrite size_difference by set_solver. rewrite size_singleton.
    assert (size taken <> 0) by (apply size_non_empty_iff; set_solver).
    lia.
Qed.

End NamingLoop.

(** * One call of [process_file] *)

Section Step.

Variable cwd : path.
Variable sha256_hexdigest : fdata -> string.
Variable date_str : nat -> string.

Local Abbreviation HISTORY := (HISTORY_FILE cwd).
Local Abbreviation process := (process_file cwd sha256_hexdigest date_str).

Lemma exists_false fs p : FS.exists_ fs p = false <-> fs !! p = None.
Proof. unfold FS.exists_. destruct (fs !! p); split; congruence. Qed.

Lemma exists_true fs p : FS.exists_ fs p = true <-> is_Some (fs !! p).
Proof.
  unfold FS.exists_. destruct (fs !! p); split; try done; eauto.
Qed.

Lemma is_dir_true fs p : FS.is_dir fs p = true <-> fs !! p = Some Dir.
Proof. unfold FS.is_dir. destruct (fs !! p) as [[|f]|]; split; congruence. Qed.

Lemma grows_refl fs : grows fs fs.
Proof. intros q. now left. Qed.

Lemma grows_trans fs1 fs2 fs3 : grows fs1 fs2 -> grows fs2 fs3 -> grows fs1 fs3.
Proof.
  intros H12 H23 q. destruct (H12 q) as [E1 | [E1 E1']], (H23 q) as [E2 | [E2 E2']].
  - left. congruence.
  - right. split; congruence.
  - right. split; congruence.
  - congruence.
Qed.

Lemma mkdir_inv fs p fs1 :
  FS.mkdir_exist_ok fs p = Ok fs1 ->
  (fs !! p = Some Dir /\ fs1 = fs) \/
  (fs !! p = None /\ fs !! Path.parent p = Some Dir /\ fs1 = <[p := Dir]> fs).
Proof.
  unfold FS.mkdir_exist_ok. destruct (fs !! p) as [[|f]|] eqn:E.
  - intros [= <-]. now left.
  - done.
  - destruct (fs !! Path.parent p) as [[|f]|] eqn:E'; try done.
    intros [= <-]. right. done.
Qed.

Lemma mkdir_grows fs p fs1 :
  FS.mkdir_exist_ok fs p = Ok fs1 ->
  fs1 !! p = Some Dir /\ grows fs fs1 /\
  (forall q, fs !! q = None -> fs1 !! q = Some Dir -> q = p).
Proof.
  intros H. apply mkdir_inv in H as [[E ->] | (E & Ep & ->)].
  - split; [done|]. split; [apply grows_refl|]. congruence.
  - split; [apply lookup_insert_eq|]. split.
    + intros q. destruct (decide (p = q)) as [<-|Hne].
      * right. split; [done | apply lookup_insert_eq].
      * left. now apply lookup_insert_ne.
    + intros q Hq H1. destruct (decide (p = q)) as [<-|Hne]; [done|].
      rewrite lookup_insert_ne in H1 by done. congruence.
Qed.

Lemma tree_mkdir fs p fs1 : tree fs -> FS.mkdir_exist_ok fs p = Ok fs1 -> tree fs1.
Proof.
  intros Ht H. apply mkdir_inv in H as [[E ->] | (E & Ep & ->)]; [done|].
  intros d n Hs. destruct (decide (p = d)) as [<-|Hne]; [apply lookup_insert_eq|].
  rewrite lookup_insert_ne by done.
  destruct (decide (p = Path.child d n)) as [->|Hne'].
  - now rewrite parent_child in Ep.
  - rewrite lookup_insert_ne in Hs by done. now apply (Ht d n).
Qed.

(** A file of a tree has nothing below it. *)
Lemma tree_file_leaf fs p f n : tree fs -> fs !! p = Some (File f) -> fs !! Path.child p n = None.
Proof.
  intros Ht Hp. destruct (fs !! Path.child p n) eqn:E; [|done].
  assert (fs !! p = Some Dir) by (apply (Ht p n); eauto). congruence.
Qed.

Lemma tree_absent_leaf fs p n : tree fs -> fs !! p = None -> fs !! Path.child p n = None.
Proof.
  intros Ht Hp. destruct (fs !! Path.child p n) eqn:E; [|done].
  assert (fs !! p = Some Dir) by (apply (Ht p n); eauto). congruence.
Qed.

(** Removing an entry with nothing below it keeps a tree. *)
Lemma tree_delete fs p :
  tree fs -> (forall n, fs !! Path.child p n = None) -> tree (delete p fs).
Proof.
  intros Ht Hleaf d n Hs.
  destruct (decide (p = Path.child d n)) as [->|Hne].
  { rewrite lookup_delete_eq in Hs. now destruct Hs. }
  rewrite lookup_delete_ne in Hs by done.
  destruct (decide (p = d)) as [->|Hne'].
  { rewrite Hleaf in Hs. now destruct Hs. }
  rewrite lookup_delete_ne by done. now apply (Ht d n).
Qed.

(** Putting a file at a place with nothing below it, in a directory. *)
Lemma tree_insert_file fs p f :
  tree fs -> p <> [] -> fs !! Path.parent p = Some Dir ->
  (forall n, fs !! Path.child p n = None) ->
  tree (<[p := File f]> fs).
Proof.
  intros Ht Hnil Hpar Hleaf d n Hs.
  destruct (decide (p = Path.child d n)) as [->|Hne].
  - rewrite parent_child in Hpar.
    rewrite lookup_insert_ne; [done|]. apply child_neq_self.
  - rewrite lookup_insert_ne in Hs by done.
    destruct (decide (p = d)) as [->|Hne'].
    { rewrite Hleaf in Hs. now destruct Hs. }
    rewrite lookup_insert_ne by done. now apply (Ht d n).
Qed.

Lemma find_duplicate_inv fs h entries existing :
  find_duplicate sha256_hexdigest fs h entries = Some existing ->
  In existing entries /\ FS.is_file fs existing = true /\
  calculate_hash sha256_hexdigest fs existing = h.
Proof.
  unfold find_duplicate. intros H. apply find_some in H as [Hin Hb].
  apply andb_true_iff in Hb as [Hf He]. apply String.eqb_eq in He. done.
Qed.

(** What a successful call did, up to the move itself. *)
Lemma process_file_inv e w p w' d :
  process e w p = Ok (w', d) ->
  (d = None /\
   w' = World (w_fs w) (Some (claimed w)) (w_clock w) (w_out w) /\
   FS.is_dir (w_fs w) p || Str.startswith "." (Path.name p) = true) \/
  (exists fs2 c m out2 mg wx,
      d = Some (Path.child (Path.child (source e) c) m) /\
      FS.is_dir (w_fs w) p = false /\
      Str.startswith "." (Path.name p) = false /\
      Str.startswith "." m = false /\
      Str.startswith "." c = false /\
      grows (w_fs w) fs2 /\
      (tree (w_fs w) -> tree fs2) /\
      (tree (w_fs w) ->
       forall q, w_fs w !! q = None -> fs2 !! q = Some Dir ->
                 q = Path.child (source e) c) /\
      fs2 !! Path.child (source e) c = Some Dir /\
      occupied e (World fs2 (Some (claimed w)) (w_clock w) out2)
               (Path.child (Path.child (source e) c) m) = false /\
      execute cwd e (World fs2 (Some (claimed w)) (w_clock w) out2) p
              (Path.child (Path.child (source e) c) m) = Ok wx /\
      w' = print mg wx).
Proof.
  unfold process_file. intros H.
  cbn [w_fs set_fs simulated_files w_clock w_out] in H.
  destruct (FS.is_dir (w_fs w) p || Str.startswith "." (Path.name p)) eqn:Hskip.
  { left. injection H as <- <-. done. }
  right. apply orb_false_iff in Hskip as [Hdir Hhid].
  cbn [w_fs set_fs simulated_files w_clock w_out] in H.
  destruct (FS.mkdir_exist_ok (w_fs w) (Path.child (source e) (get_category p)))
    as [fs1|x] eqn:Hmk; [|done].
  cbn [mbind result_bind w_fs set_fs simulated_files w_clock w_out] in H.
  pose proof (mkdir_grows _ _ _ Hmk) as (Htd & Hg1 & Hnew1).
  unfold FS.iterdir in H. rewrite Htd in H.
  cbn [mbind result_bind] in H.
  destruct (find_duplicate _ _ _ _) as [existing|] eqn:Hfd.
  - cbn [w_fs set_fs print simulated_files w_clock w_out] in H.
    destruct (FS.mkdir_exist_ok fs1 (Path.child (source e) "Duplicates"))
      as [fs2|x] eqn:Hmk2; [|done].
    cbn [mbind result_bind w_fs set_fs simulated_files w_clock w_out] in H.
    pose proof (mkdir_grows _ _ _ Hmk2) as (Hdd & Hg2 & Hnew2).
    destruct (first_free _ _ 0 _) as [idx|] eqn:Hff; [|done].
    destruct (execute _ _ _ _ _) as [wx|x] eqn:Hex; [|done].
    cbn [mbind result_bind] in H. injection H as <- <-.
    apply first_free_free in Hff as [Hfree _].
    eexists fs2, "Duplicates", _, _, _, wx.
    split; [reflexivity|]. split; [done|]. split; [done|].
    split; [now apply quarantine_name_visible|].
    split; [reflexivity|].
    split; [eapply grows_trans; eassumption|].
    split; [intros Ht; eapply tree_mkdir; [eapply tree_mkdir|]; eassumption|].
    split.
    { intros Ht q Hq Hq2.
      (* the category folder holds a file, so it was there before *)
      apply find_duplicate_inv in Hfd as (Hin & Hfile & _).
      apply children_spec in Hin as [_ [n ->]].
      assert (Hold : w_fs w !! Path.child (source e) (get_category p) = Some Dir).
      { apply (Ht _ n). unfold FS.is_file in Hfile.
        destruct (Hg1 (Path.child (Path.child (source e) (get_category p)) n))
          as [E | [_ E]]; rewrite E in Hfile; [|done].
        destruct (w_fs w !! _); [eauto | done]. }
      apply mkdir_inv in Hmk as [[_ ->] | (E & _)]; [|congruence].
      now apply Hnew2. }
    split; [done|]. split; [exact Hfree|]. split; [exact Hex | reflexivity].
  - destruct (FS.st_ctime fs1 p) as [ts|x] eqn:Hst; [|done].
    cbn [mbind result_bind] in H.
    destruct (first_free _ _ 1 _) as [idx|] eqn:Hff; [|done].
    destruct (execute _ _ _ _ _) as [wx|x] eqn:Hex; [|done].
    cbn [mbind result_bind] in H. injection H as <- <-.
    apply first_free_free in Hff as [Hfree _].
    destruct (get_category_visible p) as [Hvis Hne].
    eexists fs1, (get_category p), _, _, _, wx.
    split; [reflexivity|]. split; [done|]. split; [done|].
    split; [now apply standard_name_visible|].
    split; [done|].
    split; [done|].
    split; [intros Ht; eapply tree_mkdir; eassumption|].
    split; [intros _; exact Hnew1|].
    split; [done|]. split; [exact Hfree|]. split; [exact Hex | reflexivity].
Qed.


Lemma history_hidden : Str.startswith "." (Path.name HISTORY) = true.
Proof. unfold HISTORY_FILE. now rewrite name_child. Qed.

Lemma visible_not_history p :
  Str.startswith "." (Path.name p) = false -> p <> HISTORY.
Proof. intros H ->. rewrite history_hidden in H. done. Qed.

Lemma write_json_inv fs now p h fs' :
  FS.write_json fs now p h = Ok fs' ->
  exists fl, fs' = <[p := File fl]> fs /\ f_data fl = History h /\
             ((fs !! p = None /\ fs !! Path.parent p = Some Dir /\ f_readable fl = true) \/
              (exists fl0, fs !! p = Some (File fl0) /\ f_readable fl = f_readable fl0)).
Proof.
  unfold FS.write_json. destruct (fs !! p) as [[|fl0]|] eqn:E; [done| |].
  - intros [= <-]. eexists. split; [reflexivity|]. split; [reflexivity|].
    right. exists fl0. split; reflexivity.
  - destruct (fs !! Path.parent p) as [[|?]|] eqn:E'; try done.
    intros [= <-]. eexists. split; [reflexivity|]. split; [reflexivity|].
    left. split; [reflexivity|]. split; reflexivity.
Qed.

(** Appending a record to the ledger: the ledger file is rewritten, and
    holds the extended history when it held a history. *)
Lemma log_move_real e w src dst w' :
  dry_run e = false ->
  log_move cwd e w src dst = Ok w' ->
  exists fl,
    w' = set_fs w (<[HISTORY := File fl]> (w_fs w)) /\
    w_fs w !! HISTORY <> Some Dir /\
    (w_fs w !! HISTORY = None -> w_fs w !! cwd = Some Dir) /\
    (forall h, ledger_holds (w_fs w) HISTORY h ->
               ledger_holds (w_fs w') HISTORY (h ++ [Entry src dst (w_clock w)])).
Proof.
  intros Hreal. unfold log_move. rewrite Hreal. cbn [negb].
  destruct (if FS.exists_ (w_fs w) HISTORY then _ else _) as [h0|x] eqn:Hread; [|done].
  cbn [mbind result_bind].
  destruct (FS.write_json _ _ _ _) as [fs'|x] eqn:Hw; [|done].
  cbn [mbind result_bind]. intros [= <-].
  apply write_json_inv in Hw as (fl & -> & Hd & Hcase).
  exists fl. split; [done|]. split.
  { destruct Hcase as [(E & _) | (fl0 & E & _)]; congruence. }
  split.
  { intros Hn. destruct Hcase as [(_ & Hp & _) | (fl0 & E0 & _)]; [|congruence].
    unfold HISTORY_FILE in Hp. now rewrite parent_child in Hp. }
  intros h Hl. cbn [w_fs set_fs].
  assert (h0 = h) as ->.
  { unfold FS.exists_, FS.read_json in Hread. destruct h as [|r h].
    - simpl in Hl. rewrite Hl in Hread. congruence.
    - destruct Hl as (fl1 & E1 & Hr1 & Hd1). rewrite E1, Hr1, Hd1 in Hread. congruence. }
  unfold ledger_holds.
  destruct (h ++ [_]) as [|r0 l0] eqn:Eh; [now destruct h|].
  rewrite <- Eh. exists fl. rewrite lookup_insert_eq. split; [done|]. split; [|congruence].
  destruct Hcase as [(_ & _ & Hr) | (fl0 & E0 & Hr)]; [done|].
  rewrite Hr. destruct h as [|r h]; [simpl in Hl; congruence|].
  destruct Hl as (fl1 & E1 & Hr1 & _). congruence.
Qed.

(** The move of a real run. *)
Lemma execute_real e fs2 sim clk out p dest wx :
  dry_run e = false ->
  p <> HISTORY -> dest <> HISTORY ->
  fs2 !! dest = None ->
  (fs2 !! p = Some Dir -> p `prefix_of` dest) ->
  execute cwd e (World fs2 sim clk out) p dest = Ok wx ->
  exists f fl,
    fs2 !! p = Some (File f) /\
    fs2 !! Path.parent dest = Some Dir /\
    wx = World (<[HISTORY := File fl]> (<[dest := File f]> (delete p fs2))) sim clk out /\
    fs2 !! HISTORY <> Some Dir /\
    (fs2 !! HISTORY = None -> fs2 !! cwd = Some Dir) /\
    (forall h, ledger_holds fs2 HISTORY h ->
               ledger_holds (w_fs wx) HISTORY (h ++ [Entry p dest clk])).
Proof.
  intros Hreal Hp Hd Hfree Hpre. unfold execute. rewrite Hreal. cbn [negb w_fs].
  unfold FS.shutil_move, FS.is_dir. rewrite Hfree. unfold FS.rename. rewrite Hfree.
  destruct (fs2 !! p) as [[|f]|] eqn:Ep; [| |done].
  { destruct (fs2 !! Path.parent dest) as [[|?]|]; try done.
    rewrite bool_decide_eq_true_2 by auto. done. }
  destruct (fs2 !! Path.parent dest) as [[|?]|] eqn:Epar; try done.
  cbn [mbind result_bind]. intros Hlog.
  apply (log_move_real e _ p dest) in Hlog; [|done].
  destruct Hlog as (fl & -> & HnD & Hc & Hh). exists f, fl.
  cbn [w_fs set_fs w_clock] in *.
  assert (HLx : <[dest:=File f]> (delete p fs2) !! HISTORY = fs2 !! HISTORY).
  { rewrite lookup_insert_ne by done. now rewrite lookup_delete_ne. }
  rewrite HLx in *.
  split; [done|]. split; [done|]. split; [done|]. split; [done|]. split.
  - intros Hn. specialize (Hc Hn).
    rewrite lookup_insert in Hc. case_decide; [congruence|].
    rewrite lookup_delete in Hc. case_decide; congruence.
  - intros h Hl. apply Hh. unfold ledger_holds in *. now rewrite HLx.
Qed.

(** The simulated move. *)
Lemma execute_dry e w p dest :
  dry_run e = true ->
  execute cwd e w p dest =
    Ok (World (w_fs w) (Some ({[dest]} ∪ claimed w)) (w_clock w) (w_out w)).
Proof. intros H. unfold execute. now rewrite H. Qed.

End Step.

(** * Runs without simulation *)

Section RealRun.

Variable cwd : path.
Variable sha256_hexdigest : fdata -> string.
Variable date_str : nat -> string.

Local Abbreviation HISTORY := (HISTORY_FILE cwd).
Local Abbreviation process := (process_file cwd sha256_hexdigest date_str).

(** A call on a path of the source directory either skips it or moves the
    file there to a free place two levels below the source directory,
    after creating the folder it lands in when that was missing, and
    appends the move to the ledger. *)
Lemma step_real e w p w' d :
  dry_run e = false ->
  tree (w_fs w) ->
  in_source e p ->
  process e w p = Ok (w', d) ->
  (d = None /\ w_fs w' = w_fs w) \/
  (exists dest,
      d = Some dest /\
      moved cwd (source e) (w_fs w) (w_fs w') p dest (w_clock w)).
Proof.
  intros Hreal Ht [n ->] H.
  apply process_file_inv in H as [(-> & -> & _) | H]; [now left|].
  destruct H as (fs2 & c & m & out2 & mg & wx & -> & Hdir & Hn & Hm & Hc & Hg & Ht2 &
                 Hnew & Hcd & Hocc & Hex & ->).
  right. rewrite name_child in Hn.
  specialize (Ht2 Ht). specialize (Hnew Ht).
  set (p := Path.child (source e) n) in *.
  set (dest := Path.child (Path.child (source e) c) m) in *.
  assert (Hfree : fs2 !! dest = None).
  { unfold occupied in Hocc. apply orb_false_iff in Hocc as [Hocc _].
    now apply exists_false in Hocc. }
  assert (HpL : p <> HISTORY).
  { apply visible_not_history. unfold p. now rewrite name_child. }
  assert (HdL : dest <> HISTORY).
  { apply visible_not_history. unfold dest. now rewrite name_child. }
  assert (HL2 : fs2 !! HISTORY = w_fs w !! HISTORY).
  { destruct (Hg HISTORY) as [E | [E1 E2]]; [done|].
    apply Hnew in E2; [|done]. apply (f_equal Path.name) in E2.
    rewrite name_child in E2. pose proof (history_hidden cwd) as Hh.
    rewrite E2 in Hh. congruence. }
  eapply (execute_real cwd e fs2 _ _ _ p dest) in Hex; try done.
  - destruct Hex as (f & fl & Ep & Epar & -> & HnD & Hcwd & Hh).
    exists dest. split; [done|].
    exists n, c, m, f, fs2, fl.
    repeat (split; [done|]). split.
    { destruct (Hg p) as [E | [_ E]]; congruence. }
    repeat (split; [done|]). split.
    { destruct (fs2 !! HISTORY) eqn:EL; [|now apply Hcwd].
      apply (Ht2 cwd ".organizer_history.json"). unfold HISTORY_FILE in EL.
      rewrite EL. eauto. }
    split; [unfold HISTORY_FILE in *; congruence|].
    split; [reflexivity|].
    intros h Hl. apply Hh. unfold ledger_holds, HISTORY_FILE in *. now rewrite HL2.
  - intros Ep. destruct (Hg p) as [E | [E1 E2]].
    + rewrite Ep in E. symmetry in E. apply is_dir_true in E. congruence.
    + apply Hnew in E2; [|done]. unfold dest. rewrite <- E2. now exists [m].
Qed.

Lemma moved_tree e fs fs' p dest t :
  moved cwd (source e) fs fs' p dest t -> tree fs'.
Proof.
  intros (n & c & m & f & fs2 & fl & -> & -> & Hn & Hc & Hm & Ep & Hg & Ht2 &
          Hnew & HD & Hfree & Hcwd & HnD & -> & Hl).
  set (p := Path.child (source e) n) in *.
  set (D := Path.child (source e) c) in *.
  assert (Ep2 : fs2 !! p = Some (File f)).
  { destruct (Hg p) as [E | [E _]]; congruence. }
  assert (HA : tree (delete p fs2)).
  { apply tree_delete; [done|]. intros n'. eapply tree_file_leaf; eassumption. }
  assert (HB : tree (<[Path.child D m := File f]> (delete p fs2))).
  { apply tree_insert_file; [done | apply child_not_nil | |].
    - rewrite parent_child, lookup_delete_ne; [done | congruence].
    - intros n'. rewrite lookup_delete. case_decide; [done|].
      now apply tree_absent_leaf. }
  apply tree_insert_file; [done | apply child_not_nil | |].
  - rewrite parent_child, lookup_insert_ne by congruence.
    rewrite lookup_delete_ne; [done | congruence].
  - intros n'. rewrite lookup_insert. case_decide as Hx.
    { apply (f_equal Path.parent) in Hx. rewrite !parent_child in Hx.
      unfold D in Hx.
      apply (f_equal Path.name) in Hx. rewrite !name_child in Hx.
      rewrite Hx in Hc. done. }
    rewrite lookup_delete. case_decide; [done|].
    destruct (fs2 !! Path.child (Path.child cwd _) n') eqn:E; [|done].
    assert (Hd : fs2 !! Path.child cwd ".organizer_history.json" = Some Dir).
    { eapply Ht2. rewrite E. eauto. }
    assert (HL2 : fs !! Path.child cwd ".organizer_history.json" = Some Dir).
    { destruct (Hg (Path.child cwd ".organizer_history.json")) as [E' | [E1 E2]];
        [congruence|].
      apply Hnew in E2; [|done]. unfold D in E2. apply (f_equal Path.name) in E2.
      rewrite !name_child in E2. rewrite <- E2 in Hc. done. }
    congruence.
Qed.

Lemma moved_cwd e fs fs' p dest t :
  moved cwd (source e) fs fs' p dest t -> fs' !! cwd = Some Dir.
Proof.
  intros (n & c & m & f & fs2 & fl & -> & -> & Hn & Hc & Hm & Ep & Hg & Ht2 &
          Hnew & HD & Hfree & Hcwd & HnD & -> & Hl).
  assert (Ep2 : fs2 !! Path.child (source e) n = Some (File f)).
  { destruct (Hg (Path.child (source e) n)) as [E | [E _]]; congruence. }
  rewrite lookup_insert_ne by apply child_neq_self.
  rewrite lookup_insert_ne by congruence.
  rewrite lookup_delete_ne by congruence. done.
Qed.

(** Existing entries other than the moved file survive a move, and the
    destination was free and now holds the file. *)
Lemma moved_occupied e fs fs' p dest t :
  moved cwd (source e) fs fs' p dest t ->
  fs !! dest = None /\ is_Some (fs' !! dest) /\
  (exists c m, dest = Path.child (Path.child (source e) c) m) /\
  (forall q, q <> p -> is_Some (fs !! q) -> is_Some (fs' !! q)).
Proof.
  intros (n & c & m & f & fs2 & fl & -> & -> & Hn & Hc & Hm & Ep & Hg & Ht2 &
          Hnew & HD & Hfree & Hcwd & HnD & -> & Hl).
  split; [destruct (Hg (Path.child (Path.child (source e) c) m)) as [E | [E _]]; congruence|].
  split.
  { rewrite lookup_insert. case_decide; [eauto|]. rewrite lookup_insert_eq. eauto. }
  split; [eauto|].
  intros q Hq Hs. rewrite lookup_insert. case_decide; [eauto|].
  rewrite lookup_insert. case_decide; [eauto|].
  rewrite lookup_delete_ne by done.
  destruct (Hg q) as [E | [E _]]; [congruence|]. rewrite E in Hs. now destruct Hs.
Qed.

End RealRun.

(** * Destinations of a run *)

Section Destinations.

Variable cwd : path.
Variable sha256_hexdigest : fdata -> string.
Variable date_str : nat -> string.

Local Abbreviation process := (process_file cwd sha256_hexdigest date_str).
Local Abbreviation run_files := (run cwd sha256_hexdigest date_str).

Lemma occupied_true e w q :
  occupied e w q = true <->
  is_Some (w_fs w !! q) \/ (dry_run e = true /\ q ∈ claimed w).
Proof.
  unfold occupied. rewrite orb_true_iff, andb_true_iff, exists_true, bool_decide_eq_true.
  tauto.
Qed.

Lemma occupied_false e w q :
  occupied e w q = false <->
  w_fs w !! q = None /\ (dry_run e = true -> q ∉ claimed w).
Proof.
  rewrite <- not_true_iff_false, occupied_true. split.
  - intros H. split.
    + destruct (w_fs w !! q) eqn:E; [|done]. destruct H. left. eauto.
    + intros Hd Hq. apply H. now right.
  - intros [H1 H2] [[x Hx] | [Hd Hq]]; [congruence | now apply H2].
Qed.

(** A simulated call creates folders at most and claims its destination,
    which was free and unclaimed. *)
Lemma step_dry e w p w' d :
  dry_run e = true ->
  process e w p = Ok (w', d) ->
  grows (w_fs w) (w_fs w') /\
  match d with
  | None => claimed w' = claimed w
  | Some dest =>
      w_fs w !! dest = None /\ (dest ∉ claimed w) /\
      claimed w' = {[dest]} ∪ claimed w /\
      (exists c m, dest = Path.child (Path.child (source e) c) m)
  end.
Proof.
  intros Hdry H.
  apply process_file_inv in H as [(-> & -> & _) | H].
  { split; [apply grows_refl | reflexivity]. }
  destruct H as (fs2 & c & m & out2 & mg & wx & -> & Hdir & Hn & Hm & Hc & Hg & Ht2 &
                 Hnew & Hcd & Hocc & Hex & ->).
  rewrite execute_dry in Hex by done. injection Hex as <-.
  cbn [w_fs print claimed simulated_files default] in *.
  apply occupied_false in Hocc as [Hfree Hcl]. cbn [w_fs] in Hfree.
  specialize (Hcl Hdry). split; [done|].
  split; [destruct (Hg (Path.child (Path.child (source e) c) m)) as [E | [E _]]; congruence|].
  split; [exact Hcl|]. split; [reflexivity | eauto].
Qed.

(** What a call does to the occupied names. *)
Lemma step_occupied e w p w' d :
  process e w p = Ok (w', d) ->
  (dry_run e = false -> tree (w_fs w) /\ in_source e p) ->
  (dry_run e = false -> tree (w_fs w')) /\
  (forall dest, d = Some dest ->
     occupied e w dest = false /\ occupied e w' dest = true /\
     exists c m, dest = Path.child (Path.child (source e) c) m) /\
  (forall q c m, q = Path.child (Path.child (source e) c) m ->
     occupied e w q = true -> occupied e w' q = true).
Proof.
  intros H Hreal. destruct (dry_run e) eqn:Hdry.
  - split; [done|]. apply step_dry in H as [Hg Hd]; [|done]. split.
    + intros dest ->. destruct Hd as (Hfree & Hcl & Hcl' & Hshape).
      split; [apply occupied_false; done|]. split; [|done].
      apply occupied_true. right. split; [done|]. rewrite Hcl'.
      apply elem_of_union. left. now apply elem_of_singleton.
    + intros q c m _ Hq. apply occupied_true in Hq. apply occupied_true.
      destruct Hq as [[x Hx] | [_ Hq]].
      * left. destruct (Hg q) as [E | [E _]]; [rewrite E; eauto | congruence].
      * right. split; [done|]. destruct d as [dest|].
        -- destruct Hd as (_ & _ & -> & _). apply elem_of_union. now right.
        -- now rewrite Hd.
  - destruct (Hreal eq_refl) as [Ht Hin].
    apply step_real in H as [[-> Hfs] | (dest & -> & Hmv)]; try done.
    + rewrite Hfs. split; [done|]. split; [done|].
      intros q c m _ Hq. apply occupied_true in Hq. apply occupied_true.
      rewrite Hfs. destruct Hq as [Hq | [? _]]; [now left | congruence].
    + split; [intros _; eapply moved_tree; eassumption|].
      pose proof (moved_occupied _ _ _ _ _ _ _ Hmv) as (Hfree & Hnow & Hshape & Hmono).
      split.
      * intros dest' [= <-]. split; [apply occupied_false; split; [done | congruence]|].
        split; [apply occupied_true; now left | done].
      * intros q c m -> Hq. apply occupied_true in Hq. apply occupied_true.
        destruct Hq as [Hq | [? _]]; [|congruence]. left. apply Hmono; [|done].
        destruct Hin as [n ->]. apply grandchild_neq_child.
Qed.

(** The destinations of a run are pairwise distinct, and each was free
    when the run began. *)
Lemma run_resolved e files : forall w w1 ds,
  run_files e w files = Ok (w1, ds) ->
  (dry_run e = false -> tree (w_fs w) /\ Forall (in_source e) files) ->
  NoDup (resolved ds) /\
  forall q, In q (resolved ds) ->
    occupied e w q = false /\ exists c m, q = Path.child (Path.child (source e) c) m.
Proof.
  induction files as [|f rest IH]; intros w w1 ds H Hreal.
  { injection H as <- <-. split; [constructor | intros q []]. }
  cbn [run] in H.
  destruct (process e w f) as [[wa d]|x] eqn:Hstep; [|done].
  cbn [mbind result_bind] in H.
  destruct (run_files e wa rest) as [[w2 ds']|x] eqn:Hrest; [|done].
  cbn [mbind result_bind] in H. injection H as <- <-.
  apply step_occupied in Hstep as (Ht' & Hd & Hmono).
  2:{ intros Hr. destruct (Hreal Hr) as [Ht Hall]. split; [done|].
      now apply Forall_inv in Hall. }
  apply IH in Hrest as [Hnd Hfree'].
  2:{ intros Hr. split; [now apply Ht'|]. destruct (Hreal Hr) as [_ Hall].
      now apply Forall_inv_tail in Hall. }
  assert (Hback : forall q, In q (resolved ds') ->
            occupied e w q = false /\
            exists c m, q = Path.child (Path.child (source e) c) m).
  { intros q Hq. apply Hfree' in Hq as [Hq (c & m & ->)]. split; [|eauto].
    destruct (occupied e w _) eqn:E; [|done].
    apply (Hmono _ c m eq_refl) in E. congruence. }
  destruct d as [dest|]; unfold resolved in *; cbn [omap list_omap id] in *.
  - destruct (Hd dest eq_refl) as (Hf & Hn & Hshape). split.
    + constructor; [|done]. rewrite list_elem_of_In. intros Hin.
      apply Hfree' in Hin as [Hin _]. congruence.
    + intros q [<- | Hq]; [done | now apply Hback].
  - split; [done | exact Hback].
Qed.

(** The naming loops end within the fuel the model gives them. *)
Lemma naming_total e w (cand : nat -> path) idx :
  (forall i j, idx <= i -> idx <= j -> cand i = cand j -> i = j) ->
  exists i, first_free (occupied e w) cand idx (name_fuel w) = Some i.
Proof.
  intros Hinj.
  apply (first_free_total _ _ (dom (w_fs w) ∪ claimed w)); [|done|].
  - intros i _ Ho. apply occupied_true in Ho as [Ho | [_ Ho]].
    + apply elem_of_union. left. now apply elem_of_dom.
    + apply elem_of_union. now right.
  - unfold name_fuel. pose proof (size_union_alt (dom (w_fs w)) (claimed w)) as Hs.
    assert (size (claimed w ∖ dom (w_fs w)) <= size (claimed w))
      by (apply subseteq_size; intros x Hx; apply elem_of_difference in Hx; tauto).
    rewrite size_dom in Hs. lia.
Qed.

Lemma mkdir_fuel fs p : FS.mkdir_exist_ok fs p <> Raise OutOfFuel.
Proof. unfold FS.mkdir_exist_ok. repeat case_match; congruence. Qed.

Lemma execute_fuel e w p dest : execute cwd e w p dest <> Raise OutOfFuel.
Proof.
  unfold execute, FS.shutil_move, FS.rename, log_move, FS.write_json, FS.read_json.
  cbn [mbind result_bind].
  repeat (case_match; cbn [mbind result_bind w_fs set_fs] in *; try congruence).
Qed.

(** [process_file] never stops for lack of fuel. *)
Lemma process_file_fuel e w p : process e w p <> Raise OutOfFuel.
Proof.
  unfold process_file. cbn [w_fs set_fs simulated_files w_clock w_out].
  destruct (_ || _); [done|].
  destruct (FS.mkdir_exist_ok _ _) as [fs1|x] eqn:Hmk;
    [|pose proof (mkdir_fuel (w_fs w) (Path.child (source e) (get_category p)));
      cbn [mbind result_bind]; congruence].
  cbn [mbind result_bind w_fs set_fs simulated_files w_clock w_out].
  unfold FS.iterdir. destruct (fs1 !! _) as [[|?]|]; cbn [mbind result_bind]; try done.
  destruct (find_duplicate _ _ _ _) as [existing|].
  - cbn [w_fs set_fs print simulated_files w_clock w_out].
    destruct (FS.mkdir_exist_ok fs1 _) as [fs2|x] eqn:Hmk2;
      [|pose proof (mkdir_fuel fs1 (Path.child (source e) "Duplicates"));
        cbn [mbind result_bind]; congruence].
    cbn [mbind result_bind w_fs set_fs simulated_files w_clock w_out].
    match goal with
    | |- context [first_free ?occ ?cand 0 (S (name_fuel ?w0))] =>
        destruct (naming_total e w0 cand 1) as [i Hi];
        [|cbn [first_free]; destruct (occ (cand 0))]
    end.
    + intros i j Hi Hj Heq. apply child_inj in Heq.
      apply quarantine_name_inj in Heq; [done | lia | lia].
    + rewrite Hi. pose proof (execute_fuel e) as Hx.
      destruct (execute _ _ _ _ _) eqn:Hex; cbn [mbind result_bind]; [done|].
      intros [= ->]. now apply Hx in Hex.
    + pose proof (execute_fuel e) as Hx.
      destruct (execute _ _ _ _ _) eqn:Hex; cbn [mbind result_bind]; [done|].
      intros [= ->]. now apply Hx in Hex.
  - unfold FS.st_ctime. destruct (fs1 !! p) as [[|?]|]; cbn [mbind result_bind]; try done.
    all: match goal with
    | |- context [first_free ?occ ?cand 1 (name_fuel ?w0)] =>
        destruct (naming_total e w0 cand 1) as [i Hi]
    end.
    all: try (intros i j Hi Hj Heq; apply child_inj in Heq;
              now apply standard_name_inj in Heq).
    all: rewrite Hi; pose proof (execute_fuel e) as Hx;
      destruct (execute _ _ _ _ _) eqn:Hex; cbn [mbind result_bind]; [done|];
      intros [= ->]; now apply Hx in Hex.
Qed.

Lemma run_fuel e files : forall w, run_files e w files <> Raise OutOfFuel.
Proof.
  induction files as [|f rest IH]; intros w; [done|]. cbn [run].
  pose proof (process_file_fuel e w f) as Hp.
  destruct (process e w f) as [[wa d]|x]; cbn [mbind result_bind]; [|congruence].
  specialize (IH wa).
  destruct (run_files e wa rest) as [[w2 ds']|x]; cbn [mbind result_bind]; congruence.
Qed.

End Destinations.

(** C7: within one run no two calls of [process_file] resolve to the same
    destination, in a simulation and in a real run, for the date-sequence
    names and the quarantine names alike, and the search for a free name
    always ends.  In a real run the paths are those the scan and the watcher
    deliver, entries of the source directory, and the file system is a
    tree. *)
Theorem C7_destinations_distinct
    (cwd : path) (sha256_hexdigest : fdata -> string) (date_str : nat -> string)
    (e : engine) (w : world) (files : list path) :
  (dry_run e = false -> tree (w_fs w) /\ Forall (in_source e) files) ->
  run cwd sha256_hexdigest date_str e w files <> Raise OutOfFuel /\
  forall w1 ds,
    run cwd sha256_hexdigest date_str e w files = Ok (w1, ds) ->
    NoDup (resolved ds).
Proof.
  intros Hreal. split; [apply run_fuel|].
  intros w1 ds H. now apply (run_resolved _ _ _ _ _ _ _ _ H).
Qed.

Lemma treeb_tree (fs : gmap path node) : treeb fs = true -> tree fs.
Proof.
  unfold treeb. rewrite forallb_forall. intros H d n [nd Hnd].
  specialize (H (Path.child d n)).
  pose proof (child_not_nil d n) as Hne.
  destruct (Path.child d n) as [|x l] eqn:E; [done|]. rewrite <- E in *.
  rewrite parent_child in H. apply is_dir_true. apply H.
  apply in_map_iff. exists (Path.child d n, nd). split; [done|].
  now apply list_elem_of_In, elem_of_map_to_list.
Qed.

Lemma C7_destinations_distinct_witness :
  run Sample.home Sample.digest Sample.date Sample.real Sample.start Sample.files
    <> Raise OutOfFuel /\
  forall w1 ds,
    run Sample.home Sample.digest Sample.date Sample.real Sample.start Sample.files
      = Ok (w1, ds) ->
    NoDup (resolved ds).
Proof.
  apply C7_destinations_distinct. intros _. split.
  - apply treeb_tree. vm_compute. reflexivity.
  - repeat constructor; eexists; reflexivity.
Defined.

Example sample_run_destinations :
  (snd <$> match run Sample.home Sample.digest Sample.date Sample.real Sample.start
                   Sample.files with
           | Ok r => Some r
           | Raise _ => None
           end) =
  Some [ Some ["home"; "u"; "Images"; "Img_2024-01-05_01.jpg"];
         Some ["home"; "u"; "Images"; "Img_2024-01-05_02.jpg"];
         Some ["home"; "u"; "Duplicates"; "c.jpg"];
         None;
         Some ["home"; "u"; "Misc_Documents"; "Misc_Document_2024-01-05_01.txt"] ].
Proof. vm_compute. reflexivity. Qed.

(** * Undo after a run *)

Section UndoRun.

Variable cwd : path.
Variable sha256_hexdigest : fdata -> string.
Variable date_str : nat -> string.

Local Abbreviation HISTORY := (HISTORY_FILE cwd).
Local Abbreviation process := (process_file cwd sha256_hexdigest date_str).
Local Abbreviation run_files := (run cwd sha256_hexdigest date_str).

Lemma undo_entries_app e w ens1 ens2 :
  undo_entries e w (ens1 ++ ens2) =
  (w' ← undo_entries e w ens1; undo_entries e w' ens2).
Proof.
  revert w. induction ens1 as [|en ens1 IH]; intros w; [done|].
  cbn [app undo_entries]. destruct (undo_entry e w en); cbn [mbind result_bind]; auto.
Qed.

(** Undoing the latest move of a run leads back to the state before that
    move, up to folders that are gone and the content of the ledger. *)
Lemma undo_entry_inverts e w' fs fsk p dest t t0 :
  dry_run e = false ->
  tree fs ->
  fs !! cwd = Some Dir ->
  moved cwd (source e) fs fsk p dest t ->
  shrunk HISTORY (w_fs w') fsk ->
  exists w'', undo_entry e w' (Entry p dest t0) = Ok w'' /\
              shrunk HISTORY (w_fs w'') fs.
Proof.
  intros Hreal Ht Hcwd0 Hmv (S1 & S2 & S3).
  destruct Hmv as (n & c & m & f & fs2 & fl & -> & -> & Hn & Hc & Hm & Ep & Hg & Ht2 &
          Hnew & HD & Hfree & Hcwd & HnD & -> & _).
  set (s := source e) in *.
  set (p := Path.child s n) in *.
  set (D := Path.child s c) in *.
  set (dest := Path.child D m) in *.
  set (fs' := w_fs w') in *.
  assert (HpL : p <> HISTORY).
  { apply visible_not_history. unfold p. now rewrite name_child. }
  assert (HdL : dest <> HISTORY).
  { apply visible_not_history. unfold dest. now rewrite name_child. }
  assert (HDL : D <> HISTORY).
  { apply visible_not_history. unfold D. now rewrite name_child. }
  assert (Hdp : dest <> p) by apply grandchild_neq_child.
  assert (HDd : D <> dest) by (intros E; symmetry in E; now apply child_neq_self in E).
  assert (Ep2 : fs2 !! p = Some (File f)).
  { destruct (Hg p) as [E | [E _]]; congruence. }
  assert (HDp : D <> p) by congruence.
  (* the state the run reached, away from the ledger *)
  assert (Hk : forall q, q <> HISTORY ->
             <[HISTORY:=File fl]> (<[dest:=File f]> (delete p fs2)) !! q =
             if decide (q = dest) then Some (File f)
             else if decide (q = p) then None else fs2 !! q).
  { intros q Hq. rewrite lookup_insert_ne by done.
    rewrite lookup_insert. repeat case_decide; subst; try done.
    - now rewrite lookup_delete_eq.
    - now rewrite lookup_delete_ne. }
  assert (Hd' : fs' !! dest = Some (File f)).
  { destruct (S1 dest HdL) as [E | [_ E]]; rewrite Hk in E by done;
      rewrite decide_True in E by done; congruence. }
  assert (Hp' : fs' !! p = None).
  { destruct (S1 p HpL) as [E | [E _]]; [|done]. rewrite Hk in E by done.
    rewrite decide_False, decide_True in E; congruence. }
  assert (HD' : fs' !! D = Some Dir).
  { apply (S2 D m). fold dest. rewrite Hd'. eauto. }
  assert (Hs' : fs' !! s = Some Dir).
  { apply (S2 s c). fold D. rewrite HD'. eauto. }
  set (fsA := <[p := File f]> (delete dest fs')).
  assert (HA : forall q, fsA !! q =
             if decide (q = p) then Some (File f)
             else if decide (q = dest) then None else fs' !! q).
  { intros q. unfold fsA. rewrite lookup_insert. repeat case_decide; subst; try done.
    - now rewrite lookup_delete_eq.
    - now rewrite lookup_delete_ne. }
  assert (HtA : tree fsA).
  { unfold fsA. apply tree_insert_file.
    - apply tree_delete; [done|]. intros n'. eapply tree_file_leaf; eassumption.
    - apply child_not_nil.
    - unfold p. rewrite parent_child. rewrite lookup_delete_ne; [done | congruence].
    - intros n'. rewrite lookup_delete. case_decide; [done|].
      now apply tree_absent_leaf. }
  (* the entries of the folder after the file left it *)
  assert (Hempty : fs !! D = None -> FS.children fsA D = []).
  { intros HDnew. apply children_nil. intros n'. rewrite HA.
    rewrite decide_False by apply grandchild_neq_child.
    case_decide as Hx; [done|].
    destruct (decide (Path.child D n' = HISTORY)) as [EL | NL].
    { unfold HISTORY_FILE in EL. apply (f_equal Path.parent) in EL.
      rewrite !parent_child in EL. congruence. }
    assert (E2 : fs2 !! Path.child D n' = None).
    { destruct (Hg (Path.child D n')) as [E | [_ E]].
      - rewrite E. now apply tree_absent_leaf.
      - apply Hnew in E; [|now apply tree_absent_leaf].
        now apply child_neq_self in E. }
    destruct (S1 _ NL) as [E | [E _]]; [|done]. rewrite Hk in E by done.
    rewrite decide_False in E by done.
    rewrite decide_False in E by apply grandchild_neq_child. congruence. }
  (* the relation to the state before the move, for both outcomes of the cleanup *)
  assert (Hback : forall fs'',
             (fs'' = fsA /\ FS.children fsA D <> []) \/
             (fs'' = delete D fsA /\ FS.children fsA D = []) ->
             shrunk HISTORY fs'' fs).
  { intros fs'' Hcase.
    assert (Hl : forall q, q <> D -> fs'' !! q = fsA !! q).
    { intros q Hq. destruct Hcase as [[-> _] | [-> _]]; [done|].
      now rewrite lookup_delete_ne. }
    assert (HlD : fs'' !! D = Some Dir \/ fs'' !! D = None).
    { destruct Hcase as [[-> _] | [-> _]].
      - left. rewrite HA. rewrite !decide_False by done. done.
      - right. apply lookup_delete_eq. }
    split; [|split].
    - intros q Hq. destruct (decide (q = D)) as [->|HqD].
      + destruct (fs !! D) as [nd|] eqn:E0.
        * assert (nd = Dir) as ->.
          { destruct (Hg D) as [E | [E _]]; congruence. }
          destruct HlD as [-> | ->]; [now left | now right].
        * left. destruct Hcase as [[_ Hne] | [-> _]];
            [destruct Hne; now apply Hempty | apply lookup_delete_eq].
      + rewrite Hl, HA by done. case_decide as Hqp; [subst; now left|].
        case_decide as Hqd.
        { subst. left. destruct (Hg dest) as [E | [E _]]; congruence. }
        destruct (S1 q Hq) as [E | [E1 E2]]; rewrite Hk in * by done;
          rewrite !decide_False in * by done.
        * destruct (Hg q) as [E' | [E1' E2']]; [left; congruence|].
          apply Hnew in E2'; done.
        * destruct (Hg q) as [E' | [E1' E2']]; [right; split; congruence|].
          apply Hnew in E2'; done.
    - destruct Hcase as [[-> _] | [-> Hnil]]; [done|].
      apply tree_delete; [done|]. now apply children_nil.
    - destruct S3 as [fL EL]. exists fL. rewrite Hl by congruence.
      rewrite HA. rewrite !decide_False by congruence. done. }
  (* the code *)
  unfold undo_entry. cbn [e_src e_dst]. fold fs'.
  assert (Hex : FS.exists_ fs' dest = true) by (apply exists_true; rewrite Hd'; eauto).
  rewrite Hex, Hreal. cbn [negb print w_fs].
  unfold FS.shutil_move, FS.is_dir. fold fs'. rewrite Hp'.
  assert (Hpp : Path.parent p = s) by apply parent_child.
  assert (Hpd : Path.parent dest = D) by apply parent_child.
  unfold FS.rename. rewrite Hd', Hpp, Hs', Hp'. cbn [mbind result_bind].
  fold fsA. rewrite Hpd.
  unfold FS.iterdir. rewrite HA. rewrite !decide_False by done. rewrite HD'.
  cbn [mbind result_bind].
  destruct (FS.children fsA D) as [|x l] eqn:Ech.
  - eexists. split; [reflexivity|]. cbn [w_fs set_fs]. apply Hback. now right.
  - eexists. split; [reflexivity|]. cbn [w_fs set_fs]. apply Hback. left.
    split; [done | congruence].
Qed.


(** A file of the source directory found after a move was there before. *)
Lemma moved_file_back e fs fs' p dest t n f :
  moved cwd (source e) fs fs' p dest t ->
  Str.startswith "." n = false ->
  fs' !! Path.child (source e) n = Some (File f) ->
  fs !! Path.child (source e) n = Some (File f).
Proof.
  intros (n0 & c & m & f0 & fs2 & fl & -> & -> & Hn & Hc & Hm & Ep & Hg & Ht2 &
          Hnew & HD & Hfree & Hcwd & HnD & -> & _) Hvis.
  rewrite lookup_insert_ne.
  2:{ intros E. symmetry in E. revert E. apply visible_not_history.
      now rewrite name_child. }
  rewrite lookup_insert_ne by apply grandchild_neq_child.
  rewrite lookup_delete. case_decide; [done|]. intros E.
  destruct (Hg (Path.child (source e) n)) as [E' | [_ E']]; congruence.
Qed.

(** Every path a real run moved was a visible file of the source directory
    when the run began. *)
Lemma run_moved_sources e files : forall w w1 ds,
  dry_run e = false ->
  tree (w_fs w) ->
  Forall (in_source e) files ->
  run_files e w files = Ok (w1, ds) ->
  forall i p dest,
    files !! i = Some p -> ds !! i = Some (Some dest) ->
    exists n f, p = Path.child (source e) n /\ Str.startswith "." n = false /\
                w_fs w !! p = Some (File f).
Proof.
  induction files as [|f0 rest IH]; intros w w1 ds Hreal Ht Hall H i p dest Hi Hd;
    [done|].
  cbn [run] in H.
  destruct (process e w f0) as [[wa d]|x] eqn:Hstep; [|done].
  cbn [mbind result_bind] in H.
  destruct (run_files e wa rest) as [[w2 ds']|x] eqn:Hrest; [|done].
  cbn [mbind result_bind] in H. injection H as <- <-.
  apply Forall_cons in Hall as [Hin Hall].
  apply step_real in Hstep as [[-> Hfs] | (dest0 & -> & Hmv)]; try done.
  - destruct i as [|i]; [done|]. cbn in Hi, Hd. rewrite <- Hfs.
    eapply IH; try eassumption. now rewrite Hfs.
  - destruct i as [|i].
    + cbn in Hi, Hd. injection Hi as <-.
      destruct Hmv as (n & c & m & f & fs2 & fl & -> & _ & Hn & _ & _ & Ep & _).
      eauto.
    + cbn in Hi, Hd.
      destruct (IH wa w2 ds' Hreal (moved_tree _ _ _ _ _ _ _ Hmv) Hall Hrest i p dest Hi Hd)
        as (n & f & -> & Hn & Ep).
      exists n, f. split; [done|]. split; [done|].
      eapply moved_file_back; eassumption.
Qed.

(** The ledger after a real run holds the old history and the moves of the
    run, and undoing these moves latest first, from the state reached or
    one with fewer folders, leads back to the state before the run. *)
Lemma undo_after_run e files : forall w w1 ds h,
  dry_run e = false ->
  tree (w_fs w) ->
  w_fs w !! cwd = Some Dir ->
  Forall (in_source e) files ->
  ledger_holds (w_fs w) HISTORY h ->
  run_files e w files = Ok (w1, ds) ->
  exists h1,
    ledger_holds (w_fs w1) HISTORY (h ++ h1) /\
    tree (w_fs w1) /\
    (h1 = [] -> w_fs w1 = w_fs w) /\
    forall w', shrunk HISTORY (w_fs w') (w_fs w1) ->
      exists w'', undo_entries e w' (rev h1) = Ok w'' /\
                  shrunk HISTORY (w_fs w'') (w_fs w).
Proof.
  induction files as [|f0 rest IH]; intros w w1 ds h Hreal Ht Hcwd Hall Hl H.
  { injection H as <- <-. exists []. rewrite app_nil_r.
    repeat (split; [done|]). intros w' Hs. exists w'. done. }
  cbn [run] in H.
  destruct (process e w f0) as [[wa d]|x] eqn:Hstep; [|done].
  cbn [mbind result_bind] in H.
  destruct (run_files e wa rest) as [[w2 ds']|x] eqn:Hrest; [|done].
  cbn [mbind result_bind] in H. injection H as <- <-.
  apply Forall_cons in Hall as [Hin Hall].
  apply step_real in Hstep as [[-> Hfs] | (dest & -> & Hmv)]; try done.
  - rewrite <- Hfs in *. eapply IH; eassumption.
  - pose proof (moved_tree _ _ _ _ _ _ _ Hmv) as Hta.
    pose proof (moved_cwd _ _ _ _ _ _ _ Hmv) as Hca.
    assert (Hla : ledger_holds (w_fs wa) HISTORY (h ++ [Entry f0 dest (w_clock w)])).
    { destruct Hmv as (n & c & m & f & fs2 & fl & _ & _ & _ & _ & _ & _ & _ & _ &
                       _ & _ & _ & _ & _ & _ & Hh). now apply Hh. }
    destruct (IH wa w2 ds' _ Hreal Hta Hca Hall Hla Hrest)
      as (h1 & Hl1 & Ht1 & _ & Hundo).
    exists (Entry f0 dest (w_clock w) :: h1).
    split; [now rewrite <- app_assoc in Hl1|]. split; [done|]. split; [done|].
    intros w' Hs. cbn [rev]. rewrite undo_entries_app.
    destruct (Hundo w' Hs) as (wb & -> & Hsb). cbn [mbind result_bind undo_entries].
    destruct (undo_entry_inverts e wb _ _ _ _ _ (w_clock w) Hreal Ht Hcwd Hmv Hsb)
      as (wc & -> & Hsc).
    cbn [mbind result_bind]. eauto.
Qed.

End UndoRun.

(** C1, as stated, fails when a ledger is left from an earlier call: after
    [a.jpg] was organized and not undone, a new [a.jpg] is organized in a
    file system that is a tree; the undo replays both records, latest first,
    puts the new file back and then moves the older one over it.  The later
    file is at neither path and its content is gone. *)
Lemma C1_earlier_ledger_overwrites :
  ~ (forall (cwd : path) (sha256_hexdigest : fdata -> string) (date_str : nat -> string)
            (e : engine) (w w1 : world) (files : list path) (ds : list (option path)),
       dry_run e = false ->
       tree (w_fs w) ->
       w_fs w !! cwd = Some Dir ->
       Forall (in_source e) files ->
       run cwd sha256_hexdigest date_str e w files = Ok (w1, ds) ->
       exists w2,
         undo_last_operation cwd e w1 = Ok w2 /\
         w_fs w2 !! HISTORY_FILE cwd = None /\
         forall i p dest,
           files !! i = Some p -> ds !! i = Some (Some dest) ->
           exists f, w_fs w !! p = Some (File f) /\
                     w_fs w2 !! p = Some (File f) /\
                     w_fs w2 !! dest = None).
Proof.
  intros H.
  destruct (H Sample.home Sample.digest Sample.date Sample.real sample_relogged
              (fst sample_rerun) [Path.child Sample.home "a.jpg"] (snd sample_rerun))
    as (w2 & Hundo & _ & Hback).
  - reflexivity.
  - apply treeb_tree. vm_compute. reflexivity.
  - vm_compute. reflexivity.
  - repeat constructor. now exists "a.jpg".
  - vm_compute. reflexivity.
  - destruct (Hback 0 (Path.child Sample.home "a.jpg")
                ["home"; "u"; "Images"; "Img_2024-01-05_02.jpg"])
      as (f & Hf & Hf2 & _).
    + reflexivity.
    + vm_compute. reflexivity.
    + vm_compute in Hundo. injection Hundo as <-.
      vm_compute in Hf. vm_compute in Hf2. congruence.
Qed.

(** C1, amended: undo is a left inverse of a run without simulation that
    starts with no ledger left from earlier.  After [process_file] has been
    called on entries of the source directory, one call after the other, in
    a file system that is a tree, an immediate [undo_last_operation]
    succeeds, every moved file is back at its original path with the node it
    had, its destination is free again, no ledger is left, and the file
    system is the original one except for folders that were removed. *)
Theorem C1_undo_left_inverse
    (cwd : path) (sha256_hexdigest : fdata -> string) (date_str : nat -> string)
    (e : engine) (w w1 : world) (files : list path) (ds : list (option path)) :
  dry_run e = false ->
  tree (w_fs w) ->
  w_fs w !! cwd = Some Dir ->
  w_fs w !! HISTORY_FILE cwd = None ->
  Forall (in_source e) files ->
  run cwd sha256_hexdigest date_str e w files = Ok (w1, ds) ->
  exists w2,
    undo_last_operation cwd e w1 = Ok w2 /\
    w_fs w2 !! HISTORY_FILE cwd = None /\
    (forall i p dest,
       files !! i = Some p -> ds !! i = Some (Some dest) ->
       exists f, w_fs w !! p = Some (File f) /\
                 w_fs w2 !! p = Some (File f) /\
                 w_fs w2 !! dest = None) /\
    (forall q, w_fs w2 !! q = w_fs w !! q \/
               (w_fs w2 !! q = None /\ w_fs w !! q = Some Dir)).
Proof.
  intros Hreal Ht Hcwd HL Hall Hrun.
  assert (Hrel : exists w2,
    undo_last_operation cwd e w1 = Ok w2 /\
    w_fs w2 !! HISTORY_FILE cwd = None /\
    (forall q, w_fs w2 !! q = w_fs w !! q \/
               (w_fs w2 !! q = None /\ w_fs w !! q = Some Dir))).
  { destruct (undo_after_run cwd sha256_hexdigest date_str e files w w1 ds []
                Hreal Ht Hcwd Hall HL Hrun) as (h1 & Hl1 & Ht1 & Hnil & Hundo).
    cbn [app] in Hl1. unfold undo_last_operation. destruct h1 as [|r h1].
    - specialize (Hnil eq_refl). simpl in Hl1.
      assert (Hex : FS.exists_ (w_fs w1) (HISTORY_FILE cwd) = false)
        by now apply exists_false.
      rewrite Hex. cbn [negb]. eexists. split; [reflexivity|].
      cbn [w_fs print]. split; [done|]. intros q. left. now rewrite Hnil.
    - destruct Hl1 as (fl & EL & Hr & Hd).
      assert (Hex : FS.exists_ (w_fs w1) (HISTORY_FILE cwd) = true)
        by (apply exists_true; rewrite EL; eauto).
      rewrite Hex. cbn [negb]. unfold FS.read_json. rewrite EL, Hr, Hd.
      cbn [mbind result_bind].
      destruct (Hundo (print (MsgUndoing (length (r :: h1))) w1))
        as (wb & -> & (S1 & S2 & fL & S3)).
      { cbn [w_fs print]. split; [intros q _; now left|]. split; [done | eauto]. }
      cbn [mbind result_bind]. rewrite Hreal. cbn [negb].
      unfold FS.remove. rewrite S3. cbn [mbind result_bind].
      eexists. split; [reflexivity|]. cbn [w_fs set_fs].
      split; [apply lookup_delete_eq|]. intros q.
      destruct (decide (q = HISTORY_FILE cwd)) as [->|Hq].
      + left. now rewrite lookup_delete_eq.
      + rewrite lookup_delete_ne by done. now apply S1. }
  destruct Hrel as (w2 & Hu & HL2 & Hrel). exists w2.
  split; [done|]. split; [done|]. split; [|done].
  intros i p dest Hi Hd.
  destruct (run_moved_sources cwd sha256_hexdigest date_str e files w w1 ds
              Hreal Ht Hall Hrun i p dest Hi Hd) as (n & f & -> & Hn & Ep).
  exists f. split; [done|]. split.
  - destruct (Hrel (Path.child (source e) n)) as [E | [_ E]]; congruence.
  - assert (Hin : In dest (resolved ds)).
    { apply list_elem_of_In, list_elem_of_omap. exists (Some dest).
      split; [|done]. eapply list_elem_of_lookup_2; eassumption. }
    destruct (run_resolved cwd sha256_hexdigest date_str e files w w1 ds Hrun) as [_ Hfree].
    { intros _. done. }
    apply Hfree in Hin as [Hocc _]. apply occupied_false in Hocc as [E0 _].
    destruct (Hrel dest) as [E | [E _]]; congruence.
Qed.

Lemma C1_undo_left_inverse_witness :
  exists w2,
    undo_last_operation Sample.home Sample.real (fst sample_outcome) = Ok w2 /\
    w_fs w2 !! HISTORY_FILE Sample.home = None /\
    (forall i p dest,
       Sample.files !! i = Some p -> snd sample_outcome !! i = Some (Some dest) ->
       exists f, w_fs Sample.start !! p = Some (File f) /\
                 w_fs w2 !! p = Some (File f) /\
                 w_fs w2 !! dest = None) /\
    (forall q, w_fs w2 !! q = w_fs Sample.start !! q \/
               (w_fs w2 !! q = None /\ w_fs Sample.start !! q = Some Dir)).
Proof.
  apply (C1_undo_left_inverse Sample.home Sample.digest Sample.date Sample.real
           Sample.start (fst sample_outcome) Sample.files (snd sample_outcome)).
  - reflexivity.
  - apply treeb_tree. vm_compute. reflexivity.
  - vm_compute. reflexivity.
  - vm_compute. reflexivity.
  - repeat constructor; eexists; reflexivity.
  - vm_compute. reflexivity.
Defined.

(** * Undo with missing destinations *)

Section UndoMissing.

Variable ledger : path.

Lemma is_file_true fs p : FS.is_file fs p = true <-> exists f, fs !! p = Some (File f).
Proof.
  unfold FS.is_file. destruct (fs !! p) as [[|f]|]; split; try done; eauto.
  - intros [? ?]. done.
  - intros [? ?]. done.
Qed.

Lemma undo_ready_tail fs r ens :
  undo_ready ledger fs (r :: ens) -> undo_ready ledger fs ens.
Proof.
  intros (N1 & N2 & HF). cbn [map] in *.
  apply NoDup_cons in N1 as [_ N1]. apply NoDup_cons in N2 as [_ N2].
  split; [done|]. split; [done|].
  apply Forall_cons in HF as [_ HF].
  eapply Forall_impl; [exact HF|]. intros r' (H1 & H2 & H3).
  split; [done|]. split; [|done]. now apply Forall_cons in H2 as [_ H2].
Qed.

(** The facts of [undo_ready] depend on the file system only through the
    entries at the destinations, the sources and their folders. *)
Lemma undo_ready_change fs fs' ens :
  undo_ready ledger fs ens ->
  (forall r, In r ens -> is_Some (fs' !! e_dst r) ->
     fs' !! e_dst r = fs !! e_dst r /\
     fs' !! Path.parent (e_dst r) = fs !! Path.parent (e_dst r) /\
     fs' !! e_src r = fs !! e_src r /\
     fs' !! Path.parent (e_src r) = fs !! Path.parent (e_src r)) ->
  undo_ready ledger fs' ens.
Proof.
  intros (N1 & N2 & HF) Hsame. split; [done|]. split; [done|].
  apply Forall_forall. intros r Hr. rewrite Forall_forall in HF.
  apply list_elem_of_In in Hr.
  destruct (HF r) as (H1 & H2 & H3); [now apply list_elem_of_In|].
  split; [done|]. split; [done|]. intros Hex. apply exists_true in Hex.
  destruct (Hsame r Hr Hex) as (E1 & E2 & E3 & E4).
  unfold FS.exists_, FS.is_file, FS.is_dir in *. rewrite E1, E2, E3, E4 in *.
  apply H3. destruct Hex as [x Hx]. now rewrite Hx.
Qed.

(** The loop of the undo on a history it can replay: it completes, the
    records with a destination are restored, the others are reported, the
    ledger stays, and nothing else changes but folders that are removed. *)
Lemma undo_entries_ready e ens : forall w,
  dry_run e = false ->
  undo_ready ledger (w_fs w) ens ->
  FS.is_file (w_fs w) ledger = true ->
  exists w',
    undo_entries e w ens = Ok w' /\
    FS.is_file (w_fs w') ledger = true /\
    (forall r nd, In r ens -> w_fs w !! e_dst r = Some nd ->
       w_fs w' !! e_src r = Some nd /\ w_fs w' !! e_dst r = None) /\
    (forall r, In r ens -> w_fs w !! e_dst r = None ->
       In (MsgWarning (e_dst r)) (w_out w') /\ w_fs w' !! e_dst r = None) /\
    (forall q, ~ In q (map e_src ens) -> ~ In q (map e_dst ens) ->
       w_fs w' !! q = w_fs w !! q \/
       (w_fs w !! q = Some Dir /\ w_fs w' !! q = None)) /\
    (forall m, In m (w_out w) -> In m (w_out w')).
Proof.
  induction ens as [|r ens IH]; intros w Hreal Hready HL.
  { exists w. split; [done|]. split; [done|].
    split; [intros ? ? []|]. split; [intros ? []|]. split; [now left | done]. }
  pose proof (undo_ready_tail _ _ _ Hready) as Htail.
  destruct Hready as (N1 & N2 & HF). cbn [map] in N1, N2.
  apply NoDup_cons in N1 as [Ns1 N1]. apply NoDup_cons in N2 as [Nd1 N2].
  rewrite list_elem_of_In in Ns1, Nd1.
  pose proof HF as HFall. rewrite Forall_forall in HFall.
  apply Forall_cons in HF as [(HrL & Hcross & Hlive) HF].
  rewrite Forall_forall in Hcross.
  assert (Hsd : forall r', In r' ens -> e_src r <> e_dst r').
  { intros r' Hr'. apply (Hcross r'). apply list_elem_of_In. now right. }
  assert (Hds : forall r', In r' ens -> e_src r' <> e_dst r).
  { intros r' Hr'. destruct (HFall r') as (_ & Hc' & _); [apply list_elem_of_In; now right|].
    rewrite Forall_forall in Hc'. apply (Hc' r). apply list_elem_of_In. now left. }
  assert (Hps : forall r', In r' ens -> Path.parent (e_src r') <> Path.parent (e_dst r)).
  { intros r' Hr'. destruct (HFall r') as (_ & Hc' & _); [apply list_elem_of_In; now right|].
    rewrite Forall_forall in Hc'. apply (Hc' r). apply list_elem_of_In. now left. }
  assert (Hss : forall r', In r' ens -> e_src r' <> e_src r).
  { intros r' Hr' E. apply Ns1. rewrite <- E. now apply in_map. }
  assert (Hdd : forall r', In r' ens -> e_dst r' <> e_dst r).
  { intros r' Hr' E. apply Nd1. rewrite <- E. now apply in_map. }
  cbn [undo_entries]. unfold undo_entry.
  destruct (FS.exists_ (w_fs w) (e_dst r)) eqn:Hex.
  - (* the destination is there: the file goes back *)
    destruct (Hlive eq_refl) as (Hf & Hpd & Hs & Hpsrc).
    apply is_file_true in Hf as [f Hf]. apply is_dir_true in Hpd, Hpsrc.
    apply exists_false in Hs.
    rewrite Hreal. cbn [negb print w_fs].
    unfold FS.shutil_move, FS.is_dir. rewrite Hs. unfold FS.rename.
    rewrite Hf, Hpsrc, Hs. cbn [mbind result_bind].
    set (fs := w_fs w) in *.
    set (fsA := <[e_src r := File f]> (delete (e_dst r) fs)).
    set (D := Path.parent (e_dst r)) in *.
    assert (HDs : D <> e_src r) by congruence.
    assert (HDd : D <> e_dst r) by congruence.
    assert (Hsdr : e_src r <> e_dst r) by congruence.
    assert (HA : forall q, fsA !! q =
               if decide (q = e_src r) then Some (File f)
               else if decide (q = e_dst r) then None else fs !! q).
    { intros q. unfold fsA. rewrite lookup_insert. repeat case_decide; subst; try done.
      - now rewrite lookup_delete_eq.
      - now rewrite lookup_delete_ne. }
    unfold FS.iterdir. rewrite HA, !decide_False by done. rewrite Hpd.
    cbn [mbind result_bind].
    set (fs1 := match FS.children fsA D with [] => delete D fsA | _ => fsA end).
    assert (Hw1 : match FS.children fsA D with
                  | [] => Ok (set_fs (print (MsgRestoring (Path.name (e_dst r))
                                               (Path.name (e_src r))) w) (delete D fsA))
                  | _ :: _ => Ok (set_fs (print (MsgRestoring (Path.name (e_dst r))
                                                   (Path.name (e_src r))) w) fsA)
                  end = Ok (set_fs (print (MsgRestoring (Path.name (e_dst r))
                                             (Path.name (e_src r))) w) fs1)).
    { unfold fs1. now destruct (FS.children fsA D). }
    unfold print, set_fs in Hw1 |- *. cbn [w_fs simulated_files w_clock w_out] in Hw1 |- *.
    rewrite Hw1. clear Hw1. cbn [mbind result_bind].
    assert (H1 : forall q, q <> D -> fs1 !! q = fsA !! q).
    { intros q Hq. unfold fs1. destruct (FS.children fsA D); [|done].
      now rewrite lookup_delete_ne. }
    assert (H1D : fs1 !! D = Some Dir \/ (fs1 !! D = None /\ FS.children fsA D = [])).
    { unfold fs1. destruct (FS.children fsA D) eqn:E.
      - right. split; [apply lookup_delete_eq | done].
      - left. rewrite HA, !decide_False by done. done. }
    (* a destination that is still there keeps its folder *)
    assert (Hkeep : forall q, is_Some (fsA !! q) -> Path.parent q = D -> q <> [] ->
              fs1 !! D = Some Dir).
    { intros q Hq Hp Hnil. destruct H1D as [E | [_ E]]; [done|].
      rewrite children_nil in E. rewrite (child_parent_name q Hnil), Hp in Hq.
      rewrite E in Hq. now destruct Hq. }
    set (w1 := {| w_fs := fs1; simulated_files := simulated_files w;
                  w_clock := w_clock w;
                  w_out := MsgRestoring (Path.name (e_dst r)) (Path.name (e_src r))
                             :: w_out w |}).
    assert (Hready1 : undo_ready ledger (w_fs w1) ens).
    { apply (undo_ready_change fs); [done|]. cbn [w_fs]. intros r' Hr' Hsome.
      assert (Hne1 : e_dst r' <> D).
      { intros E. rewrite E in Hsome.
        destruct (HFall r') as (_ & _ & Hl'); [apply list_elem_of_In; now right|].
        assert (Hx : FS.exists_ fs (e_dst r') = true).
        { apply exists_true. rewrite E, Hpd. eauto. }
        apply Hl' in Hx as (Hx & _). apply is_file_true in Hx as [f' Hx]. congruence. }
      assert (Hd1 : fs1 !! e_dst r' = fs !! e_dst r').
      { rewrite H1, HA by done.
        rewrite decide_False by (intros E; now apply (Hsd r')).
        rewrite decide_False by now apply Hdd. done. }
      assert (Hx : FS.exists_ fs (e_dst r') = true).
      { apply exists_true. now rewrite <- Hd1. }
      destruct (HFall r') as (_ & _ & Hl'); [apply list_elem_of_In; now right|].
      destruct (Hl' Hx) as (Hf' & Hpd' & Hs' & Hps').
      apply is_file_true in Hf' as [f' Hf']. apply is_dir_true in Hpd', Hps'.
      apply exists_false in Hs'.
      split; [done|]. split; [|split].
      - destruct (decide (Path.parent (e_dst r') = D)) as [E|NE].
        + rewrite E, Hpd. apply (Hkeep (e_dst r')); [|done|].
          * rewrite <- H1 by done. done.
          * intros E0. rewrite E0 in *. cbn in Hpd'. congruence.
        + rewrite H1, HA by done.
          rewrite !decide_False by congruence. done.
      - rewrite H1, HA by congruence.
        rewrite decide_False by now apply Hss.
        rewrite decide_False by now apply Hds. done.
      - rewrite H1, HA by now apply Hps.
        rewrite !decide_False by congruence. done. }
    assert (HL1 : FS.is_file (w_fs w1) ledger = true).
    { apply is_file_true in HL as [fL HL]. apply is_file_true. exists fL. cbn [w_fs].
      rewrite H1, HA by congruence. rewrite !decide_False by congruence. done. }
    destruct (IH w1 Hreal Hready1 HL1) as (w' & -> & HL' & Hlive' & Hdead' & Hframe' & Hout').
    exists w'. split; [done|]. split; [done|].
    assert (Hr_src : w_fs w' !! e_src r = Some (File f)).
    { destruct (Hframe' (e_src r)) as [E | [E _]].
      - rewrite in_map_iff. intros (r' & E & Hr'). now apply (Hss r').
      - rewrite in_map_iff. intros (r' & E & Hr'). now apply (Hsd r').
      - rewrite E. cbn [w_fs]. rewrite H1, HA by congruence. now rewrite decide_True.
      - cbn [w_fs] in E. rewrite H1, HA in E by congruence.
        rewrite decide_True in E by done. done. }
    assert (Hr_dst : w_fs w' !! e_dst r = None).
    { destruct (Hframe' (e_dst r)) as [E | [_ E]]; [| |rewrite E|done].
      - rewrite in_map_iff. intros (r' & E & Hr'). now apply (Hds r').
      - rewrite in_map_iff. intros (r' & E & Hr'). now apply (Hdd r').
      - cbn [w_fs]. rewrite H1, HA by congruence.
        rewrite decide_False, decide_True by congruence. done. }
    split; [|split; [|split]].
    + intros r' nd [<- | Hr'] Hnd; [split; congruence|].
      apply Hlive'; [done|]. cbn [w_fs].
      assert (Hx : FS.exists_ fs (e_dst r') = true) by (apply exists_true; rewrite Hnd; eauto).
      destruct (HFall r') as (_ & _ & Hl'); [apply list_elem_of_In; now right|].
      destruct (Hl' Hx) as (Hf' & _). apply is_file_true in Hf' as [f' Hf'].
      rewrite H1, HA by congruence.
      rewrite decide_False by (intros E; now apply (Hsd r')).
      rewrite decide_False by now apply Hdd. done.
    + intros r' [<- | Hr'] Hnd; [congruence|].
      apply Hdead' in Hr' as [Hm Hn]; [done|]. cbn [w_fs].
      destruct (decide (e_dst r' = D)) as [E|NE]; [congruence|].
      rewrite H1, HA by done.
      rewrite decide_False by (intros E; now apply (Hsd r')).
      rewrite decide_False by now apply Hdd. done.
    + intros q Hqs Hqd. cbn [map] in Hqs, Hqd.
      assert (q <> e_src r) by (intros ->; apply Hqs; now left).
      assert (q <> e_dst r) by (intros ->; apply Hqd; now left).
      assert (Hq1 : w_fs w1 !! q = fs !! q \/ (fs !! q = Some Dir /\ w_fs w1 !! q = None)).
      { change (w_fs w1) with fs1. destruct (decide (q = D)) as [->|NE].
        - destruct H1D as [E | [E _]]; [left; congruence | right; done].
        - left. rewrite H1, HA by done. now rewrite !decide_False by done. }
      destruct (Hframe' q) as [E | [E1 E2]];
        [intros Hin; apply Hqs; now right | intros Hin; apply Hqd; now right | |].
      * rewrite E. exact Hq1.
      * right. split; [|done]. destruct Hq1 as [E | [_ E]]; congruence.
    + intros m Hm. apply Hout'. cbn [w_out]. now right.
  - (* the destination is missing: a warning, and on to the next record *)
    apply exists_false in Hex.
    assert (Hready1 : undo_ready ledger (w_fs (print (MsgWarning (e_dst r)) w)) ens)
      by done.
    cbn [mbind result_bind].
    destruct (IH (print (MsgWarning (e_dst r)) w) Hreal Hready1 HL)
      as (w' & -> & HL' & Hlive' & Hdead' & Hframe' & Hout').
    exists w'. split; [done|]. split; [done|].
    cbn [w_fs print] in *.
    split; [|split; [|split]].
    + intros r' nd [<- | Hr'] Hnd; [congruence | now apply Hlive'].
    + intros r' [<- | Hr'] Hnd; [|now apply Hdead'].
      split; [apply Hout'; now left|].
      destruct (Hframe' (e_dst r)) as [E | [_ E]]; [| |congruence|done].
      * rewrite in_map_iff. intros (r' & E & Hr'). now apply (Hds r').
      * rewrite in_map_iff. intros (r' & E & Hr'). now apply (Hdd r').
    + intros q Hqs Hqd. apply Hframe'.
      * intros Hin. apply Hqs. now right.
      * intros Hin. apply Hqd. now right.
    + intros m Hm. apply Hout'. now right.
Qed.

End UndoMissing.

Lemma undo_ready_rev (ledger : path) (fs : gmap path node) (h : list entry) :
  undo_ready ledger fs h -> undo_ready ledger fs (rev h).
Proof.
  intros (N1 & N2 & HF). unfold undo_ready. rewrite !map_rev.
  split; [now apply NoDup_ListNoDup, List.NoDup_rev, NoDup_ListNoDup|].
  split; [now apply NoDup_ListNoDup, List.NoDup_rev, NoDup_ListNoDup|].
  rewrite Forall_forall in HF. apply Forall_forall. intros r Hr.
  apply list_elem_of_In, in_rev, list_elem_of_In in Hr.
  destruct (HF r Hr) as (H1 & H2 & H3). split; [done|]. split; [|done].
  rewrite Forall_forall in H2. apply Forall_forall. intros r' Hr'.
  apply H2. now apply list_elem_of_In, in_rev, list_elem_of_In in Hr'.
Qed.

(** C8, as stated, fails on a ledger the engine wrote itself: a file named
    [Images] was moved to [Misc_Files], then a picture to the folder
    [Images], and the picture was deleted.  The undo warns about the picture
    and leaves the folder; the record of [Images] has its destination, and
    the move puts the file into the folder that has its name instead of
    restoring it to its path. *)
Lemma C8_restore_lands_in_folder :
  ~ (forall (cwd : path) (e : engine) (w : world) (h : list entry),
       dry_run e = false ->
       FS.read_json (w_fs w) (HISTORY_FILE cwd) = Ok h ->
       h <> [] ->
       exists w',
         undo_last_operation cwd e w = Ok w' /\
         w_fs w' !! HISTORY_FILE cwd = None /\
         (forall r, In r h -> w_fs w !! e_dst r = None ->
            In (MsgWarning (e_dst r)) (w_out w') /\ w_fs w' !! e_dst r = None) /\
         (forall r nd, In r h -> w_fs w !! e_dst r = Some nd ->
            w_fs w' !! e_src r = Some nd /\ w_fs w' !! e_dst r = None)).
Proof.
  intros H.
  destruct (H Sample.home Sample.real sample_shadowed shadow_history)
    as (w' & Hundo & _ & _ & Hlive).
  - reflexivity.
  - vm_compute. reflexivity.
  - vm_compute. discriminate.
  - destruct (Hlive (Entry (Path.child Sample.home "Images")
                       ["home"; "u"; "Misc_Files"; "Misc_File_2024-01-05_01"] 100)
                (Sample.picture "iii")) as [Hsrc _].
    + vm_compute. tauto.
    + vm_compute. reflexivity.
    + vm_compute in Hundo. injection Hundo as <-.
      vm_compute in Hsrc. discriminate.
Qed.

(** C8, amended: in an undo without simulation, on a history that can be
    replayed (distinct sources, distinct destinations, no source that is a
    destination or lies in the folder of one, and where a destination is
    present it is a file, its source path is free and the folder of the
    source is there), every record whose destination is missing is reported
    by a warning and skipped, every record whose destination is there is
    restored to its source, and the ledger is deleted at the end however
    many records were skipped. *)
Theorem C8_undo_skips_missing
    (cwd : path) (e : engine) (w : world) (h : list entry) :
  dry_run e = false ->
  FS.read_json (w_fs w) (HISTORY_FILE cwd) = Ok h ->
  h <> [] ->
  undo_ready (HISTORY_FILE cwd) (w_fs w) h ->
  exists w',
    undo_last_operation cwd e w = Ok w' /\
    w_fs w' !! HISTORY_FILE cwd = None /\
    (forall r, In r h -> w_fs w !! e_dst r = None ->
       In (MsgWarning (e_dst r)) (w_out w') /\ w_fs w' !! e_dst r = None) /\
    (forall r nd, In r h -> w_fs w !! e_dst r = Some nd ->
       w_fs w' !! e_src r = Some nd /\ w_fs w' !! e_dst r = None).
Proof.
  intros Hreal Hread Hne Hready.
  assert (HL : FS.is_file (w_fs w) (HISTORY_FILE cwd) = true).
  { unfold FS.read_json in Hread. unfold FS.is_file.
    destruct (w_fs w !! HISTORY_FILE cwd) as [[|f]|]; done. }
  assert (Hex : FS.exists_ (w_fs w) (HISTORY_FILE cwd) = true).
  { unfold FS.is_file in HL. unfold FS.exists_.
    destruct (w_fs w !! HISTORY_FILE cwd); done. }
  unfold undo_last_operation. rewrite Hex, Hread. cbn [negb mbind result_bind].
  destruct h as [|r0 h0]; [done|]. set (h := r0 :: h0) in *.
  destruct (undo_entries_ready (HISTORY_FILE cwd) e (rev h)
              (print (MsgUndoing (length h)) w) Hreal)
    as (w1 & -> & HL1 & Hlive & Hdead & _ & _).
  { cbn [w_fs print]. now apply undo_ready_rev. }
  { done. }
  cbn [mbind result_bind]. rewrite Hreal. cbn [negb].
  apply is_file_true in HL1 as [fL HL1]. unfold FS.remove. rewrite HL1.
  cbn [mbind result_bind]. eexists. split; [reflexivity|].
  cbn [w_fs set_fs w_out print] in *.
  split; [apply lookup_delete_eq|]. split.
  - intros r Hr Hnone. apply in_rev in Hr. destruct (Hdead r Hr Hnone) as [Hm Hn].
    split; [done|]. rewrite lookup_delete. case_decide; done.
  - intros r nd Hr Hnd. pose proof Hr as Hr'. apply in_rev in Hr'.
    destruct (Hlive r nd Hr' Hnd) as [Hs Hd].
    split; [|rewrite lookup_delete; case_decide; done].
    rewrite lookup_delete_ne; [done|]. intros E.
    destruct Hready as (_ & _ & HF). rewrite Forall_forall in HF.
    destruct (HF r) as (_ & _ & Hl); [now apply list_elem_of_In|].
    destruct Hl as (_ & _ & Hfree & _); [apply exists_true; rewrite Hnd; eauto|].
    apply exists_false in Hfree. apply is_file_true in HL as [f HL].
    rewrite <- E in Hfree. congruence.
Qed.

Lemma C8_undo_skips_missing_witness :
  exists w',
    undo_last_operation Sample.home Sample.real sample_tampered = Ok w' /\
    w_fs w' !! HISTORY_FILE Sample.home = None /\
    (forall r, In r sample_history -> w_fs sample_tampered !! e_dst r = None ->
       In (MsgWarning (e_dst r)) (w_out w') /\ w_fs w' !! e_dst r = None) /\
    (forall r nd, In r sample_history -> w_fs sample_tampered !! e_dst r = Some nd ->
       w_fs w' !! e_src r = Some nd /\ w_fs w' !! e_dst r = None).
Proof.
  apply (C8_undo_skips_missing Sample.home Sample.real sample_tampered sample_history).
  - reflexivity.
  - vm_compute. reflexivity.
  - vm_compute. discriminate.
  - apply (bool_decide_unpack _). vm_compute. exact I.
Defined.

Example sample_tampered_undo :
  (fun w' => (w_fs w' !! ["home"; "u"; "a.jpg"],
              w_fs w' !! ["home"; "u"; "b.jpg"],
              w_fs w' !! ["home"; "u"; "c.jpg"],
              w_fs w' !! HISTORY_FILE Sample.home,
              w_out w' !! 1))
    <$> (match undo_last_operation Sample.home Sample.real sample_tampered with
         | Ok w' => Some w'
         | Raise _ => None
         end) =
  Some (Some (Sample.picture "aaa"), None, Some (Sample.picture "aaa"), None,
        Some (MsgWarning ["home"; "u"; "Images"; "Img_2024-01-05_02.jpg"])).
Proof. vm_compute. reflexivity. Qed.

(** * Skipped paths, simulation, unreadable files, malformed ledger *)

(** C10: on a path whose final component begins with a dot [process_file]
    does nothing: the file system, ledger included, the claimed
    destinations and the output are what they were and nothing is resolved;
    so it is for the ledger [.organizer_history.json] in any directory. *)
Theorem C10_hidden_is_noop
    (cwd : path) (sha256_hexdigest : fdata -> string) (date_str : nat -> string)
    (e : engine) (w : world) :
  (forall p, Str.startswith "." (Path.name p) = true ->
     exists w', process_file cwd sha256_hexdigest date_str e w p = Ok (w', None) /\
                w_fs w' = w_fs w /\ claimed w' = claimed w /\
                w_out w' = w_out w /\ w_clock w' = w_clock w) /\
  (forall d,
     exists w', process_file cwd sha256_hexdigest date_str e w
                  (Path.child d ".organizer_history.json") = Ok (w', None) /\
                w_fs w' = w_fs w /\ claimed w' = claimed w /\
                w_out w' = w_out w /\ w_clock w' = w_clock w).
Proof.
  assert (Hskip : forall p, Str.startswith "." (Path.name p) = true ->
     exists w', process_file cwd sha256_hexdigest date_str e w p = Ok (w', None) /\
                w_fs w' = w_fs w /\ claimed w' = claimed w /\
                w_out w' = w_out w /\ w_clock w' = w_clock w).
  { intros p Hp. unfold process_file. cbn [w_fs]. rewrite Hp, orb_true_r.
    eexists. split; [reflexivity|]. done. }
  split; [exact Hskip|]. intros d. apply Hskip. now rewrite name_child.
Qed.

(** C2 fails on the code: a simulated call on [a.jpg], in a directory that
    has no [Images] folder, creates that folder. *)
Theorem C2_dry_run_creates_folder :
  dry_run Sample.simulation = true /\
  w_fs Sample.start !! Path.child Sample.home "Images" = None /\
  match process_file Sample.home Sample.digest Sample.date Sample.simulation
          Sample.start (Path.child Sample.home "a.jpg") with
  | Ok (w', _) => w_fs w' !! Path.child Sample.home "Images" = Some Dir
  | Raise _ => False
  end.
Proof. split; [reflexivity|]. split; vm_compute; reflexivity. Qed.

(** C3 fails on the code: [y.jpg] cannot be read, nor can [x.jpg] in the
    [Images] folder, their contents differ, and [y.jpg] is reported as
    identical to [x.jpg] and moved to the [Duplicates] folder. *)
Theorem C3_unreadable_files_flagged
    (sha256_hexdigest : fdata -> string) (date_str : nat -> string) :
  calculate_hash sha256_hexdigest locked_fs (Path.child Sample.home "y.jpg") = "" /\
  match process_file Sample.home sha256_hexdigest date_str Sample.real
          (World locked_fs None 0 []) (Path.child Sample.home "y.jpg") with
  | Ok (w', d) =>
      d = Some ["home"; "u"; "Duplicates"; "y.jpg"] /\
      In (MsgDuplicate "y.jpg" "x.jpg") (w_out w')
  | Raise _ => False
  end.
Proof.
  split; [reflexivity|]. vm_compute. split; [reflexivity|]. right. now left.
Qed.

(** C6 fails on the code: with a ledger that is no JSON document
    [undo_last_operation] stops with the decoding error, where [_log_move]
    takes the same ledger for an empty history. *)
Theorem C6_undo_fails_on_malformed_ledger
    (cwd : path) (e : engine) (src dst : path) :
  undo_last_operation cwd e (malformed_ledger cwd) = Raise JSONDecodeError /\
  exists w', log_move cwd (Engine (source e) false) (malformed_ledger cwd) src dst = Ok w' /\
             FS.read_json (w_fs w') (HISTORY_FILE cwd) = Ok [Entry src dst 7].
Proof.
  split.
  - unfold undo_last_operation, malformed_ledger, FS.exists_, FS.read_json. cbn [w_fs].
    rewrite lookup_singleton_eq. reflexivity.
  - unfold log_move, malformed_ledger, FS.exists_, FS.read_json, FS.write_json.
    cbn [w_fs w_clock dry_run negb]. rewrite lookup_singleton_eq.
    cbn [f_readable f_data f_ctime mbind result_bind app].
    eexists. split; [reflexivity|]. cbn [w_fs set_fs].
    rewrite lookup_insert_eq. reflexivity.
Qed.

(** * More on the classifier *)

Section ClassifierCase.

Lemma lower_ascii_dot c : Ascii.eqb (Str.lower_ascii c) "." = Ascii.eqb c ".".
Proof. destruct c as [[] [] [] [] [] [] [] []]; reflexivity. Qed.

Lemma upper_lower_ascii c : Str.upper_ascii (Str.lower_ascii c) = Str.upper_ascii c.
Proof. destruct c as [[] [] [] [] [] [] [] []]; reflexivity. Qed.

Lemma lower_upper_ascii c : Str.lower_ascii (Str.upper_ascii c) = Str.lower_ascii c.
Proof. destruct c as [[] [] [] [] [] [] [] []]; reflexivity. Qed.

Lemma upper_upper_ascii c : Str.upper_ascii (Str.upper_ascii c) = Str.upper_ascii c.
Proof. destruct c as [[] [] [] [] [] [] [] []]; reflexivity. Qed.

Lemma upper_lower s : Str.upper (Str.lower s) = Str.upper s.
Proof.
  unfold Str.upper, Str.lower. induction s as [|c s IH]; [done|].
  cbn [Str.map_string]. now rewrite upper_lower_ascii, IH.
Qed.

Lemma lower_upper s : Str.lower (Str.upper s) = Str.lower s.
Proof.
  unfold Str.upper, Str.lower. induction s as [|c s IH]; [done|].
  cbn [Str.map_string]. now rewrite lower_upper_ascii, IH.
Qed.

Lemma upper_upper s : Str.upper (Str.upper s) = Str.upper s.
Proof.
  unfold Str.upper, Str.lower. induction s as [|c s IH]; [done|].
  cbn [Str.map_string]. now rewrite upper_upper_ascii, IH.
Qed.

Lemma map_string_length f s : String.length (Str.map_string f s) = String.length s.
Proof. induction s; simpl; auto. Qed.

Lemma map_string_drop f i s :
  Str.drop i (Str.map_string f s) = Str.map_string f (Str.drop i s).
Proof. revert s. induction i as [|i IH]; intros [|c s]; simpl; auto. Qed.

Lemma rfind_dot_lower s : Str.rfind_dot (Str.lower s) = Str.rfind_dot s.
Proof.
  unfold Str.lower. induction s as [|c s IH]; [done|].
  cbn [Str.map_string Str.rfind_dot]. rewrite IH. now rewrite lower_ascii_dot.
Qed.

(** Lowering the case commutes with taking the suffix. *)
Lemma suffix_of_lower nm : Path.suffix_of (Str.lower nm) = Str.lower (Path.suffix_of nm).
Proof.
  unfold Path.suffix_of. rewrite rfind_dot_lower. unfold Str.lower at 1 2.
  rewrite map_string_length. destruct (Str.rfind_dot nm) as [i|]; [|done].
  destruct (_ && _); [|done]. apply map_string_drop.
Qed.

(** The last dot, and what follows it. *)
Lemma rfind_dot_drop s i :
  Str.rfind_dot s = Some i ->
  exists rest, Str.drop i s = String "." rest /\ Str.rfind_dot rest = None /\
               String.length s = i + S (String.length rest).
Proof.
  revert i. induction s as [|c s IH]; intros i; simpl; [done|].
  destruct (Str.rfind_dot s) as [j|] eqn:E.
  - intros [= <-]. destruct (IH j eq_refl) as (rest & Hd & Hn & Hl).
    exists rest. simpl. split; [done|]. split; [done | lia].
  - destruct (Ascii.eqb_spec c ".") as [->|]; [|done]. intros [= <-].
    exists s. simpl. done.
Qed.

(** A suffix is empty, or a dot followed by text without a dot. *)
Lemma suffix_of_shape nm :
  Path.suffix_of nm = "" \/
  exists rest, Path.suffix_of nm = String "." rest /\ rest <> "" /\
               Str.rfind_dot rest = None.
Proof.
  unfold Path.suffix_of. destruct (Str.rfind_dot nm) as [i|] eqn:E; [|now left].
  destruct (_ && _) eqn:Hc; [|now left]. right.
  apply andb_true_iff in Hc as [_ Hlt]. apply Nat.ltb_lt in Hlt.
  destruct (rfind_dot_drop nm i E) as (rest & Hd & Hn & Hl).
  exists rest. split; [done|]. split; [|done]. intros ->. simpl in Hl. lia.
Qed.

Lemma lstrip_dot_no_dot s : Str.rfind_dot s = None -> Str.lstrip_dot s = s.
Proof.
  destruct s as [|c s]; [done|]. simpl.
  destruct (Str.rfind_dot s); [done|]. now destruct (Ascii.eqb c ".").
Qed.

End ClassifierCase.

(** X1: the category of a path depends on its file name up to the case of
    the letters only. *)
Theorem get_category_case_insensitive (p1 p2 : path) :
  Str.lower (Path.name p1) = Str.lower (Path.name p2) ->
  get_category p1 = get_category p2.
Proof.
  intros H. unfold get_category, Path.suffix.
  rewrite <- !suffix_of_lower, H. reflexivity.
Qed.

Lemma get_category_case_insensitive_witness :
  get_category ["home"; "u"; "MY_RESUME.PDF"] = get_category ["tmp"; "my_resume.pdf"].
Proof. apply get_category_case_insensitive. reflexivity. Defined.

Lemma get_category_not_duplicates (file_path : path) :
  get_category file_path <> "Duplicates".
Proof.
  unfold get_category.
  destruct (ext_tier media_exts _) as [c|] eqn:H1.
  { apply ext_tier_in in H1. simpl in H1.
    repeat (destruct H1 as [<- | H1]; [done|]). done. }
  destruct (keyword_tier rules _) as [c|] eqn:H2.
  { apply keyword_tier_in in H2. simpl in H2.
    repeat (destruct H2 as [<- | H2]; [done|]). done. }
  destruct (ext_tier fallback_groups _) as [c|] eqn:H3.
  { apply ext_tier_in in H3. simpl in H3.
    repeat (destruct H3 as [<- | H3]; [done|]). done. }
  destruct (negb _); done.
Qed.

(** X2: the folder of a category is never the quarantine folder
    [Duplicates], its name is not empty and does not begin with a dot. *)
Theorem category_folder_not_quarantine (src_dir file_path : path) :
  Path.child src_dir (get_category file_path) <> Path.child src_dir "Duplicates" /\
  get_category file_path <> "" /\
  Str.startswith "." (get_category file_path) = false.
Proof.
  destruct (get_category_visible file_path) as [Hv Hne].
  split; [|done]. intros E. apply child_inj in E.
  now apply get_category_not_duplicates in E.
Qed.

(** X3: among the names of ASCII characters that reach the last tier (no
    media or group extension, no keyword) two get the same category exactly
    when their extensions are equal up to case: [Misc_] and the extension in
    capitals, [Misc_Files] without extension.  (Beyond ASCII, [str.upper]
    can map two extensions to the same capitals.) *)
Theorem generic_category_by_extension (p1 p2 : path) :
  ascii_only (Path.name p1) = true ->
  ascii_only (Path.name p2) = true ->
  ext_tier media_exts (Str.lower (Path.suffix p1)) = None ->
  keyword_tier rules (Str.lower (Path.name p1)) = None ->
  ext_tier fallback_groups (Str.lower (Path.suffix p1)) = None ->
  ext_tier media_exts (Str.lower (Path.suffix p2)) = None ->
  keyword_tier rules (Str.lower (Path.name p2)) = None ->
  ext_tier fallback_groups (Str.lower (Path.suffix p2)) = None ->
  (get_category p1 = get_category p2 <->
   Str.lower (Path.suffix p1) = Str.lower (Path.suffix p2)) /\
  (get_category p1 = "Misc_Files" <-> Path.suffix p1 = "") /\
  (Path.suffix p1 <> "" ->
   get_category p1 = "Misc_" +:+ Str.upper (Str.drop 1 (Path.suffix p1))).
Proof.
  intros _ _ M1 K1 F1 M2 K2 F2.
  assert (Hform : forall p,
    ext_tier media_exts (Str.lower (Path.suffix p)) = None ->
    keyword_tier rules (Str.lower (Path.name p)) = None ->
    ext_tier fallback_groups (Str.lower (Path.suffix p)) = None ->
    (Path.suffix p = "" /\ get_category p = "Misc_Files") \/
    (exists rest, Path.suffix p = String "." rest /\
                  get_category p = "Misc_" +:+ Str.upper rest)).
  { intros p M K F. unfold get_category. rewrite M, K, F.
    unfold Path.suffix in *.
    destruct (suffix_of_shape (Path.name p)) as [-> | (rest & -> & Hne & Hnd)];
      [now left|].
    right. exists rest. split; [done|].
    change (Str.lower (String "." rest)) with (String "." (Str.lower rest)).
    cbn [String.eqb negb Ascii.eqb]. cbn [Str.lstrip_dot].
    assert (Ascii.eqb "." "." = true) as -> by reflexivity.
    rewrite lstrip_dot_no_dot by now rewrite rfind_dot_lower.
    cbn. now rewrite upper_lower. }
  assert (Hfiles : forall r, "Misc_" +:+ Str.upper r <> "Misc_Files").
  { intros r E. change "Misc_Files" with ("Misc_" +:+ "Files") in E.
    apply String.app_inj in E. pose proof E as E'.
    apply (f_equal Str.upper) in E'. rewrite upper_upper, E in E'.
    vm_compute in E'. discriminate. }
  destruct (Hform p1 M1 K1 F1) as [[S1 C1] | (r1 & S1 & C1)],
           (Hform p2 M2 K2 F2) as [[S2 C2] | (r2 & S2 & C2)];
    rewrite ?S1, ?S2, ?C1, ?C2.
  - repeat split; done.
  - split; [|repeat split; done]. split; [|done].
    intros E. symmetry in E. now apply Hfiles in E.
  - split; [|split].
    + split; [|done]. intros E. now apply Hfiles in E.
    + split; [|done]. intros E. now apply Hfiles in E.
    + done.
  - split; [|split].
    + split.
      * intros E. apply String.app_inj in E. apply (f_equal Str.lower) in E.
        rewrite !lower_upper in E.
        change (String "." (Str.lower r1) = String "." (Str.lower r2)). now rewrite E.
      * intros E. change (String "." (Str.lower r1) = String "." (Str.lower r2)) in E.
        injection E as E. f_equal.
        rewrite <- (upper_lower r1), <- (upper_lower r2). now rewrite E.
    + split; [|done]. intros E. now apply Hfiles in E.
    + done.
Qed.

Lemma generic_category_by_extension_witness :
  (get_category ["data.xyz"] = get_category ["Other.XYZ"] <->
   Str.lower (Path.suffix ["data.xyz"]) = Str.lower (Path.suffix ["Other.XYZ"])) /\
  (get_category ["data.xyz"] = "Misc_Files" <-> Path.suffix ["data.xyz"] = "") /\
  (Path.suffix ["data.xyz"] <> "" ->
   get_category ["data.xyz"] = "Misc_" +:+ Str.upper (Str.drop 1 (Path.suffix ["data.xyz"]))).
Proof.
  apply generic_category_by_extension; reflexivity.
Defined.

(** * More on [process_file] *)

Section Resolved.

Variable cwd : path.
Variable sha256_hexdigest : fdata -> string.
Variable date_str : nat -> string.

Local Abbreviation HISTORY := (HISTORY_FILE cwd).
Local Abbreviation process := (process_file cwd sha256_hexdigest date_str).
Local Abbreviation hash := (calculate_hash sha256_hexdigest).
Local Abbreviation run_files := (run cwd sha256_hexdigest date_str).

Lemma first_free_least occ cand idx fuel i :
  first_free occ cand idx fuel = Some i ->
  forall j, idx <= j < i -> occ (cand j) = true.
Proof.
  revert idx. induction fuel as [|fuel IH]; intros idx; simpl; [done|].
  destruct (occ (cand idx)) eqn:E.
  - intros H j Hj. destruct (decide (j = idx)) as [->|Hne]; [done|].
    apply (IH _ H). lia.
  - intros [= <-] j Hj. lia.
Qed.

Lemma hash_grows fs fs1 x : grows fs fs1 -> hash fs1 x = hash fs x.
Proof.
  intros Hg. unfold calculate_hash. destruct (Hg x) as [-> | [-> ->]]; done.
Qed.

Lemma is_file_grows fs fs1 x : grows fs fs1 -> FS.is_file fs1 x = FS.is_file fs x.
Proof.
  intros Hg. unfold FS.is_file. destruct (Hg x) as [-> | [-> ->]]; done.
Qed.

(** Two levels below the source directory nothing changes when the category
    folder and the quarantine folder are created. *)
Lemma occupied_below e w fs2 clk out c m :
  grows (w_fs w) fs2 ->
  (forall q, w_fs w !! q = None -> fs2 !! q = Some Dir ->
             exists c', q = Path.child (source e) c') ->
  occupied e (World fs2 (Some (claimed w)) clk out) (Path.child (Path.child (source e) c) m)
  = occupied e w (Path.child (Path.child (source e) c) m).
Proof.
  intros Hg Hnew. unfold occupied, FS.exists_. cbn [w_fs claimed simulated_files default].
  destruct (Hg (Path.child (Path.child (source e) c) m)) as [-> | [E1 E2]]; [done|].
  destruct (Hnew _ E1 E2) as [c' E]. now apply grandchild_neq_child in E.
Qed.

(** A match in the category folder, in terms of the state before the call. *)
Lemma find_duplicate_spec fs fs1 target h :
  grows fs fs1 ->
  (find_duplicate sha256_hexdigest fs1 h (FS.children fs1 target) <> None <->
   exists n, FS.is_file fs (Path.child target n) = true /\
             hash fs (Path.child target n) = h).
Proof.
  intros Hg. split.
  - destruct (find_duplicate _ _ _ _) as [x|] eqn:E; [|done]. intros _.
    apply find_duplicate_inv in E as (Hin & Hf & Hh).
    apply children_spec in Hin as [_ [n ->]]. exists n.
    rewrite <- (is_file_grows _ _ _ Hg), <- (hash_grows _ _ _ Hg). done.
  - intros (n & Hf & Hh) E. unfold find_duplicate in E.
    pose proof (find_none _ _ E (Path.child target n)) as Hx. cbv beta in Hx.
    rewrite (is_file_grows _ _ _ Hg), (hash_grows _ _ _ Hg), Hf, Hh in Hx.
    rewrite String.eqb_refl in Hx. cbn in Hx.
    assert (true = false); [|done]. apply Hx.
    apply children_spec. split; [|eauto].
    rewrite <- (is_file_grows _ _ _ Hg) in Hf. unfold FS.is_file in Hf.
    destruct (fs1 !! Path.child target n); [eauto | done].
Qed.

(** What a call that resolved a destination decided, in terms of the state
    it started from. *)
Lemma process_file_resolved e w p w' dest :
  process e w p = Ok (w', Some dest) ->
  exists fs2 idx out2 mg wx,
    grows (w_fs w) fs2 /\
    (forall q, w_fs w !! q = None -> fs2 !! q = Some Dir ->
       q = Path.child (source e) (get_category p) \/
       q = Path.child (source e) "Duplicates") /\
    FS.is_dir (w_fs w) p = false /\
    Str.startswith "." (Path.name p) = false /\
    (((exists n,
         FS.is_file (w_fs w) (Path.child (Path.child (source e) (get_category p)) n) = true /\
         hash (w_fs w) (Path.child (Path.child (source e) (get_category p)) n)
         = hash (w_fs w) p) /\
      dest = Path.child (Path.child (source e) "Duplicates")
               (quarantine_name (Path.name p) idx) /\
      (forall j, j < idx ->
         occupied e w (Path.child (Path.child (source e) "Duplicates")
                         (quarantine_name (Path.name p) j)) = true)) \/
     ((forall n,
         ~ (FS.is_file (w_fs w) (Path.child (Path.child (source e) (get_category p)) n) = true /\
            hash (w_fs w) (Path.child (Path.child (source e) (get_category p)) n)
            = hash (w_fs w) p)) /\
      1 <= idx /\
      exists ts,
        FS.st_ctime fs2 p = Ok ts /\
        (forall f, w_fs w !! p = Some (File f) -> ts = f_ctime f) /\
        dest = Path.child (Path.child (source e) (get_category p))
                 (standard_name (name_prefix (get_category p)) (date_str ts)
                    (Path.suffix p) idx) /\
        (forall j, 1 <= j < idx ->
           occupied e w (Path.child (Path.child (source e) (get_category p))
                           (standard_name (name_prefix (get_category p)) (date_str ts)
                              (Path.suffix p) j)) = true))) /\
    occupied e w dest = false /\
    execute cwd e (World fs2 (Some (claimed w)) (w_clock w) out2) p dest = Ok wx /\
    w' = print mg wx.
Proof.
  unfold process_file. intros H.
  cbn [w_fs set_fs simulated_files w_clock w_out] in H.
  destruct (FS.is_dir (w_fs w) p || Str.startswith "." (Path.name p)) eqn:Hskip; [done|].
  apply orb_false_iff in Hskip as [Hdir Hhid].
  destruct (FS.mkdir_exist_ok (w_fs w) (Path.child (source e) (get_category p)))
    as [fs1|x] eqn:Hmk; [|done].
  cbn [mbind result_bind w_fs set_fs simulated_files w_clock w_out] in H.
  pose proof (mkdir_grows _ _ _ Hmk) as (Htd & Hg1 & Hnew1).
  unfold FS.iterdir in H. rewrite Htd in H.
  cbn [mbind result_bind] in H.
  pose proof (find_duplicate_spec (w_fs w) fs1 (Path.child (source e) (get_category p))
                (hash fs1 p) Hg1) as Hspec.
  destruct (find_duplicate _ _ _ _) as [existing|] eqn:Hfd;
    rewrite (hash_grows _ _ _ Hg1) in Hspec.
  - cbn [w_fs set_fs print simulated_files w_clock w_out] in H.
    destruct (FS.mkdir_exist_ok fs1 (Path.child (source e) "Duplicates"))
      as [fs2|x] eqn:Hmk2; [|done].
    cbn [mbind result_bind w_fs set_fs simulated_files w_clock w_out] in H.
    pose proof (mkdir_grows _ _ _ Hmk2) as (Hdd & Hg2 & Hnew2).
    destruct (first_free _ _ 0 _) as [idx|] eqn:Hff; [|done].
    destruct (execute _ _ _ _ _) as [wx|x] eqn:Hex; [|done].
    cbn [mbind result_bind] in H. injection H as <- <-.
    pose proof (first_free_least _ _ _ _ _ Hff) as Hleast.
    apply first_free_free in Hff as [Hfree _].
    assert (Hg : grows (w_fs w) fs2) by (eapply grows_trans; eassumption).
    assert (Hnew : forall q, w_fs w !! q = None -> fs2 !! q = Some Dir ->
               q = Path.child (source e) (get_category p) \/
               q = Path.child (source e) "Duplicates").
    { intros q Hq Hq2. destruct (fs1 !! q) as [nd|] eqn:E1.
      - left. apply Hnew1; [done|]. destruct (Hg2 q) as [E | [E _]]; congruence.
      - right. now apply Hnew2. }
    assert (Hocc : forall m,
      occupied e (World fs2 (Some (claimed w)) (w_clock w)
                    (MsgDuplicate (Path.name p) (Path.name existing) :: w_out w))
        (Path.child (Path.child (source e) "Duplicates") m)
      = occupied e w (Path.child (Path.child (source e) "Duplicates") m)).
    { intros m. apply occupied_below; [done|]. intros q Hq Hq2.
      destruct (Hnew q Hq Hq2) as [-> | ->]; eauto. }
    eexists fs2, idx, _, _, wx.
    split; [done|]. split; [done|]. split; [done|]. split; [done|].
    split; [|split; [|split; [exact Hex | reflexivity]]].
    + left. split; [apply (proj1 Hspec); discriminate|]. split; [reflexivity|].
      intros j Hj. rewrite <- Hocc. apply Hleast. lia.
    + now rewrite <- Hocc.
  - destruct (FS.st_ctime fs1 p) as [ts|x] eqn:Hst; [|done].
    cbn [mbind result_bind] in H.
    destruct (first_free _ _ 1 _) as [idx|] eqn:Hff; [|done].
    destruct (execute _ _ _ _ _) as [wx|x] eqn:Hex; [|done].
    cbn [mbind result_bind] in H. injection H as <- <-.
    pose proof (first_free_least _ _ _ _ _ Hff) as Hleast.
    apply first_free_free in Hff as [Hfree Hone].
    assert (Hocc : forall m,
      occupied e (World fs1 (Some (claimed w)) (w_clock w) (w_out w))
        (Path.child (Path.child (source e) (get_category p)) m)
      = occupied e w (Path.child (Path.child (source e) (get_category p)) m)).
    { intros m. apply occupied_below; [done|]. intros q Hq Hq2.
      rewrite (Hnew1 q Hq Hq2). eauto. }
    eexists fs1, idx, _, _, wx.
    split; [done|]. split; [intros q Hq Hq2; left; now apply Hnew1|].
    split; [done|]. split; [done|].
    split; [|split; [|split; [exact Hex | reflexivity]]].
    + right. split.
      { intros n Hn. assert (Hx : None <> (None : option path)); [|done].
        apply (proj2 Hspec). eauto. }
      split; [done|]. exists ts. split; [done|]. split.
      { intros f Hf. unfold FS.st_ctime in Hst.
        destruct (Hg1 p) as [E | [E _]]; [|congruence].
        rewrite E, Hf in Hst. congruence. }
      split; [reflexivity|]. intros j Hj. rewrite <- Hocc. now apply Hleast.
    + now rewrite <- Hocc.
Qed.

End Resolved.

Section NamesKept.

Lemma string_app_assoc (a b c : string) : (a +:+ b) +:+ c = a +:+ b +:+ c.
Proof. unfold String.app. induction a; simpl; congruence. Qed.

Lemma rfind_dot_app a s :
  Str.rfind_dot (a +:+ s) =
  match Str.rfind_dot s with
  | Some i => Some (String.length a + i)
  | None => Str.rfind_dot a
  end.
Proof.
  unfold String.app. induction a as [|c a IH]; simpl.
  - now destruct (Str.rfind_dot s).
  - rewrite IH. now destruct (Str.rfind_dot s).
Qed.

Lemma drop_app a s : Str.drop (String.length a) (a +:+ s) = s.
Proof. unfold String.app. induction a; simpl; auto. Qed.

(** In front of a suffix any text that is not empty can stand. *)
Lemma suffix_of_app a rest :
  a <> "" -> rest <> "" -> Str.rfind_dot rest = None ->
  Path.suffix_of (a +:+ String "." rest) = String "." rest.
Proof.
  intros Ha Hr Hn. unfold Path.suffix_of. rewrite rfind_dot_app.
  cbn [Str.rfind_dot]. rewrite Hn.
  assert (Ascii.eqb "." "." = true) as -> by reflexivity.
  rewrite string_app_length. cbn [String.length].
  assert (H1 : (0 <? String.length a + 0)%nat = true).
  { apply Nat.ltb_lt. destruct a; [done | simpl; lia]. }
  assert (H2 : (String.length a + 0 <? String.length a + S (String.length rest) - 1)%nat
               = true).
  { apply Nat.ltb_lt. destruct rest; [done | simpl; lia]. }
  rewrite H1, H2. cbn [andb]. rewrite Nat.add_0_r. apply drop_app.
Qed.

Lemma take_drop i s : Str.take i s +:+ Str.drop i s = s.
Proof.
  unfold String.app. revert s. induction i as [|i IH]; intros [|c s]; simpl; try done.
  now rewrite IH.
Qed.

Lemma stem_suffix nm : Path.stem_of nm +:+ Path.suffix_of nm = nm.
Proof.
  unfold Path.stem_of, Path.suffix_of.
  assert (Hr : forall s : string, s +:+ "" = s).
  { unfold String.app. induction s; simpl; congruence. }
  destruct (Str.rfind_dot nm) as [i|]; [|apply Hr].
  destruct (_ && _); [apply take_drop | apply Hr].
Qed.

(** Text put in front of a name keeps the suffix of the name, when the name
    has one. *)
Lemma suffix_of_prepend pre nm :
  Path.suffix_of nm <> "" -> Path.suffix_of (pre +:+ nm) = Path.suffix_of nm.
Proof.
  intros Hne. destruct (suffix_of_shape nm) as [E | (rest & E & Hr & Hn)]; [done|].
  rewrite <- (stem_suffix nm) at 1. rewrite E, <- string_app_assoc.
  apply suffix_of_app; [|done|done].
  assert (Hs : Path.stem_of nm <> "").
  { unfold Path.stem_of, Path.suffix_of in *.
    destruct (Str.rfind_dot nm) as [i|]; [|done].
    destruct (_ && _) eqn:Hc; [|done].
    apply andb_true_iff in Hc as [Hi _]. apply Nat.ltb_lt in Hi.
    destruct i; [lia|]. destruct nm; done. }
  intros Hx. apply Hs. destruct pre; [done|]. unfold String.app in Hx. done.
Qed.

Lemma suffix_standard_name prefix date nm idx :
  Path.suffix_of nm <> "" ->
  Path.suffix_of (standard_name prefix date (Path.suffix_of nm) idx) = Path.suffix_of nm.
Proof.
  intros Hne. destruct (suffix_of_shape nm) as [E | (rest & E & Hr & Hn)]; [done|].
  unfold standard_name. rewrite E.
  rewrite <- !string_app_assoc. apply suffix_of_app; [|done|done].
  intros Hx. apply (f_equal String.length) in Hx.
  rewrite !string_app_length in Hx. simpl in Hx. lia.
Qed.

Lemma suffix_quarantine_name nm idx :
  Path.suffix_of nm <> "" ->
  Path.suffix_of (quarantine_name nm idx) = Path.suffix_of nm.
Proof.
  intros Hne. destruct idx as [|idx]; [done|]. cbn [quarantine_name].
  rewrite <- !string_app_assoc. now apply suffix_of_prepend.
Qed.

End NamesKept.

(** X4: the destination of a file is the first free name of its sequence:
    in the quarantine folder the name of the file, then [Duplicate_1_],
    [Duplicate_2_], ... before it; in the category folder the prefix, the
    date of the file and the least number from 1 on, with the suffix of the
    file.  Every earlier name of the sequence is taken, on disk or, in a
    simulation, by an earlier simulated move. *)
Theorem process_file_first_free_name
    (cwd : path) (sha256_hexdigest : fdata -> string) (date_str : nat -> string)
    (e : engine) (w w' : world) (p dest : path) (f : file) :
  w_fs w !! p = Some (File f) ->
  process_file cwd sha256_hexdigest date_str e w p = Ok (w', Some dest) ->
  occupied e w dest = false /\
  ((exists idx,
      dest = Path.child (Path.child (source e) "Duplicates")
               (quarantine_name (Path.name p) idx) /\
      forall j, j < idx ->
        occupied e w (Path.child (Path.child (source e) "Duplicates")
                        (quarantine_name (Path.name p) j)) = true) \/
   (exists idx,
      1 <= idx /\
      dest = Path.child (Path.child (source e) (get_category p))
               (standard_name (name_prefix (get_category p)) (date_str (f_ctime f))
                  (Path.suffix p) idx) /\
      forall j, 1 <= j < idx ->
        occupied e w (Path.child (Path.child (source e) (get_category p))
                        (standard_name (name_prefix (get_category p))
                           (date_str (f_ctime f)) (Path.suffix p) j)) = true)).
Proof.
  intros Hf H.
  apply process_file_resolved in H
    as (fs2 & idx & out2 & mg & wx & _ & _ & _ & _ & Hcase & Hfree & _).
  split; [done|].
  destruct Hcase as [(_ & -> & Hl) | (_ & H1 & ts & _ & Hts & -> & Hl)].
  - left. eauto.
  - right. rewrite (Hts f Hf) in *. eauto.
Qed.

Lemma process_file_first_free_name_witness :
  occupied Sample.real Sample.start
    ["home"; "u"; "Images"; "Img_2024-01-05_01.jpg"] = false /\
  ((exists idx,
      ["home"; "u"; "Images"; "Img_2024-01-05_01.jpg"] =
        Path.child (Path.child (source Sample.real) "Duplicates")
          (quarantine_name (Path.name (Path.child Sample.home "a.jpg")) idx) /\
      forall j, j < idx ->
        occupied Sample.real Sample.start
          (Path.child (Path.child (source Sample.real) "Duplicates")
             (quarantine_name (Path.name (Path.child Sample.home "a.jpg")) j)) = true) \/
   (exists idx,
      1 <= idx /\
      ["home"; "u"; "Images"; "Img_2024-01-05_01.jpg"] =
        Path.child (Path.child (source Sample.real)
                      (get_category (Path.child Sample.home "a.jpg")))
          (standard_name (name_prefix (get_category (Path.child Sample.home "a.jpg")))
             (Sample.date (f_ctime (MkFile true 5 (Bytes "aaa"))))
             (Path.suffix (Path.child Sample.home "a.jpg")) idx) /\
      forall j, 1 <= j < idx ->
        occupied Sample.real Sample.start
          (Path.child (Path.child (source Sample.real)
                         (get_category (Path.child Sample.home "a.jpg")))
             (standard_name (name_prefix (get_category (Path.child Sample.home "a.jpg")))
                (Sample.date (f_ctime (MkFile true 5 (Bytes "aaa"))))
                (Path.suffix (Path.child Sample.home "a.jpg")) j)) = true)).
Proof.
  apply (process_file_first_free_name Sample.home Sample.digest Sample.date
           Sample.real Sample.start (fst sample_step)).
  - vm_compute. reflexivity.
  - vm_compute. reflexivity.
Defined.

(** X5: renaming keeps the extension: when the file has a suffix, the
    destination has the same suffix, in the same case, in the category
    folder and in the quarantine folder. *)
Theorem process_file_keeps_suffix
    (cwd : path) (sha256_hexdigest : fdata -> string) (date_str : nat -> string)
    (e : engine) (w w' : world) (p dest : path) :
  Path.suffix p <> "" ->
  process_file cwd sha256_hexdigest date_str e w p = Ok (w', Some dest) ->
  Path.suffix dest = Path.suffix p.
Proof.
  intros Hs H.
  apply process_file_resolved in H
    as (fs2 & idx & out2 & mg & wx & _ & _ & _ & _ & Hcase & _).
  unfold Path.suffix in *.
  destruct Hcase as [(_ & -> & _) | (_ & _ & ts & _ & _ & -> & _)];
    rewrite name_child.
  - now apply suffix_quarantine_name.
  - now apply suffix_standard_name.
Qed.

Lemma process_file_keeps_suffix_witness :
  Path.suffix ["home"; "u"; "Images"; "Img_2024-01-05_01.jpg"] =
  Path.suffix (Path.child Sample.home "a.jpg").
Proof.
  apply (process_file_keeps_suffix Sample.home Sample.digest Sample.date
           Sample.real Sample.start (fst sample_step)).
  - vm_compute. discriminate.
  - vm_compute. reflexivity.
Defined.

(** X6: a file goes to the quarantine folder exactly when the folder of its
    category holds a file with the same hash as the file, read from the
    state before the call; the empty hash of files that cannot be read
    counts as a hash. *)
Theorem process_file_quarantine_iff
    (cwd : path) (sha256_hexdigest : fdata -> string) (date_str : nat -> string)
    (e : engine) (w w' : world) (p dest : path) :
  process_file cwd sha256_hexdigest date_str e w p = Ok (w', Some dest) ->
  (Path.parent dest = Path.child (source e) "Duplicates" <->
   exists n,
     FS.is_file (w_fs w) (Path.child (Path.child (source e) (get_category p)) n) = true /\
     calculate_hash sha256_hexdigest (w_fs w)
       (Path.child (Path.child (source e) (get_category p)) n)
     = calculate_hash sha256_hexdigest (w_fs w) p) /\
  (Path.parent dest = Path.child (source e) "Duplicates" \/
   Path.parent dest = Path.child (source e) (get_category p)).
Proof.
  intros H.
  apply process_file_resolved in H
    as (fs2 & idx & out2 & mg & wx & _ & _ & _ & _ & Hcase & _).
  destruct Hcase as [(Hdup & -> & _) | (Hno & _ & ts & _ & _ & -> & _)];
    rewrite parent_child.
  - split; [|now left]. split; done.
  - split; [|now right]. split.
    + intros E. apply child_inj in E. now apply get_category_not_duplicates in E.
    + intros (n & Hn). now apply Hno in Hn.
Qed.

Lemma process_file_quarantine_iff_witness :
  (Path.parent ["home"; "u"; "Images"; "Img_2024-01-05_01.jpg"]
   = Path.child (source Sample.real) "Duplicates" <->
   exists n,
     FS.is_file (w_fs Sample.start)
       (Path.child (Path.child (source Sample.real)
                      (get_category (Path.child Sample.home "a.jpg"))) n) = true /\
     calculate_hash Sample.digest (w_fs Sample.start)
       (Path.child (Path.child (source Sample.real)
                      (get_category (Path.child Sample.home "a.jpg"))) n)
     = calculate_hash Sample.digest (w_fs Sample.start) (Path.child Sample.home "a.jpg")) /\
  (Path.parent ["home"; "u"; "Images"; "Img_2024-01-05_01.jpg"]
   = Path.child (source Sample.real) "Duplicates" \/
   Path.parent ["home"; "u"; "Images"; "Img_2024-01-05_01.jpg"]
   = Path.child (source Sample.real) (get_category (Path.child Sample.home "a.jpg"))).
Proof.
  apply (process_file_quarantine_iff Sample.home Sample.digest Sample.date
           Sample.real Sample.start (fst sample_step)).
  vm_compute. reflexivity.
Defined.

(** * Real and simulated moves *)

Section MovesAndLedger.

Variable cwd : path.
Variable sha256_hexdigest : fdata -> string.
Variable date_str : nat -> string.

Local Abbreviation HISTORY := (HISTORY_FILE cwd).
Local Abbreviation process := (process_file cwd sha256_hexdigest date_str).
Local Abbreviation run_files := (run cwd sha256_hexdigest date_str).

(** What a move leaves in place. *)
Lemma moved_frame e fs fs' p dest t :
  moved cwd (source e) fs fs' p dest t ->
  exists f,
    fs !! p = Some (File f) /\ fs' !! dest = Some (File f) /\
    fs' !! p = None /\ fs !! dest = None /\
    forall q nd, q <> p -> q <> HISTORY -> fs !! q = Some nd -> fs' !! q = Some nd.
Proof.
  intros (n & c & m & f & fs2 & fl & -> & -> & Hn & Hc & Hm & Ep & Hg & Ht2 &
          Hnew & HD & Hfree & Hcwd & HnD & -> & Hl).
  set (p := Path.child (source e) n) in *.
  set (dest := Path.child (Path.child (source e) c) m) in *.
  assert (HpL : p <> HISTORY).
  { apply visible_not_history. unfold p. now rewrite name_child. }
  assert (HdL : dest <> HISTORY).
  { apply visible_not_history. unfold dest. now rewrite name_child. }
  assert (Hdp : dest <> p) by apply grandchild_neq_child.
  unfold HISTORY_FILE in *.
  exists f. split; [done|]. split.
  { rewrite lookup_insert_ne by congruence. apply lookup_insert_eq. }
  split.
  { rewrite lookup_insert_ne by congruence. rewrite lookup_insert_ne by done.
    apply lookup_delete_eq. }
  split.
  { destruct (Hg dest) as [E | [E _]]; congruence. }
  intros q nd Hqp HqL Hq. rewrite lookup_insert_ne by congruence.
  assert (Hq2 : fs2 !! q = Some nd).
  { destruct (Hg q) as [E | [E _]]; congruence. }
  rewrite lookup_insert_ne by congruence. now rewrite lookup_delete_ne.
Qed.

(** The ledger after a real run: the history it held, then the moves of the
    run in their order. *)
Lemma run_ledger e files : forall w w1 ds h,
  dry_run e = false ->
  tree (w_fs w) ->
  Forall (in_source e) files ->
  ledger_holds (w_fs w) HISTORY h ->
  run_files e w files = Ok (w1, ds) ->
  exists recs,
    ledger_holds (w_fs w1) HISTORY (h ++ recs) /\
    map (fun r => (e_src r, e_dst r)) recs = moves files ds.
Proof.
  induction files as [|f0 rest IH]; intros w w1 ds h Hreal Ht Hall Hl H.
  { injection H as <- <-. exists []. now rewrite app_nil_r. }
  cbn [run] in H.
  destruct (process e w f0) as [[wa d]|x] eqn:Hstep; [|done].
  cbn [mbind result_bind] in H.
  destruct (run_files e wa rest) as [[w2 ds']|x] eqn:Hrest; [|done].
  cbn [mbind result_bind] in H. injection H as <- <-.
  apply Forall_cons in Hall as [Hin Hall].
  apply step_real in Hstep as [[-> Hfs] | (dest & -> & Hmv)]; try done.
  - rewrite <- Hfs in *. cbn [moves]. eapply IH; eassumption.
  - pose proof (moved_tree _ _ _ _ _ _ _ Hmv) as Hta.
    assert (Hla : ledger_holds (w_fs wa) HISTORY (h ++ [Entry f0 dest (w_clock w)])).
    { destruct Hmv as (n & c & m & f & fs2 & fl & _ & _ & _ & _ & _ & _ & _ & _ &
                       _ & _ & _ & _ & _ & _ & Hh). now apply Hh. }
    destruct (IH wa w2 ds' _ Hreal Hta Hall Hla Hrest) as (recs & Hl1 & Hm).
    exists (Entry f0 dest (w_clock w) :: recs).
    split; [now rewrite <- app_assoc in Hl1|]. cbn [map moves e_src e_dst]. now rewrite Hm.
Qed.

(** A simulated call keeps every entry, creates no more than the folder of
    the category and the quarantine folder, and claims its destination. *)
Lemma step_simulated e w p w' d :
  dry_run e = true ->
  process e w p = Ok (w', d) ->
  (forall q nd, w_fs w !! q = Some nd -> w_fs w' !! q = Some nd) /\
  (forall q, w_fs w !! q = None -> is_Some (w_fs w' !! q) ->
     w_fs w' !! q = Some Dir /\
     exists c, q = Path.child (source e) c /\ Str.startswith "." c = false) /\
  claimed w' = list_to_set (resolved [d]) ∪ claimed w.
Proof.
  intros Hdry H. destruct d as [dest|].
  - apply process_file_resolved in H
      as (fs2 & idx & out2 & mg & wx & Hg & Hnew & _ & _ & _ & _ & Hex & ->).
    rewrite execute_dry in Hex by done. injection Hex as <-.
    cbn [w_fs print claimed simulated_files default resolved omap list_omap id
         list_to_set].
    split; [|split].
    + intros q nd Hq. destruct (Hg q) as [E | [E _]]; congruence.
    + intros q Hq [nd Hnd]. destruct (Hg q) as [E | [_ E]]; [congruence|].
      split; [done|]. destruct (Hnew q Hq E) as [-> | ->].
      * exists (get_category p). split; [done|]. apply get_category_visible.
      * exists "Duplicates". done.
    + unfold resolved. cbn. now rewrite union_empty_r_L.
  - apply process_file_inv in H as [(_ & -> & _) | H].
    + cbn [w_fs claimed simulated_files default]. split; [done|].
      split; [intros q Hq [nd Hnd]; congruence|].
      unfold resolved. cbn. now rewrite union_empty_l_L.
    + destruct H as (? & ? & ? & ? & ? & ? & ? & _). done.
Qed.

Lemma run_simulated e files : forall w w1 ds,
  dry_run e = true ->
  run_files e w files = Ok (w1, ds) ->
  (forall q nd, w_fs w !! q = Some nd -> w_fs w1 !! q = Some nd) /\
  (forall q, w_fs w !! q = None -> is_Some (w_fs w1 !! q) ->
     w_fs w1 !! q = Some Dir /\
     exists c, q = Path.child (source e) c /\ Str.startswith "." c = false) /\
  claimed w1 = list_to_set (resolved ds) ∪ claimed w.
Proof.
  induction files as [|f0 rest IH]; intros w w1 ds Hdry H.
  { injection H as <- <-. split; [done|]. split; [intros q Hq [nd Hnd]; congruence|].
    unfold resolved. cbn. now rewrite union_empty_l_L. }
  cbn [run] in H.
  destruct (process e w f0) as [[wa d]|x] eqn:Hstep; [|done].
  cbn [mbind result_bind] in H.
  destruct (run_files e wa rest) as [[w2 ds']|x] eqn:Hrest; [|done].
  cbn [mbind result_bind] in H. injection H as <- <-.
  apply step_simulated in Hstep as (K1 & N1 & C1); [|done].
  apply IH in Hrest as (K2 & N2 & C2); [|done].
  split; [|split].
  - intros q nd Hq. apply K2, K1, Hq.
  - intros q Hq Hs. destruct (w_fs wa !! q) as [nd|] eqn:Ea.
    + destruct (N1 q Hq) as [Ed Hc]; [rewrite Ea; eauto|].
      split; [|done]. apply K2. congruence.
    + now apply N2.
  - rewrite C2, C1. unfold resolved. destruct d as [dest|]; cbn.
    + rewrite union_empty_r_L.
      apply set_eq. intros x. rewrite !elem_of_union. tauto.
    + rewrite union_empty_l_L. reflexivity.
Qed.

(** With nothing claimed, what is taken is the same for a simulation and for
    a real call. *)
Lemma occupied_unclaimed s w q :
  claimed w = ∅ -> occupied (Engine s true) w q = occupied (Engine s false) w q.
Proof.
  intros Hc. unfold occupied. cbn [dry_run]. rewrite Hc.
  rewrite bool_decide_eq_false_2 by apply not_elem_of_empty. done.
Qed.

End MovesAndLedger.

(** X7: a real call on a file of the source directory moves the node of the
    file, unchanged, to the destination, which was free; the file is gone
    from its path, and every other entry but the ledger is what it was:
    nothing is overwritten. *)
Theorem process_file_moves_only_the_file
    (cwd : path) (sha256_hexdigest : fdata -> string) (date_str : nat -> string)
    (e : engine) (w w' : world) (p dest : path) :
  dry_run e = false ->
  tree (w_fs w) ->
  in_source e p ->
  process_file cwd sha256_hexdigest date_str e w p = Ok (w', Some dest) ->
  exists f,
    w_fs w !! p = Some (File f) /\
    w_fs w' !! dest = Some (File f) /\
    w_fs w' !! p = None /\
    w_fs w !! dest = None /\
    forall q nd, q <> p -> q <> HISTORY_FILE cwd ->
                 w_fs w !! q = Some nd -> w_fs w' !! q = Some nd.
Proof.
  intros Hreal Ht Hin H.
  apply step_real in H as [[? _] | (dest' & [= <-] & Hmv)]; try done.
  eapply moved_frame. eassumption.
Qed.

Lemma process_file_moves_only_the_file_witness :
  exists f,
    w_fs Sample.start !! Path.child Sample.home "a.jpg" = Some (File f) /\
    w_fs (fst sample_step) !! ["home"; "u"; "Images"; "Img_2024-01-05_01.jpg"]
      = Some (File f) /\
    w_fs (fst sample_step) !! Path.child Sample.home "a.jpg" = None /\
    w_fs Sample.start !! ["home"; "u"; "Images"; "Img_2024-01-05_01.jpg"] = None /\
    forall q nd, q <> Path.child Sample.home "a.jpg" -> q <> HISTORY_FILE Sample.home ->
                 w_fs Sample.start !! q = Some nd ->
                 w_fs (fst sample_step) !! q = Some nd.
Proof.
  apply (process_file_moves_only_the_file Sample.home Sample.digest Sample.date
           Sample.real Sample.start (fst sample_step)).
  - reflexivity.
  - apply treeb_tree. vm_compute. reflexivity.
  - eexists. reflexivity.
  - vm_compute. reflexivity.
Defined.

(** X8: after a real run the ledger holds the history it held before,
    followed by one record for each move of the run, in the order of the
    moves, each with the path the file was at and the destination the call
    resolved to; skipped paths leave no record. *)
Theorem run_appends_moves_to_ledger
    (cwd : path) (sha256_hexdigest : fdata -> string) (date_str : nat -> string)
    (e : engine) (w w1 : world) (files : list path) (ds : list (option path))
    (h : list entry) :
  dry_run e = false ->
  tree (w_fs w) ->
  Forall (in_source e) files ->
  ledger_holds (w_fs w) (HISTORY_FILE cwd) h ->
  run cwd sha256_hexdigest date_str e w files = Ok (w1, ds) ->
  exists recs,
    ledger_holds (w_fs w1) (HISTORY_FILE cwd) (h ++ recs) /\
    map (fun r => (e_src r, e_dst r)) recs = moves files ds.
Proof. intros. eapply run_ledger; eassumption. Qed.

Lemma run_appends_moves_to_ledger_witness :
  exists recs,
    ledger_holds (w_fs (fst sample_outcome)) (HISTORY_FILE Sample.home) ([] ++ recs) /\
    map (fun r => (e_src r, e_dst r)) recs = moves Sample.files (snd sample_outcome).
Proof.
  apply (run_appends_moves_to_ledger Sample.home Sample.digest Sample.date Sample.real
           Sample.start).
  - reflexivity.
  - apply treeb_tree. vm_compute. reflexivity.
  - repeat constructor; eexists; reflexivity.
  - vm_compute. reflexivity.
  - vm_compute. reflexivity.
Defined.

(** X9: a simulated run keeps every entry of the file system as it is, the
    ledger included; what it adds are folders directly in the source
    directory, with visible names; and the destinations it resolved are
    added to the claimed ones. *)
Theorem simulated_run_keeps_files
    (cwd : path) (sha256_hexdigest : fdata -> string) (date_str : nat -> string)
    (e : engine) (w w1 : world) (files : list path) (ds : list (option path)) :
  dry_run e = true ->
  run cwd sha256_hexdigest date_str e w files = Ok (w1, ds) ->
  (forall q nd, w_fs w !! q = Some nd -> w_fs w1 !! q = Some nd) /\
  (forall q, w_fs w !! q = None -> is_Some (w_fs w1 !! q) ->
     w_fs w1 !! q = Some Dir /\
     exists c, q = Path.child (source e) c /\ Str.startswith "." c = false) /\
  w_fs w1 !! HISTORY_FILE cwd = w_fs w !! HISTORY_FILE cwd /\
  claimed w1 = list_to_set (resolved ds) ∪ claimed w.
Proof.
  intros Hdry H.
  destruct (run_simulated cwd sha256_hexdigest date_str e files w w1 ds Hdry H)
    as (K & N & C).
  split; [done|]. split; [done|]. split; [|done].
  destruct (w_fs w !! HISTORY_FILE cwd) as [nd|] eqn:E; [now apply K|].
  destruct (w_fs w1 !! HISTORY_FILE cwd) as [nd|] eqn:E1; [|done].
  destruct (N _ E) as (_ & c & Hc & Hv); [rewrite E1; eauto|].
  apply (f_equal Path.name) in Hc. rewrite name_child in Hc.
  pose proof (history_hidden cwd) as Hh. rewrite Hc in Hh. congruence.
Qed.

Lemma simulated_run_keeps_files_witness :
  (forall q nd, w_fs Sample.start !! q = Some nd ->
                w_fs (fst sample_simulated) !! q = Some nd) /\
  (forall q, w_fs Sample.start !! q = None -> is_Some (w_fs (fst sample_simulated) !! q) ->
     w_fs (fst sample_simulated) !! q = Some Dir /\
     exists c, q = Path.child (source Sample.simulation) c /\
               Str.startswith "." c = false) /\
  w_fs (fst sample_simulated) !! HISTORY_FILE Sample.home
  = w_fs Sample.start !! HISTORY_FILE Sample.home /\
  claimed (fst sample_simulated)
  = list_to_set (resolved (snd sample_simulated)) ∪ claimed Sample.start.
Proof.
  apply (simulated_run_keeps_files Sample.home Sample.digest Sample.date
           Sample.simulation Sample.start (fst sample_simulated) Sample.files).
  - reflexivity.
  - vm_compute. reflexivity.
Defined.

(** X10: from a state in which nothing is claimed, a simulated call on a
    file and a real call on it resolve to the same destination, or both
    skip the file. *)
Theorem first_simulation_agrees
    (cwd : path) (sha256_hexdigest : fdata -> string) (date_str : nat -> string)
    (s : path) (w wd wr : world) (p : path) (f : file) (dd dr : option path) :
  claimed w = ∅ ->
  w_fs w !! p = Some (File f) ->
  process_file cwd sha256_hexdigest date_str (Engine s true) w p = Ok (wd, dd) ->
  process_file cwd sha256_hexdigest date_str (Engine s false) w p = Ok (wr, dr) ->
  dd = dr.
Proof.
  intros Hc Hf Hd Hr.
  assert (Hskip : forall e' w' d',
    process_file cwd sha256_hexdigest date_str e' w p = Ok (w', d') ->
    (d' = None <-> FS.is_dir (w_fs w) p || Str.startswith "." (Path.name p) = true)).
  { intros e' w' d' H. apply process_file_inv in H as [(-> & _ & Hs) | H].
    - done.
    - destruct H as (? & ? & ? & ? & ? & ? & -> & Hdir & Hhid & _).
      rewrite Hdir, Hhid. done. }
  destruct dd as [dest_d|], dr as [dest_r|]; [| | |done].
  2:{ apply Hskip in Hd. apply Hskip in Hr.
      pose proof (proj1 Hr eq_refl) as Hs. apply Hd in Hs. done. }
  2:{ apply Hskip in Hd. apply Hskip in Hr.
      pose proof (proj1 Hd eq_refl) as Hs. apply Hr in Hs. done. }
  apply process_file_resolved in Hd
    as (? & i & ? & ? & ? & _ & _ & _ & _ & Hcased & Hfreed & _).
  apply process_file_resolved in Hr
    as (? & j & ? & ? & ? & _ & _ & _ & _ & Hcaser & Hfreer & _).
  cbn [source] in *. rewrite (occupied_unclaimed s w _ Hc) in Hfreed.
  destruct Hcased as [(Hdup & -> & Hld) | (Hno & Hi & ts & _ & Hts & -> & Hld)],
           Hcaser as [(Hdup' & -> & Hlr) | (Hno' & Hj & ts' & _ & Hts' & -> & Hlr)].
  - destruct (Nat.lt_trichotomy i j) as [Hlt | [-> | Hlt]]; [|done|].
    + rewrite (Hlr i Hlt) in Hfreed. done.
    + specialize (Hld j Hlt). rewrite (occupied_unclaimed s w _ Hc) in Hld. congruence.
  - destruct Hdup as (n & Hn). now apply Hno' in Hn.
  - destruct Hdup' as (n & Hn). now apply Hno in Hn.
  - rewrite (Hts f Hf) in *. rewrite (Hts' f Hf) in *.
    destruct (Nat.lt_trichotomy i j) as [Hlt | [-> | Hlt]]; [|done|].
    + rewrite (Hlr i) in Hfreed by lia. done.
    + assert (Hx := Hld j). rewrite (occupied_unclaimed s w _ Hc) in Hx.
      rewrite Hx in Hfreer by lia. done.
Qed.

Lemma first_simulation_agrees_witness :
  snd sample_step_simulated = snd sample_step.
Proof.
  apply (first_simulation_agrees Sample.home Sample.digest Sample.date Sample.home
           Sample.start (fst sample_step_simulated) (fst sample_step)
           (Path.child Sample.home "a.jpg") (MkFile true 5 (Bytes "aaa"))).
  - reflexivity.
  - vm_compute. reflexivity.
  - vm_compute. reflexivity.
  - vm_compute. reflexivity.
Defined.

(** * Simulated undo *)

Section UndoSimulated.

Lemma undo_entries_dry e ens : forall w,
  dry_run e = true ->
  undo_entries e w ens =
  Ok (World (w_fs w) (simulated_files w) (w_clock w)
        (rev (map (undo_report (w_fs w)) ens) ++ w_out w)).
Proof.
  induction ens as [|en ens IH]; intros w Hdry.
  { cbn. now destruct w. }
  cbn [undo_entries]. unfold undo_entry. rewrite Hdry. cbn [negb].
  assert (Hstep :
    (if FS.exists_ (w_fs w) (e_dst en)
     then Ok (print (MsgRestoring (Path.name (e_dst en)) (Path.name (e_src en))) w)
     else Ok (print (MsgWarning (e_dst en)) w))
    = Ok (print (undo_report (w_fs w) en) w)).
  { unfold undo_report. now destruct (FS.exists_ _ _). }
  rewrite Hstep. cbn [mbind result_bind]. rewrite IH by done.
  cbn [w_fs print simulated_files w_clock w_out map rev].
  now rewrite <- app_assoc.
Qed.

End UndoSimulated.

(** X11: a simulated undo of a ledger with records changes nothing on disk
    and deletes no ledger; it prints the number of records and then, latest
    record first, for each record the restore it would do or the warning
    that the destination is missing, as found on the unchanged disk. *)
Theorem simulated_undo_only_reports
    (cwd : path) (e : engine) (w : world) (h : list entry) :
  dry_run e = true ->
  FS.read_json (w_fs w) (HISTORY_FILE cwd) = Ok h ->
  h <> [] ->
  undo_last_operation cwd e w =
  Ok (World (w_fs w) (simulated_files w) (w_clock w)
        (map (undo_report (w_fs w)) h ++ MsgUndoing (length h) :: w_out w)).
Proof.
  intros Hdry Hread Hne. unfold undo_last_operation.
  assert (Hex : FS.exists_ (w_fs w) (HISTORY_FILE cwd) = true).
  { unfold FS.read_json in Hread. unfold FS.exists_.
    destruct (w_fs w !! HISTORY_FILE cwd); done. }
  rewrite Hex, Hread. cbn [negb mbind result_bind].
  destruct h as [|r h]; [done|].
  rewrite undo_entries_dry by done. cbn [mbind result_bind]. rewrite Hdry.
  cbn [negb w_fs print simulated_files w_clock w_out].
  now rewrite <- map_rev, rev_involutive.
Qed.

Lemma simulated_undo_only_reports_witness :
  undo_last_operation Sample.home Sample.simulation sample_tampered =
  Ok (World (w_fs sample_tampered) (simulated_files sample_tampered)
        (w_clock sample_tampered)
        (map (undo_report (w_fs sample_tampered)) sample_history
         ++ MsgUndoing (length sample_history) :: w_out sample_tampered)).
Proof.
  apply simulated_undo_only_reports.
  - reflexivity.
  - vm_compute. reflexivity.
  - vm_compute. discriminate.
Defined.

(** * The scan of the directory *)

Section ScanRun.

Variable cwd : path.
Variable sha256_hexdigest : fdata -> string.
Variable date_str : nat -> string.

Local Abbreviation HISTORY := (HISTORY_FILE cwd).
Local Abbreviation process := (process_file cwd sha256_hexdigest date_str).
Local Abbreviation run_files := (run cwd sha256_hexdigest date_str).
Local Abbreviation scan_list := (scan_items cwd sha256_hexdigest date_str).
Local Abbreviation scan_dir := (scan cwd sha256_hexdigest date_str).

(** The scan is the run on the entries it hands over, each entry of the
    listing at most once. *)
Lemma scan_items_run e items : forall w w1 pds,
  scan_list e w items = Ok (w1, pds) ->
  run_files e w (map fst pds) = Ok (w1, map snd pds) /\
  (forall p, In p (map fst pds) -> In p items) /\
  (NoDup items -> NoDup (map fst pds)).
Proof.
  induction items as [|item rest IH]; intros w w1 pds H.
  { injection H as <- <-. split; [done|]. split; [done|]. intros _. constructor. }
  cbn [scan_items] in H. destruct (FS.is_file (w_fs w) item).
  - destruct (process e w item) as [[wa d]|x] eqn:Hstep; [|done].
    cbn [mbind result_bind] in H.
    destruct (scan_list e wa rest) as [[w2 pds']|x] eqn:Hrest; [|done].
    cbn [mbind result_bind] in H. injection H as <- <-.
    destruct (IH _ _ _ Hrest) as (Hrun & Hin & Hnd).
    cbn [map fst snd run]. rewrite Hstep. cbn [mbind result_bind].
    rewrite Hrun. cbn [mbind result_bind]. split; [done|]. split.
    + intros p [<- | Hp]; [now left | right; auto].
    + intros Hn. apply NoDup_cons in Hn as [Hni Hn]. constructor; [|auto].
      rewrite list_elem_of_In in *. auto.
  - destruct (IH _ _ _ H) as (Hrun & Hin & Hnd). split; [done|]. split.
    + intros p Hp. right. auto.
    + intros Hn. apply NoDup_cons in Hn as [_ Hn]. auto.
Qed.

Lemma children_NoDup (fs : gmap path node) (d : path) : NoDup (FS.children fs d).
Proof.
  unfold FS.children. apply NoDup_ListNoDup, List.NoDup_filter, NoDup_ListNoDup.
  assert (E : forall l : list (path * node), map fst l = l.*1).
  { induction l as [|x l IHl]; [done|]. cbn. now rewrite IHl. }
  rewrite E. apply NoDup_fst_map_to_list.
Qed.

Lemma children_in_source (e : engine) (fs : gmap path node) :
  Forall (in_source e) (FS.children fs (source e)).
Proof.
  apply Forall_forall. intros q Hq. apply list_elem_of_In, children_spec in Hq as [_ Hq].
  exact Hq.
Qed.

Lemma moved_keeps_dirs e fs fs' p dest t q :
  moved cwd (source e) fs fs' p dest t -> fs !! q = Some Dir -> fs' !! q = Some Dir.
Proof.
  intros (n & c & m & f & fs2 & fl & -> & -> & Hn & Hc & Hm & Ep & Hg & Ht2 &
          Hnew & HD & Hfree & Hcwd & HnD & -> & Hl) Hq.
  assert (Hq2 : fs2 !! q = Some Dir).
  { destruct (Hg q) as [E | [E _]]; congruence. }
  rewrite lookup_insert_ne by congruence.
  rewrite lookup_insert_ne by congruence.
  rewrite lookup_delete_ne by congruence. done.
Qed.

(** [process_file] on a hidden name. *)
Lemma process_file_hidden e w p :
  Str.startswith "." (Path.name p) = true ->
  process e w p = Ok (World (w_fs w) (Some (claimed w)) (w_clock w) (w_out w), None).
Proof. intros H. unfold process_file. cbn [w_fs]. now rewrite H, orb_true_r. Qed.

(** A visible file is never skipped. *)
Lemma process_file_visible_file e w p w' d f :
  w_fs w !! p = Some (File f) ->
  Str.startswith "." (Path.name p) = false ->
  process e w p = Ok (w', d) -> d <> None.
Proof.
  intros Hf Hv H ->. apply process_file_inv in H as [(_ & _ & Hs) | H].
  - unfold FS.is_dir in Hs. rewrite Hf, Hv in Hs. done.
  - destruct H as (? & ? & ? & ? & ? & ? & ? & _). done.
Qed.

(** The scan of a list of entries of the source directory, without
    simulation. *)
Lemma scan_items_real e items : forall w w1 pds,
  dry_run e = false ->
  tree (w_fs w) ->
  Forall (in_source e) items ->
  scan_list e w items = Ok (w1, pds) ->
  tree (w_fs w1) /\
  (forall p dest, In (p, Some dest) pds ->
     exists n f, p = Path.child (source e) n /\ Str.startswith "." n = false /\
                 w_fs w !! p = Some (File f)) /\
  (forall n f, Str.startswith "." n = false ->
     w_fs w !! Path.child (source e) n = Some (File f) ->
     In (Path.child (source e) n) items ->
     exists dest, In (Path.child (source e) n, Some dest) pds) /\
  (forall n f, Str.startswith "." n = false ->
     w_fs w1 !! Path.child (source e) n = Some (File f) ->
     w_fs w !! Path.child (source e) n = Some (File f) /\
     ~ In (Path.child (source e) n) items) /\
  (forall q, w_fs w !! q = Some Dir -> w_fs w1 !! q = Some Dir).
Proof.
  induction items as [|item rest IH]; intros w w1 pds Hreal Ht Hall H.
  { injection H as <- <-. split; [done|]. split; [intros ? ? []|].
    split; [intros ? ? _ _ []|]. split; [|done]. intros n f _ Hf. split; [done | intros []]. }
  apply Forall_cons in Hall as [Hin Hall].
  cbn [scan_items] in H. destruct (FS.is_file (w_fs w) item) eqn:Hfile.
  - destruct (process e w item) as [[wa d]|x] eqn:Hstep; [|done].
    cbn [mbind result_bind] in H.
    destruct (scan_list e wa rest) as [[w2 pds']|x] eqn:Hrest; [|done].
    cbn [mbind result_bind] in H. injection H as <- <-.
    apply is_file_true in Hfile as [fi Hfi].
    pose proof Hstep as Hstep0.
    apply step_real in Hstep as [[-> Hfs] | (dest & -> & Hmv)]; try done.
    + (* a hidden file: nothing happens *)
      assert (Hhid : Str.startswith "." (Path.name item) = true).
      { destruct (Str.startswith "." (Path.name item)) eqn:E; [done|].
        now destruct (process_file_visible_file _ _ _ _ _ _ Hfi E Hstep0). }
      rewrite <- Hfs in *.
      destruct (IH wa w2 pds' Hreal Ht Hall Hrest) as (Ht1 & A & B & C & D).
      split; [done|]. split; [|split; [|split; [|done]]].
      * intros p dest [E | Hp]; [discriminate E|]. eauto.
      * intros n f Hn Hf [E | Hr].
        { rewrite E, name_child in Hhid. congruence. }
        destruct (B n f Hn Hf Hr) as [dest Hd]. exists dest. now right.
      * intros n f Hn Hf. destruct (C n f Hn Hf) as [Hf0 Hni]. split; [done|].
        intros [E | Hr]; [|done]. rewrite E, name_child in Hhid. congruence.
    + (* a visible file: it is moved *)
      pose proof (moved_tree _ _ _ _ _ _ _ Hmv) as Hta.
      destruct (moved_frame _ _ _ _ _ _ _ Hmv) as (f0 & Ef0 & _ & Egone & _ & Hframe).
      destruct (IH wa w2 pds' Hreal Hta Hall Hrest) as (Ht1 & A & B & C & D).
      assert (Hitem : exists n, item = Path.child (source e) n /\
                                Str.startswith "." n = false).
      { destruct Hmv as (n & c & m & ? & ? & ? & -> & _ & Hn & _). eauto. }
      destruct Hitem as (ni & -> & Hni).
      split; [done|]. split; [|split; [|split]].
      * intros p dest' [[= <- <-] | Hp]; [eauto|].
        destruct (A p dest' Hp) as (n & f & -> & Hn & Hf).
        exists n, f. split; [done|]. split; [done|].
        eapply moved_file_back; eassumption.
      * intros n f Hn Hf [E | Hr]; [exists dest; left; now rewrite E|].
        destruct (decide (Path.child (source e) n = Path.child (source e) ni)) as [E|NE].
        { exists dest. left. now rewrite E. }
        destruct (B n f Hn) as [dest' Hd]; [|done|exists dest'; now right].
        apply Hframe; [done| |done]. apply visible_not_history. now rewrite name_child.
      * intros n f Hn Hf. destruct (C n f Hn Hf) as [Hfa Hnr].
        split; [eapply moved_file_back; eassumption|].
        intros [E | Hr]; [|done]. rewrite <- E in Hfa. congruence.
      * intros q Hq. apply D. eapply moved_keeps_dirs; eassumption.
  - destruct (IH w w1 pds Hreal Ht Hall H) as (Ht1 & A & B & C & D).
    split; [done|]. split; [done|]. split; [|split; [|done]].
    + intros n f Hn Hf [E | Hr]; [|eauto].
      rewrite E in Hfile. unfold FS.is_file in Hfile. now rewrite Hf in Hfile.
    + intros n f Hn Hf. destruct (C n f Hn Hf) as [Hf0 Hni]. split; [done|].
      intros [E | Hr]; [|done].
      rewrite E in Hfile. unfold FS.is_file in Hfile. now rewrite Hf0 in Hfile.
Qed.

(** The scan of a directory without visible files. *)
Lemma scan_items_idle e items : forall w,
  (forall p, In p items -> FS.is_file (w_fs w) p = true ->
             Str.startswith "." (Path.name p) = true) ->
  exists w1 pds,
    scan_list e w items = Ok (w1, pds) /\
    w_fs w1 = w_fs w /\ claimed w1 = claimed w /\ w_out w1 = w_out w /\
    Forall (fun pd => snd pd = None) pds.
Proof.
  induction items as [|item rest IH]; intros w Hh.
  { exists w, []. done. }
  cbn [scan_items]. destruct (FS.is_file (w_fs w) item) eqn:Hfile.
  - rewrite process_file_hidden by (apply Hh; [now left | done]).
    cbn [mbind result_bind].
    destruct (IH (World (w_fs w) (Some (claimed w)) (w_clock w) (w_out w)))
      as (w1 & pds & -> & E1 & E2 & E3 & Hall).
    { intros p Hp. apply Hh. now right. }
    cbn [mbind result_bind]. eexists _, _. split; [reflexivity|].
    split; [done|]. split; [done|]. split; [done|]. now constructor.
  - apply IH. intros p Hp. apply Hh. now right.
Qed.

(** A real run followed by the undo, on a directory without a ledger. *)
Lemma undo_after_real_run e files w w1 ds :
  dry_run e = false ->
  tree (w_fs w) ->
  w_fs w !! cwd = Some Dir ->
  w_fs w !! HISTORY = None ->
  Forall (in_source e) files ->
  run_files e w files = Ok (w1, ds) ->
  exists w2,
    undo_last_operation cwd e w1 = Ok w2 /\
    w_fs w2 !! HISTORY = None /\
    forall q, w_fs w2 !! q = w_fs w !! q \/
              (w_fs w2 !! q = None /\ w_fs w !! q = Some Dir).
Proof.
  intros Hreal Ht Hcwd HL Hall Hrun.
  destruct (undo_after_run cwd sha256_hexdigest date_str e files w w1 ds []
              Hreal Ht Hcwd Hall HL Hrun) as (h1 & Hl1 & Ht1 & Hnil & Hundo).
  cbn [app] in Hl1. unfold undo_last_operation. destruct h1 as [|r h1].
  - specialize (Hnil eq_refl). simpl in Hl1.
    assert (Hex : FS.exists_ (w_fs w1) HISTORY = false) by now apply exists_false.
    rewrite Hex. cbn [negb]. eexists. split; [reflexivity|].
    cbn [w_fs print]. split; [done|]. intros q. left. now rewrite Hnil.
  - destruct Hl1 as (fl & EL & Hr & Hd).
    assert (Hex : FS.exists_ (w_fs w1) HISTORY = true)
      by (apply exists_true; rewrite EL; eauto).
    rewrite Hex. cbn [negb]. unfold FS.read_json. rewrite EL, Hr, Hd.
    cbn [mbind result_bind].
    destruct (Hundo (print (MsgUndoing (length (r :: h1))) w1))
      as (wb & -> & (S1 & S2 & fL & S3)).
    { cbn [w_fs print]. split; [intros q _; now left|]. split; [done | eauto]. }
    cbn [mbind result_bind]. rewrite Hreal. cbn [negb].
    unfold FS.remove. rewrite S3. cbn [mbind result_bind].
    eexists. split; [reflexivity|]. cbn [w_fs set_fs].
    split; [apply lookup_delete_eq|]. intros q.
    destruct (decide (q = HISTORY)) as [->|Hq].
    + left. now rewrite lookup_delete_eq.
    + rewrite lookup_delete_ne by done. now apply S1.
Qed.

End ScanRun.

(** X12: a one-shot scan without simulation moves every visible file of
    the directory, each exactly once, and nothing else: the entries it
    resolved a destination for are the files that were directly in the
    directory with a name not beginning with a dot, and when it is done no
    such file is left there. *)
Theorem scan_moves_every_visible_file
    (cwd : path) (sha256_hexdigest : fdata -> string) (date_str : nat -> string)
    (e : engine) (w w1 : world) (pds : list (path * option path)) :
  dry_run e = false ->
  tree (w_fs w) ->
  scan cwd sha256_hexdigest date_str e w = Ok (w1, pds) ->
  (forall p,
     (exists dest, In (p, Some dest) pds) <->
     (exists n f, p = Path.child (source e) n /\ Str.startswith "." n = false /\
                  w_fs w !! p = Some (File f))) /\
  NoDup (map fst pds) /\
  (forall n, Str.startswith "." n = false ->
             FS.is_file (w_fs w1) (Path.child (source e) n) = false).
Proof.
  intros Hreal Ht H. unfold scan, FS.iterdir in H.
  destruct (w_fs w !! source e) as [[|?]|] eqn:Es; try done.
  cbn [mbind result_bind] in H.
  destruct (scan_items_real cwd sha256_hexdigest date_str e _ w w1 pds Hreal Ht
              (children_in_source e (w_fs w)) H) as (_ & A & B & C & _).
  destruct (scan_items_run cwd sha256_hexdigest date_str e _ w w1 pds H) as (_ & _ & Hnd).
  split; [|split].
  - intros p. split.
    + intros [dest Hd]. eauto.
    + intros (n & f & -> & Hn & Hf). apply (B n f Hn Hf).
      apply children_spec. split; [rewrite Hf; eauto | eauto].
  - apply Hnd, children_NoDup.
  - intros n Hn. destruct (FS.is_file (w_fs w1) _) eqn:E; [|done].
    apply is_file_true in E as [f Hf]. destruct (C n f Hn Hf) as [Hf0 Hni].
    destruct Hni. apply children_spec. split; [rewrite Hf0; eauto | eauto].
Qed.

Lemma scan_moves_every_visible_file_witness :
  (forall p,
     (exists dest, In (p, Some dest) (snd sample_scan)) <->
     (exists n f, p = Path.child (source Sample.real) n /\ Str.startswith "." n = false /\
                  w_fs Sample.start !! p = Some (File f))) /\
  NoDup (map fst (snd sample_scan)) /\
  (forall n, Str.startswith "." n = false ->
             FS.is_file (w_fs (fst sample_scan)) (Path.child (source Sample.real) n) = false).
Proof.
  apply (scan_moves_every_visible_file Sample.home Sample.digest Sample.date Sample.real
           Sample.start).
  - reflexivity.
  - apply treeb_tree. vm_compute. reflexivity.
  - vm_compute. reflexivity.
Defined.

(** X13: organizing is idempotent: after a one-shot scan without simulation
    a second scan of the directory, real or simulated, succeeds, resolves no
    destination, prints nothing and leaves the file system as it is. *)
Theorem scan_again_does_nothing
    (cwd : path) (sha256_hexdigest : fdata -> string) (date_str : nat -> string)
    (e : engine) (w w1 : world) (pds : list (path * option path)) :
  dry_run e = false ->
  tree (w_fs w) ->
  scan cwd sha256_hexdigest date_str e w = Ok (w1, pds) ->
  forall again : bool,
  exists w2 pds2,
    scan cwd sha256_hexdigest date_str (Engine (source e) again) w1 = Ok (w2, pds2) /\
    w_fs w2 = w_fs w1 /\
    claimed w2 = claimed w1 /\
    w_out w2 = w_out w1 /\
    Forall (fun pd => snd pd = None) pds2.
Proof.
  intros Hreal Ht H again. pose proof H as H0. unfold scan, FS.iterdir in H.
  destruct (w_fs w !! source e) as [[|?]|] eqn:Es; try done.
  cbn [mbind result_bind] in H.
  destruct (scan_items_real cwd sha256_hexdigest date_str e _ w w1 pds Hreal Ht
              (children_in_source e (w_fs w)) H) as (_ & _ & _ & C & D).
  unfold scan, FS.iterdir. cbn [source]. rewrite (D _ Es). cbn [mbind result_bind].
  apply scan_items_idle. intros p Hp Hf.
  apply children_spec in Hp as [_ [n ->]]. rewrite name_child.
  destruct (Str.startswith "." n) eqn:Hn; [done|].
  apply is_file_true in Hf as [f Hf]. destruct (C n f Hn Hf) as [Hf0 Hni].
  destruct Hni. apply children_spec. split; [rewrite Hf0; eauto | eauto].
Qed.

Lemma scan_again_does_nothing_witness :
  exists w2 pds2,
    scan Sample.home Sample.digest Sample.date (Engine (source Sample.real) true)
      (fst sample_scan) = Ok (w2, pds2) /\
    w_fs w2 = w_fs (fst sample_scan) /\
    claimed w2 = claimed (fst sample_scan) /\
    w_out w2 = w_out (fst sample_scan) /\
    Forall (fun pd => snd pd = None) pds2.
Proof.
  apply (scan_again_does_nothing Sample.home Sample.digest Sample.date Sample.real
           Sample.start (fst sample_scan) (snd sample_scan)).
  - reflexivity.
  - apply treeb_tree. vm_compute. reflexivity.
  - vm_compute. reflexivity.
Defined.

(** X14: the one-shot scan followed by [--undo]: in a directory that is part
    of a tree, run from an existing working directory without a ledger, the
    undo succeeds, deletes the ledger and leaves every file where and what
    it was before the scan; only folders can be missing. *)
Theorem scan_then_undo
    (cwd : path) (sha256_hexdigest : fdata -> string) (date_str : nat -> string)
    (e : engine) (w w1 : world) (pds : list (path * option path)) :
  dry_run e = false ->
  tree (w_fs w) ->
  w_fs w !! cwd = Some Dir ->
  w_fs w !! HISTORY_FILE cwd = None ->
  scan cwd sha256_hexdigest date_str e w = Ok (w1, pds) ->
  exists w2,
    undo_last_operation cwd e w1 = Ok w2 /\
    w_fs w2 !! HISTORY_FILE cwd = None /\
    (forall q f, w_fs w !! q = Some (File f) -> w_fs w2 !! q = Some (File f)) /\
    (forall q, w_fs w2 !! q = w_fs w !! q \/
               (w_fs w2 !! q = None /\ w_fs w !! q = Some Dir)).
Proof.
  intros Hreal Ht Hcwd HL H. unfold scan, FS.iterdir in H.
  destruct (w_fs w !! source e) as [[|?]|] eqn:Es; try done.
  cbn [mbind result_bind] in H.
  destruct (scan_items_run cwd sha256_hexdigest date_str e _ w w1 pds H)
    as (Hrun & Hsub & _).
  assert (Hall : Forall (in_source e) (map fst pds)).
  { apply Forall_forall. intros p Hp. apply list_elem_of_In, Hsub in Hp.
    apply children_spec in Hp as [_ Hp]. exact Hp. }
  destruct (undo_after_real_run cwd sha256_hexdigest date_str e (map fst pds) w w1
              (map snd pds) Hreal Ht Hcwd HL Hall Hrun) as (w2 & Hu & HL2 & Hrel).
  exists w2. split; [done|]. split; [done|]. split; [|done].
  intros q f Hq. destruct (Hrel q) as [E | [_ E]]; congruence.
Qed.

Lemma scan_then_undo_witness :
  exists w2,
    undo_last_operation Sample.home Sample.real (fst sample_scan) = Ok w2 /\
    w_fs w2 !! HISTORY_FILE Sample.home = None /\
    (forall q f, w_fs Sample.start !! q = Some (File f) -> w_fs w2 !! q = Some (File f)) /\
    (forall q, w_fs w2 !! q = w_fs Sample.start !! q \/
               (w_fs w2 !! q = None /\ w_fs Sample.start !! q = Some Dir)).
Proof.
  apply (scan_then_undo Sample.home Sample.digest Sample.date Sample.real
           Sample.start (fst sample_scan) (snd sample_scan)).
  - reflexivity.
  - apply treeb_tree. vm_compute. reflexivity.
  - vm_compute. reflexivity.
  - vm_compute. reflexivity.
  - vm_compute. reflexivity.
Defined.

(** * Errors of the ledger and of missing files *)

(** X15: of the failures of reading the ledger [_log_move] tolerates the
    parse error only.  On a readable ledger whose text is ASCII and begins
    no JSON value, which [json.load] rejects with a [JSONDecodeError], it
    succeeds, and without simulation the ledger then holds the new record
    alone, the old text being overwritten, and nothing else changes; a
    ledger that cannot be read, or a folder in its place, makes it fail, in
    a simulation as well. *)
Theorem log_move_tolerates_parse_errors_only
    (cwd : path) (e : engine) (wm wl wd : world) (src dst : path)
    (b : string) (t : nat) (fl : file) :
  no_json_value b = true ->
  w_fs wm !! HISTORY_FILE cwd = Some (File (MkFile true t (Bytes b))) ->
  w_fs wl !! HISTORY_FILE cwd = Some (File fl) ->
  f_readable fl = false ->
  w_fs wd !! HISTORY_FILE cwd = Some Dir ->
  (exists w', log_move cwd e wm src dst = Ok w' /\
              (dry_run e = true -> w' = wm) /\
              (dry_run e = false ->
               FS.read_json (w_fs w') (HISTORY_FILE cwd)
               = Ok [Entry src dst (w_clock wm)] /\
               forall q, q <> HISTORY_FILE cwd -> w_fs w' !! q = w_fs wm !! q)) /\
  log_move cwd e wl src dst = Raise PermissionError /\
  log_move cwd e wd src dst = Raise IsADirectoryError.
Proof.
  intros _ Hm Hl Hr Hd. split; [|split].
  - unfold log_move, FS.exists_, FS.read_json, FS.write_json.
    rewrite Hm. cbn [f_readable f_data f_ctime mbind result_bind app].
    destruct (dry_run e); cbn [negb mbind result_bind].
    + exists wm. done.
    + eexists. split; [reflexivity|]. split; [done|]. intros _. cbn [w_fs set_fs].
      rewrite lookup_insert_eq. split; [reflexivity|].
      intros q Hq. now rewrite lookup_insert_ne.
  - unfold log_move, FS.exists_, FS.read_json. rewrite Hl, Hr. reflexivity.
  - unfold log_move, FS.exists_, FS.read_json. rewrite Hd. reflexivity.
Qed.

Lemma log_move_tolerates_parse_errors_only_witness :
  (exists w', log_move Sample.home Sample.real (garbled_ledger Sample.home)
                ["a"] ["b"; "a"] = Ok w' /\
              (dry_run Sample.real = true -> w' = garbled_ledger Sample.home) /\
              (dry_run Sample.real = false ->
               FS.read_json (w_fs w') (HISTORY_FILE Sample.home)
               = Ok [Entry ["a"] ["b"; "a"] (w_clock (garbled_ledger Sample.home))] /\
               forall q, q <> HISTORY_FILE Sample.home ->
                         w_fs w' !! q = w_fs (garbled_ledger Sample.home) !! q)) /\
  log_move Sample.home Sample.real (locked_ledger Sample.home) ["a"] ["b"; "a"]
  = Raise PermissionError /\
  log_move Sample.home Sample.real (folder_ledger Sample.home) ["a"] ["b"; "a"]
  = Raise IsADirectoryError.
Proof.
  apply (log_move_tolerates_parse_errors_only Sample.home Sample.real
           (garbled_ledger Sample.home) (locked_ledger Sample.home)
           (folder_ledger Sample.home) ["a"] ["b"; "a"] "  history lost" 0
           (MkFile false 0 (History []))).
  - reflexivity.
  - vm_compute. reflexivity.
  - vm_compute. reflexivity.
  - reflexivity.
  - vm_compute. reflexivity.
Defined.

(** X16: without simulation [process_file] fails on a path of the source
    directory at which there is nothing, unless the name is hidden: a file
    that vanished before its turn is an error, not a skip. *)
Theorem process_file_missing_file_fails
    (cwd : path) (sha256_hexdigest : fdata -> string) (date_str : nat -> string)
    (e : engine) (w : world) (p : path) :
  dry_run e = false ->
  tree (w_fs w) ->
  in_source e p ->
  Str.startswith "." (Path.name p) = false ->
  w_fs w !! p = None ->
  exists x, process_file cwd sha256_hexdigest date_str e w p = Raise x.
Proof.
  intros Hreal Ht Hin Hv Hp.
  destruct (process_file cwd sha256_hexdigest date_str e w p) as [[w' d]|x] eqn:H;
    [|eauto].
  exfalso. pose proof H as H0.
  apply step_real in H as [[-> _] | (dest & -> & Hmv)]; try done.
  - apply process_file_inv in H0 as [(_ & _ & Hs) | H0].
    + unfold FS.is_dir in Hs. rewrite Hp, Hv in Hs. done.
    + destruct H0 as (? & ? & ? & ? & ? & ? & ? & _). done.
  - destruct Hmv as (n & c & m & f & ? & ? & -> & _ & _ & _ & _ & Ef & _). congruence.
Qed.

Lemma process_file_missing_file_fails_witness :
  exists x, process_file Sample.home Sample.digest Sample.date Sample.real Sample.start
              (Path.child Sample.home "gone.pdf") = Raise x.
Proof.
  apply process_file_missing_file_fails.
  - reflexivity.
  - apply treeb_tree. vm_compute. reflexivity.
  - eexists. reflexivity.
  - reflexivity.
  - vm_compute. reflexivity.
Defined.

